(** * Clinical Data Extractor: the extraction pipeline

    A shallow embedding of the extraction core of the repository
    ([src/utils/data_transformer.py], [src/utils/file_navigator.py],
    [src/utils/config_manager.py], [src/core/text_extractor.py],
    [src/core/data_processor.py], [src/core/extraction_engine.py]) and of
    the checks of [src/ui/main_window.py] before a run, with the properties
    of its specification, each stated over the embedded code.

    Conventions of the embedding:
    - a Python [str] is a [string]; the text is ASCII, where [str.strip]
      removes the characters 9-13, 28-31 and 32 and [str.upper] acts on
      [a]-[z] only.  [PyUnicode] has [str.strip] and [str.upper] on any
      text, as lists of code points, and [UnicodeTransformer] the gender
      transform on any text; on ASCII text they agree with [PyStr] and
      [DataTransformer];
    - a Python call that may raise returns an [outcome]: [Return v] or
      [Raise e], where [e] is an instance of [Exception]; [try]/[except] is
      [catch].  [SystemExit] is met in the constructors only
      ([Construction]);
    - a Python [float] is an IEEE 754 binary64 value ([spec_float] with
      precision 53 and maximal exponent 1024);
    - the file system, the OCR engine and the PDF library are the fields of
      a [World] record, read but never written by the pipeline; paths follow
      [posixpath];
    - the worker pool is known by the order in which its tasks complete;
    - a progress callback is the one of the application, which returns
      ([has_callback] tells whether it is given); [AnyCallback] has
      [_process_subjects] and [extract_data] for a callback that may
      raise. *)

From Stdlib Require Import String Ascii List ZArith Lia Bool Permutation.
From Stdlib Require Import Floats.SpecFloat.
From Stdlib Require Import DecimalString.
Import ListNotations.

Local Open Scope string_scope.
Local Open Scope Z_scope.

(* ================================================================== *)
(** ** Python strings *)

Module PyStr.

Definition code (c : ascii) : Z := Z.of_nat (nat_of_ascii c).

(** [str.isspace] on one ASCII character. *)
Definition is_space (c : ascii) : bool :=
  let n := code c in
  ((9 <=? n) && (n <=? 13)) || ((28 <=? n) && (n <=? 32)).

Definition is_digit (c : ascii) : bool :=
  let n := code c in (48 <=? n) && (n <=? 57).

Definition digit_value (c : ascii) : Z := code c - 48.

Definition upper_char (c : ascii) : ascii :=
  let n := code c in
  if (97 <=? n) && (n <=? 122) then ascii_of_nat (Z.to_nat (n - 32)) else c.

Definition lower_char (c : ascii) : ascii :=
  let n := code c in
  if (65 <=? n) && (n <=? 90) then ascii_of_nat (Z.to_nat (n + 32)) else c.

Fixpoint map_chars (f : ascii -> ascii) (s : string) : string :=
  match s with
  | EmptyString => EmptyString
  | String c s' => String (f c) (map_chars f s')
  end.

(** [s.upper()], [s.lower()] *)
Definition upper : string -> string := map_chars upper_char.
Definition lower : string -> string := map_chars lower_char.

(** [s.lstrip()], [s.rstrip()], [s.strip()] *)
Fixpoint lstrip (s : string) : string :=
  match s with
  | EmptyString => EmptyString
  | String c s' => if is_space c then lstrip s' else s
  end.

Fixpoint rstrip (s : string) : string :=
  match s with
  | EmptyString => EmptyString
  | String c s' =>
      match rstrip s' with
      | EmptyString => if is_space c then EmptyString else String c EmptyString
      | r => String c r
      end
  end.

Definition strip (s : string) : string := rstrip (lstrip s).

(** Truth value of a string: [bool(s)]. *)
Definition truthy (s : string) : bool :=
  match s with EmptyString => false | _ => true end.

(** [s in l] for a list of strings. *)
Definition mem (s : string) (l : list string) : bool :=
  existsb (String.eqb s) l.

(** [sep.join(l)] *)
Definition join (sep : string) (l : list string) : string :=
  String.concat sep l.

(** [c in s] for a character. *)
Fixpoint contains_char (c : ascii) (s : string) : bool :=
  match s with
  | EmptyString => false
  | String d s' => Ascii.eqb c d || contains_char c s'
  end.

(** [s.split(c, 1)] when [c in s]: the text before and after the first
    occurrence of [c]. *)
Fixpoint split_first (c : ascii) (s : string) : string * string :=
  match s with
  | EmptyString => (EmptyString, EmptyString)
  | String d s' =>
      if Ascii.eqb c d then (EmptyString, s')
      else let '(a, b) := split_first c s' in (String d a, b)
  end.

(** [s.split()]: the maximal runs of non-whitespace characters.
    [cur] is the run being read, reversed into place by [String]. *)
Fixpoint split_ws_from (s : string) (cur : string) : list string :=
  match s with
  | EmptyString => if truthy cur then [cur] else []
  | String c s' =>
      if is_space c
      then (if truthy cur then cur :: split_ws_from s' EmptyString
            else split_ws_from s' EmptyString)
      else split_ws_from s' (cur ++ String c EmptyString)
  end.

Definition split_ws (s : string) : list string := split_ws_from s EmptyString.

(** [s.isdigit()] on ASCII text: non-empty and digits only. *)
Fixpoint all_digits (s : string) : bool :=
  match s with
  | EmptyString => true
  | String c s' => is_digit c && all_digits s'
  end.

Definition isdigit (s : string) : bool := truthy s && all_digits s.

(** [s.split(c)]: the pieces between the occurrences of [c]. *)
Fixpoint split_on (c : ascii) (s : string) : list string :=
  match s with
  | EmptyString => [EmptyString]
  | String d s' =>
      if Ascii.eqb c d then EmptyString :: split_on c s'
      else match split_on c s' with
           | p :: ps => String d p :: ps
           | [] => [String d EmptyString]
           end
  end.

(** [s.rfind(c)]: index of the last occurrence of [c], or [-1]. *)
Fixpoint rfind_from (c : ascii) (s : string) (i : Z) (last : Z) : Z :=
  match s with
  | EmptyString => last
  | String d s' => rfind_from c s' (i + 1) (if Ascii.eqb c d then i else last)
  end.

Definition rfind (c : ascii) (s : string) : Z := rfind_from c s 0 (-1).

Definition len (s : string) : Z := Z.of_nat (String.length s).

(** [s[i:]] for [0 <= i]. *)
Definition drop (i : Z) (s : string) : string :=
  String.substring (Z.to_nat i) (String.length s - Z.to_nat i) s.

(** [str(n)] for an integer. *)
Definition str_of_int (n : Z) : string :=
  NilZero.string_of_int (Z.to_int n).

End PyStr.

(* ================================================================== *)
(** ** Exceptions and results *)

Inductive exn_class :=
| ValueError | TypeError | OverflowError | AttributeError
| OSError | FileNotFoundError | PermissionError | NotADirectoryError
| UnicodeDecodeError
| ReError                       (* re.error *)
| TesseractNotFoundError        (* text_extractor.TesseractNotFoundError *)
| PyTesseractNotFound           (* pytesseract.TesseractNotFoundError *)
| OtherException.

(** An exception object: its class and [str(e)]. *)
Record exn := mkExn { exn_cls : exn_class; exn_str : string }.

Inductive outcome (A : Type) :=
| Return (a : A)
| Raise (e : exn).
Arguments Return {A} a.
Arguments Raise {A} e.

Definition bind {A B} (c : outcome A) (k : A -> outcome B) : outcome B :=
  match c with
  | Return a => k a
  | Raise e => Raise e
  end.

(** [try: c  except <classes accepted by handles> as e: h e] *)
Definition catch {A} (c : outcome A) (handles : exn_class -> bool)
    (h : exn -> outcome A) : outcome A :=
  match c with
  | Return a => Return a
  | Raise e => if handles (exn_cls e) then h e else Raise e
  end.

Declare Scope py_scope.
Notation "x <- c ;; k" := (bind c (fun x => k))
  (at level 61, c at next level, right associativity) : py_scope.
Local Open Scope py_scope.

(** [except Exception]: every class of this model derives from [Exception].
    [SystemExit], which does not, is raised in the constructors only: see
    [Construction]. *)
Definition any_exception (_ : exn_class) : bool := true.

(** [isinstance(e, FileNotFoundError)] *)
Definition is_file_not_found (c : exn_class) : bool :=
  match c with FileNotFoundError => true | _ => false end.

(** [isinstance(e, (ValueError, TypeError))]; [UnicodeDecodeError] derives
    from [ValueError]. *)
Definition is_value_or_type_error (c : exn_class) : bool :=
  match c with ValueError | TypeError | UnicodeDecodeError => true | _ => false end.

Definition is_re_error (c : exn_class) : bool :=
  match c with ReError => true | _ => false end.

(** Values that reach the report: [None], a [str] or an [int]. *)
Inductive pyval :=
| PNone
| PStr (s : string)
| PInt (n : Z).

(* ================================================================== *)
(** ** Python floats (binary64) *)

Module PyFloat.

Definition prec : Z := 53.
Definition emax : Z := 1024.

(** The correctly rounded binary64 value of [(-1)^neg * m * 10^e10],
    for [0 <= m]. *)
Definition of_decimal (neg : bool) (m : Z) (e10 : Z) : spec_float :=
  if m =? 0 then S754_zero neg
  else if 0 <=? e10
  then binary_normalize prec emax (cond_Zopp neg (m * 10 ^ e10)) 0 neg
  else
    let '(q, e, l) := SFdiv_core_binary prec emax m 0 (10 ^ (- e10)) 0 in
    binary_round_aux prec emax neg q e l.

(** A digit part of a float literal: [digit (["_"] digit)*].  [scan_digits]
    continues after a digit was read; it returns the value, the number of
    digits and the unread text. *)
Fixpoint scan_digits (s : string) (v : Z) (n : Z) : Z * Z * string :=
  match s with
  | String c s' =>
      if PyStr.is_digit c
      then scan_digits s' (10 * v + PyStr.digit_value c) (n + 1)
      else if Ascii.eqb c "_"
      then match s' with
           | String d _ => if PyStr.is_digit d then scan_digits s' v n else (v, n, s)
           | EmptyString => (v, n, s)
           end
      else (v, n, s)
  | EmptyString => (v, n, s)
  end.

Definition digitpart (s : string) : option (Z * Z * string) :=
  match s with
  | String c s' =>
      if PyStr.is_digit c then Some (scan_digits s' (PyStr.digit_value c) 1) else None
  | EmptyString => None
  end.

(** An optional sign. *)
Definition sign (s : string) : bool * string :=
  match s with
  | String "-" s' => (true, s')
  | String "+" s' => (false, s')
  | _ => (false, s)
  end.

(** The exponent of a float literal, [None] when malformed. *)
Definition exponent (s : string) : option Z :=
  match s with
  | EmptyString => Some 0
  | String c s' =>
      if Ascii.eqb c "e" || Ascii.eqb c "E"
      then let '(neg, r) := sign s' in
           match digitpart r with
           | Some (v, _, EmptyString) => Some (cond_Zopp neg v)
           | _ => None
           end
      else None
  end.

(** [mantissa, number of fraction digits, unread text] of
    [digitpart ["." [digitpart]] | "." digitpart]. *)
Definition pointfloat (s : string) : option (Z * Z * string) :=
  let '(iv, has_int, r1) :=
    match digitpart s with
    | Some (v, _, r) => (v, true, r)
    | None => (0, false, s)
    end in
  match r1 with
  | String "." r =>
      match digitpart r with
      | Some (fv, fn, r2) => Some (iv * 10 ^ fn + fv, fn, r2)
      | None => if has_int then Some (iv, 0, r) else None
      end
  | _ => if has_int then Some (iv, 0, r1) else None
  end.

Definition could_not_convert (s : string) : exn :=
  mkExn ValueError ("could not convert string to float: '" ++ s ++ "'").

(** [float(s)] *)
Definition of_string (s : string) : outcome spec_float :=
  let t := PyStr.strip s in
  let '(neg, body) := sign t in
  let low := PyStr.lower body in
  if String.eqb low "inf" || String.eqb low "infinity"
  then Return (S754_infinity neg)
  else if String.eqb low "nan" then Return S754_nan
  else
    match pointfloat body with
    | Some (m, k, r) =>
        match exponent r with
        | Some e => Return (of_decimal neg m (e - k))
        | None => Raise (could_not_convert s)
        end
    | None => Raise (could_not_convert s)
    end.

(** The integer part, rounded toward zero, of a finite float. *)
Definition trunc_finite (s : bool) (m : positive) (e : Z) : Z :=
  cond_Zopp s (if 0 <=? e then Z.pos m * 2 ^ e else Z.pos m / 2 ^ (- e)).

(** [int(x)] *)
Definition to_int (x : spec_float) : outcome Z :=
  match x with
  | S754_nan => Raise (mkExn ValueError "cannot convert float NaN to integer")
  | S754_infinity _ =>
      Raise (mkExn OverflowError "cannot convert float infinity to integer")
  | S754_zero _ => Return 0
  | S754_finite s m e => Return (trunc_finite s m e)
  end.

(** [math.ceil(x)] *)
Definition ceil (x : spec_float) : outcome Z :=
  match x with
  | S754_nan => Raise (mkExn ValueError "cannot convert float NaN to integer")
  | S754_infinity _ =>
      Raise (mkExn OverflowError "cannot convert float infinity to integer")
  | S754_zero _ => Return 0
  | S754_finite s m e =>
      let n := cond_Zopp s (Z.pos m) in
      Return (if 0 <=? e then n * 2 ^ e else - ((- n) / 2 ^ (- e)))
  end.

(** The conversion of an [int] operand of a float operation. *)
Definition of_int (n : Z) : outcome spec_float :=
  match binary_normalize prec emax n 0 false with
  | S754_infinity _ =>
      Raise (mkExn OverflowError "int too large to convert to float")
  | x => Return x
  end.

Definition sub (x y : spec_float) : spec_float := SFsub prec emax x y.

(** [x > y] *)
Definition gt (x y : spec_float) : bool :=
  match SFcompare x y with Some Gt => true | _ => false end.

(** The literal [0.50]. *)
Definition half : spec_float := of_decimal false 50 (-2).

End PyFloat.

(* ================================================================== *)
(** ** The [re] module, at its interface

    [re.search] is library code.  A match object is known by
    [match.groups()]: one entry per capture group of the pattern, [None] for
    a group that took no part in the match. *)

Inductive re_flag := IGNORECASE | MULTILINE.

Record re_match := mkMatch { groups : list (option string) }.

(** [re.search(pattern, text, flags)]: raises [re.error] when the pattern
    does not compile, returns [None] when nothing matches. *)
Definition regex_engine : Type :=
  string -> string -> list re_flag -> outcome (option re_match).

(* ================================================================== *)
(** ** [src/utils/data_transformer.py] *)

Module DataTransformer.

(** [round_age]: up only if the decimal part exceeds 0.50. *)
Definition round_age (age_str : string) : outcome (option Z) :=
  catch
    (age_float <- PyFloat.of_string (PyStr.strip age_str) ;;
     n <- PyFloat.to_int age_float ;;
     nf <- PyFloat.of_int n ;;
     let decimal_part := PyFloat.sub age_float nf in
     if PyFloat.gt decimal_part PyFloat.half
     then (c <- PyFloat.ceil age_float ;; Return (Some c))
     else (i <- PyFloat.to_int age_float ;; Return (Some i)))
    is_value_or_type_error
    (fun _ => Return None).

Definition female_terms : list string := ["BAYAN"; "K"; "KADIN"; "F"; "FEMALE"].
Definition male_terms : list string := ["BAY"; "E"; "ERKEK"; "M"; "MALE"].

Definition map_turkish_gender (gender_str : string) : string :=
  let gender_clean := PyStr.upper (PyStr.strip gender_str) in
  if PyStr.mem gender_clean female_terms then "Female"
  else if PyStr.mem gender_clean male_terms then "Male"
  else PyStr.strip gender_str.

(** [transform_value]: the raw value is a [str]. *)
Definition transform_value (value : string) (transform_type : string)
  : outcome pyval :=
  if String.eqb transform_type "age_round"
  then (r <- round_age value ;;
        Return (match r with Some n => PInt n | None => PNone end))
  else if String.eqb transform_type "gender_turkish"
  then Return (PStr (map_turkish_gender value))
  else if String.eqb transform_type "none" || negb (PyStr.truthy transform_type)
  then Return (PStr (PyStr.strip value))
  else Return (PStr value).

(** [extract_with_pattern], over the engine [re_search] that stands for
    [re.search(pattern, text, flags)]. *)
Definition extract_with_pattern (re_search : regex_engine)
    (text pattern : string) : outcome (option string) :=
  catch
    (m <- re_search pattern text [IGNORECASE; MULTILINE] ;;
     match m with
     | Some mt =>
         match groups mt with
         | [] => Return None
         | g1 :: _ =>
             match g1 with
             | Some s => Return (Some (PyStr.strip s))
             | None =>
                 Raise (mkExn AttributeError
                          "'NoneType' object has no attribute 'strip'")
             end
         end
     | None => Return None
     end)
    is_re_error
    (fun _ => Return None).

End DataTransformer.

(* ================================================================== *)
(** ** Text beyond ASCII

    [str.strip] and [str.upper] on any text.  A [str] is the list of its
    code points; the tables are those of Unicode 14.0, as CPython 3.11
    has them.  [str.upper] maps every character by itself, some to more
    than one character. *)

Module PyUnicode.

Definition str : Type := list Z.

(** The code points of an ASCII text. *)
Definition of_ascii (s : string) : str :=
  map PyStr.code (list_ascii_of_string s).

(** [s.isascii()] *)
Definition isascii (s : string) : bool :=
  forallb (fun c => PyStr.code c <? 128) (list_ascii_of_string s).

(** [str.isspace] on one character: the characters that [str.strip]
    removes. *)
Definition is_space (c : Z) : bool :=
  ((9 <=? c) && (c <=? 13)) || ((28 <=? c) && (c <=? 32))
  || (c =? 133) || (c =? 160) || (c =? 5760)
  || ((8192 <=? c) && (c <=? 8202))
  || (c =? 8232) || (c =? 8233) || (c =? 8239) || (c =? 8287)
  || (c =? 12288).

(** The characters that [str.upper] changes, each with its upper case. *)
Definition upper_table : list (Z * list Z) :=
  [
   (97, [65]); (98, [66]); (99, [67]); (100, [68]); (101, [69]); (102, [70]);
   (103, [71]); (104, [72]); (105, [73]); (106, [74]); (107, [75]);
   (108, [76]); (109, [77]); (110, [78]); (111, [79]); (112, [80]);
   (113, [81]); (114, [82]); (115, [83]); (116, [84]); (117, [85]);
   (118, [86]); (119, [87]); (120, [88]); (121, [89]); (122, [90]);
   (181, [924]); (223, [83; 83]); (224, [192]); (225, [193]); (226, [194]);
   (227, [195]); (228, [196]); (229, [197]); (230, [198]); (231, [199]);
   (232, [200]); (233, [201]); (234, [202]); (235, [203]); (236, [204]);
   (237, [205]); (238, [206]); (239, [207]); (240, [208]); (241, [209]);
   (242, [210]); (243, [211]); (244, [212]); (245, [213]); (246, [214]);
   (248, [216]); (249, [217]); (250, [218]); (251, [219]); (252, [220]);
   (253, [221]); (254, [222]); (255, [376]); (257, [256]); (259, [258]);
   (261, [260]); (263, [262]); (265, [264]); (267, [266]); (269, [268]);
   (271, [270]); (273, [272]); (275, [274]); (277, [276]); (279, [278]);
   (281, [280]); (283, [282]); (285, [284]); (287, [286]); (289, [288]);
   (291, [290]); (293, [292]); (295, [294]); (297, [296]); (299, [298]);
   (301, [300]); (303, [302]); (305, [73]); (307, [306]); (309, [308]);
   (311, [310]); (314, [313]); (316, [315]); (318, [317]); (320, [319]);
   (322, [321]); (324, [323]); (326, [325]); (328, [327]); (329, [700; 78]);
   (331, [330]); (333, [332]); (335, [334]); (337, [336]); (339, [338]);
   (341, [340]); (343, [342]); (345, [344]); (347, [346]); (349, [348]);
   (351, [350]); (353, [352]); (355, [354]); (357, [356]); (359, [358]);
   (361, [360]); (363, [362]); (365, [364]); (367, [366]); (369, [368]);
   (371, [370]); (373, [372]); (375, [374]); (378, [377]); (380, [379]);
   (382, [381]); (383, [83]); (384, [579]); (387, [386]); (389, [388]);
   (392, [391]); (396, [395]); (402, [401]); (405, [502]); (409, [408]);
   (410, [573]); (414, [544]); (417, [416]); (419, [418]); (421, [420]);
   (424, [423]); (429, [428]); (432, [431]); (436, [435]); (438, [437]);
   (441, [440]); (445, [444]); (447, [503]); (453, [452]); (454, [452]);
   (456, [455]); (457, [455]); (459, [458]); (460, [458]); (462, [461]);
   (464, [463]); (466, [465]); (468, [467]); (470, [469]); (472, [471]);
   (474, [473]); (476, [475]); (477, [398]); (479, [478]); (481, [480]);
   (483, [482]); (485, [484]); (487, [486]); (489, [488]); (491, [490]);
   (493, [492]); (495, [494]); (496, [74; 780]); (498, [497]); (499, [497]);
   (501, [500]); (505, [504]); (507, [506]); (509, [508]); (511, [510]);
   (513, [512]); (515, [514]); (517, [516]); (519, [518]); (521, [520]);
   (523, [522]); (525, [524]); (527, [526]); (529, [528]); (531, [530]);
   (533, [532]); (535, [534]); (537, [536]); (539, [538]); (541, [540]);
   (543, [542]); (547, [546]); (549, [548]); (551, [550]); (553, [552]);
   (555, [554]); (557, [556]); (559, [558]); (561, [560]); (563, [562]);
   (572, [571]); (575, [11390]); (576, [11391]); (578, [577]); (583, [582]);
   (585, [584]); (587, [586]); (589, [588]); (591, [590]); (592, [11375]);
   (593, [11373]); (594, [11376]); (595, [385]); (596, [390]); (598, [393]);
   (599, [394]); (601, [399]); (603, [400]); (604, [42923]); (608, [403]);
   (609, [42924]); (611, [404]); (613, [42893]); (614, [42922]); (616, [407]);
   (617, [406]); (618, [42926]); (619, [11362]); (620, [42925]); (623, [412]);
   (625, [11374]); (626, [413]); (629, [415]); (637, [11364]); (640, [422]);
   (642, [42949]); (643, [425]); (647, [42929]); (648, [430]); (649, [580]);
   (650, [433]); (651, [434]); (652, [581]); (658, [439]); (669, [42930]);
   (670, [42928]); (837, [921]); (881, [880]); (883, [882]); (887, [886]);
   (891, [1021]); (892, [1022]); (893, [1023]); (912, [921; 776; 769]);
   (940, [902]); (941, [904]); (942, [905]); (943, [906]);
   (944, [933; 776; 769]); (945, [913]); (946, [914]); (947, [915]);
   (948, [916]); (949, [917]); (950, [918]); (951, [919]); (952, [920]);
   (953, [921]); (954, [922]); (955, [923]); (956, [924]); (957, [925]);
   (958, [926]); (959, [927]); (960, [928]); (961, [929]); (962, [931]);
   (963, [931]); (964, [932]); (965, [933]); (966, [934]); (967, [935]);
   (968, [936]); (969, [937]); (970, [938]); (971, [939]); (972, [908]);
   (973, [910]); (974, [911]); (976, [914]); (977, [920]); (981, [934]);
   (982, [928]); (983, [975]); (985, [984]); (987, [986]); (989, [988]);
   (991, [990]); (993, [992]); (995, [994]); (997, [996]); (999, [998]);
   (1001, [1000]); (1003, [1002]); (1005, [1004]); (1007, [1006]);
   (1008, [922]); (1009, [929]); (1010, [1017]); (1011, [895]); (1013, [917]);
   (1016, [1015]); (1019, [1018]); (1072, [1040]); (1073, [1041]);
   (1074, [1042]); (1075, [1043]); (1076, [1044]); (1077, [1045]);
   (1078, [1046]); (1079, [1047]); (1080, [1048]); (1081, [1049]);
   (1082, [1050]); (1083, [1051]); (1084, [1052]); (1085, [1053]);
   (1086, [1054]); (1087, [1055]); (1088, [1056]); (1089, [1057]);
   (1090, [1058]); (1091, [1059]); (1092, [1060]); (1093, [1061]);
   (1094, [1062]); (1095, [1063]); (1096, [1064]); (1097, [1065]);
   (1098, [1066]); (1099, [1067]); (1100, [1068]); (1101, [1069]);
   (1102, [1070]); (1103, [1071]); (1104, [1024]); (1105, [1025]);
   (1106, [1026]); (1107, [1027]); (1108, [1028]); (1109, [1029]);
   (1110, [1030]); (1111, [1031]); (1112, [1032]); (1113, [1033]);
   (1114, [1034]); (1115, [1035]); (1116, [1036]); (1117, [1037]);
   (1118, [1038]); (1119, [1039]); (1121, [1120]); (1123, [1122]);
   (1125, [1124]); (1127, [1126]); (1129, [1128]); (1131, [1130]);
   (1133, [1132]); (1135, [1134]); (1137, [1136]); (1139, [1138]);
   (1141, [1140]); (1143, [1142]); (1145, [1144]); (1147, [1146]);
   (1149, [1148]); (1151, [1150]); (1153, [1152]); (1163, [1162]);
   (1165, [1164]); (1167, [1166]); (1169, [1168]); (1171, [1170]);
   (1173, [1172]); (1175, [1174]); (1177, [1176]); (1179, [1178]);
   (1181, [1180]); (1183, [1182]); (1185, [1184]); (1187, [1186]);
   (1189, [1188]); (1191, [1190]); (1193, [1192]); (1195, [1194]);
   (1197, [1196]); (1199, [1198]); (1201, [1200]); (1203, [1202]);
   (1205, [1204]); (1207, [1206]); (1209, [1208]); (1211, [1210]);
   (1213, [1212]); (1215, [1214]); (1218, [1217]); (1220, [1219]);
   (1222, [1221]); (1224, [1223]); (1226, [1225]); (1228, [1227]);
   (1230, [1229]); (1231, [1216]); (1233, [1232]); (1235, [1234]);
   (1237, [1236]); (1239, [1238]); (1241, [1240]); (1243, [1242]);
   (1245, [1244]); (1247, [1246]); (1249, [1248]); (1251, [1250]);
   (1253, [1252]); (1255, [1254]); (1257, [1256]); (1259, [1258]);
   (1261, [1260]); (1263, [1262]); (1265, [1264]); (1267, [1266]);
   (1269, [1268]); (1271, [1270]); (1273, [1272]); (1275, [1274]);
   (1277, [1276]); (1279, [1278]); (1281, [1280]); (1283, [1282]);
   (1285, [1284]); (1287, [1286]); (1289, [1288]); (1291, [1290]);
   (1293, [1292]); (1295, [1294]); (1297, [1296]); (1299, [1298]);
   (1301, [1300]); (1303, [1302]); (1305, [1304]); (1307, [1306]);
   (1309, [1308]); (1311, [1310]); (1313, [1312]); (1315, [1314]);
   (1317, [1316]); (1319, [1318]); (1321, [1320]); (1323, [1322]);
   (1325, [1324]); (1327, [1326]); (1377, [1329]); (1378, [1330]);
   (1379, [1331]); (1380, [1332]); (1381, [1333]); (1382, [1334]);
   (1383, [1335]); (1384, [1336]); (1385, [1337]); (1386, [1338]);
   (1387, [1339]); (1388, [1340]); (1389, [1341]); (1390, [1342]);
   (1391, [1343]); (1392, [1344]); (1393, [1345]); (1394, [1346]);
   (1395, [1347]); (1396, [1348]); (1397, [1349]); (1398, [1350]);
   (1399, [1351]); (1400, [1352]); (1401, [1353]); (1402, [1354]);
   (1403, [1355]); (1404, [1356]); (1405, [1357]); (1406, [1358]);
   (1407, [1359]); (1408, [1360]); (1409, [1361]); (1410, [1362]);
   (1411, [1363]); (1412, [1364]); (1413, [1365]); (1414, [1366]);
   (1415, [1333; 1362]); (4304, [7312]); (4305, [7313]); (4306, [7314]);
   (4307, [7315]); (4308, [7316]); (4309, [7317]); (4310, [7318]);
   (4311, [7319]); (4312, [7320]); (4313, [7321]); (4314, [7322]);
   (4315, [7323]); (4316, [7324]); (4317, [7325]); (4318, [7326]);
   (4319, [7327]); (4320, [7328]); (4321, [7329]); (4322, [7330]);
   (4323, [7331]); (4324, [7332]); (4325, [7333]); (4326, [7334]);
   (4327, [7335]); (4328, [7336]); (4329, [7337]); (4330, [7338]);
   (4331, [7339]); (4332, [7340]); (4333, [7341]); (4334, [7342]);
   (4335, [7343]); (4336, [7344]); (4337, [7345]); (4338, [7346]);
   (4339, [7347]); (4340, [7348]); (4341, [7349]); (4342, [7350]);
   (4343, [7351]); (4344, [7352]); (4345, [7353]); (4346, [7354]);
   (4349, [7357]); (4350, [7358]); (4351, [7359]); (5112, [5104]);
   (5113, [5105]); (5114, [5106]); (5115, [5107]); (5116, [5108]);
   (5117, [5109]); (7296, [1042]); (7297, [1044]); (7298, [1054]);
   (7299, [1057]); (7300, [1058]); (7301, [1058]); (7302, [1066]);
   (7303, [1122]); (7304, [42570]); (7545, [42877]); (7549, [11363]);
   (7566, [42950]); (7681, [7680]); (7683, [7682]); (7685, [7684]);
   (7687, [7686]); (7689, [7688]); (7691, [7690]); (7693, [7692]);
   (7695, [7694]); (7697, [7696]); (7699, [7698]); (7701, [7700]);
   (7703, [7702]); (7705, [7704]); (7707, [7706]); (7709, [7708]);
   (7711, [7710]); (7713, [7712]); (7715, [7714]); (7717, [7716]);
   (7719, [7718]); (7721, [7720]); (7723, [7722]); (7725, [7724]);
   (7727, [7726]); (7729, [7728]); (7731, [7730]); (7733, [7732]);
   (7735, [7734]); (7737, [7736]); (7739, [7738]); (7741, [7740]);
   (7743, [7742]); (7745, [7744]); (7747, [7746]); (7749, [7748]);
   (7751, [7750]); (7753, [7752]); (7755, [7754]); (7757, [7756]);
   (7759, [7758]); (7761, [7760]); (7763, [7762]); (7765, [7764]);
   (7767, [7766]); (7769, [7768]); (7771, [7770]); (7773, [7772]);
   (7775, [7774]); (7777, [7776]); (7779, [7778]); (7781, [7780]);
   (7783, [7782]); (7785, [7784]); (7787, [7786]); (7789, [7788]);
   (7791, [7790]); (7793, [7792]); (7795, [7794]); (7797, [7796]);
   (7799, [7798]); (7801, [7800]); (7803, [7802]); (7805, [7804]);
   (7807, [7806]); (7809, [7808]); (7811, [7810]); (7813, [7812]);
   (7815, [7814]); (7817, [7816]); (7819, [7818]); (7821, [7820]);
   (7823, [7822]); (7825, [7824]); (7827, [7826]); (7829, [7828]);
   (7830, [72; 817]); (7831, [84; 776]); (7832, [87; 778]); (7833, [89; 778]);
   (7834, [65; 702]); (7835, [7776]); (7841, [7840]); (7843, [7842]);
   (7845, [7844]); (7847, [7846]); (7849, [7848]); (7851, [7850]);
   (7853, [7852]); (7855, [7854]); (7857, [7856]); (7859, [7858]);
   (7861, [7860]); (7863, [7862]); (7865, [7864]); (7867, [7866]);
   (7869, [7868]); (7871, [7870]); (7873, [7872]); (7875, [7874]);
   (7877, [7876]); (7879, [7878]); (7881, [7880]); (7883, [7882]);
   (7885, [7884]); (7887, [7886]); (7889, [7888]); (7891, [7890]);
   (7893, [7892]); (7895, [7894]); (7897, [7896]); (7899, [7898]);
   (7901, [7900]); (7903, [7902]); (7905, [7904]); (7907, [7906]);
   (7909, [7908]); (7911, [7910]); (7913, [7912]); (7915, [7914]);
   (7917, [7916]); (7919, [7918]); (7921, [7920]); (7923, [7922]);
   (7925, [7924]); (7927, [7926]); (7929, [7928]); (7931, [7930]);
   (7933, [7932]); (7935, [7934]); (7936, [7944]); (7937, [7945]);
   (7938, [7946]); (7939, [7947]); (7940, [7948]); (7941, [7949]);
   (7942, [7950]); (7943, [7951]); (7952, [7960]); (7953, [7961]);
   (7954, [7962]); (7955, [7963]); (7956, [7964]); (7957, [7965]);
   (7968, [7976]); (7969, [7977]); (7970, [7978]); (7971, [7979]);
   (7972, [7980]); (7973, [7981]); (7974, [7982]); (7975, [7983]);
   (7984, [7992]); (7985, [7993]); (7986, [7994]); (7987, [7995]);
   (7988, [7996]); (7989, [7997]); (7990, [7998]); (7991, [7999]);
   (8000, [8008]); (8001, [8009]); (8002, [8010]); (8003, [8011]);
   (8004, [8012]); (8005, [8013]); (8016, [933; 787]); (8017, [8025]);
   (8018, [933; 787; 768]); (8019, [8027]); (8020, [933; 787; 769]);
   (8021, [8029]); (8022, [933; 787; 834]); (8023, [8031]); (8032, [8040]);
   (8033, [8041]); (8034, [8042]); (8035, [8043]); (8036, [8044]);
   (8037, [8045]); (8038, [8046]); (8039, [8047]); (8048, [8122]);
   (8049, [8123]); (8050, [8136]); (8051, [8137]); (8052, [8138]);
   (8053, [8139]); (8054, [8154]); (8055, [8155]); (8056, [8184]);
   (8057, [8185]); (8058, [8170]); (8059, [8171]); (8060, [8186]);
   (8061, [8187]); (8064, [7944; 921]); (8065, [7945; 921]);
   (8066, [7946; 921]); (8067, [7947; 921]); (8068, [7948; 921]);
   (8069, [7949; 921]); (8070, [7950; 921]); (8071, [7951; 921]);
   (8072, [7944; 921]); (8073, [7945; 921]); (8074, [7946; 921]);
   (8075, [7947; 921]); (8076, [7948; 921]); (8077, [7949; 921]);
   (8078, [7950; 921]); (8079, [7951; 921]); (8080, [7976; 921]);
   (8081, [7977; 921]); (8082, [7978; 921]); (8083, [7979; 921]);
   (8084, [7980; 921]); (8085, [7981; 921]); (8086, [7982; 921]);
   (8087, [7983; 921]); (8088, [7976; 921]); (8089, [7977; 921]);
   (8090, [7978; 921]); (8091, [7979; 921]); (8092, [7980; 921]);
   (8093, [7981; 921]); (8094, [7982; 921]); (8095, [7983; 921]);
   (8096, [8040; 921]); (8097, [8041; 921]); (8098, [8042; 921]);
   (8099, [8043; 921]); (8100, [8044; 921]); (8101, [8045; 921]);
   (8102, [8046; 921]); (8103, [8047; 921]); (8104, [8040; 921]);
   (8105, [8041; 921]); (8106, [8042; 921]); (8107, [8043; 921]);
   (8108, [8044; 921]); (8109, [8045; 921]); (8110, [8046; 921]);
   (8111, [8047; 921]); (8112, [8120]); (8113, [8121]); (8114, [8122; 921]);
   (8115, [913; 921]); (8116, [902; 921]); (8118, [913; 834]);
   (8119, [913; 834; 921]); (8124, [913; 921]); (8126, [921]);
   (8130, [8138; 921]); (8131, [919; 921]); (8132, [905; 921]);
   (8134, [919; 834]); (8135, [919; 834; 921]); (8140, [919; 921]);
   (8144, [8152]); (8145, [8153]); (8146, [921; 776; 768]);
   (8147, [921; 776; 769]); (8150, [921; 834]); (8151, [921; 776; 834]);
   (8160, [8168]); (8161, [8169]); (8162, [933; 776; 768]);
   (8163, [933; 776; 769]); (8164, [929; 787]); (8165, [8172]);
   (8166, [933; 834]); (8167, [933; 776; 834]); (8178, [8186; 921]);
   (8179, [937; 921]); (8180, [911; 921]); (8182, [937; 834]);
   (8183, [937; 834; 921]); (8188, [937; 921]); (8526, [8498]);
   (8560, [8544]); (8561, [8545]); (8562, [8546]); (8563, [8547]);
   (8564, [8548]); (8565, [8549]); (8566, [8550]); (8567, [8551]);
   (8568, [8552]); (8569, [8553]); (8570, [8554]); (8571, [8555]);
   (8572, [8556]); (8573, [8557]); (8574, [8558]); (8575, [8559]);
   (8580, [8579]); (9424, [9398]); (9425, [9399]); (9426, [9400]);
   (9427, [9401]); (9428, [9402]); (9429, [9403]); (9430, [9404]);
   (9431, [9405]); (9432, [9406]); (9433, [9407]); (9434, [9408]);
   (9435, [9409]); (9436, [9410]); (9437, [9411]); (9438, [9412]);
   (9439, [9413]); (9440, [9414]); (9441, [9415]); (9442, [9416]);
   (9443, [9417]); (9444, [9418]); (9445, [9419]); (9446, [9420]);
   (9447, [9421]); (9448, [9422]); (9449, [9423]); (11312, [11264]);
   (11313, [11265]); (11314, [11266]); (11315, [11267]); (11316, [11268]);
   (11317, [11269]); (11318, [11270]); (11319, [11271]); (11320, [11272]);
   (11321, [11273]); (11322, [11274]); (11323, [11275]); (11324, [11276]);
   (11325, [11277]); (11326, [11278]); (11327, [11279]); (11328, [11280]);
   (11329, [11281]); (11330, [11282]); (11331, [11283]); (11332, [11284]);
   (11333, [11285]); (11334, [11286]); (11335, [11287]); (11336, [11288]);
   (11337, [11289]); (11338, [11290]); (11339, [11291]); (11340, [11292]);
   (11341, [11293]); (11342, [11294]); (11343, [11295]); (11344, [11296]);
   (11345, [11297]); (11346, [11298]); (11347, [11299]); (11348, [11300]);
   (11349, [11301]); (11350, [11302]); (11351, [11303]); (11352, [11304]);
   (11353, [11305]); (11354, [11306]); (11355, [11307]); (11356, [11308]);
   (11357, [11309]); (11358, [11310]); (11359, [11311]); (11361, [11360]);
   (11365, [570]); (11366, [574]); (11368, [11367]); (11370, [11369]);
   (11372, [11371]); (11379, [11378]); (11382, [11381]); (11393, [11392]);
   (11395, [11394]); (11397, [11396]); (11399, [11398]); (11401, [11400]);
   (11403, [11402]); (11405, [11404]); (11407, [11406]); (11409, [11408]);
   (11411, [11410]); (11413, [11412]); (11415, [11414]); (11417, [11416]);
   (11419, [11418]); (11421, [11420]); (11423, [11422]); (11425, [11424]);
   (11427, [11426]); (11429, [11428]); (11431, [11430]); (11433, [11432]);
   (11435, [11434]); (11437, [11436]); (11439, [11438]); (11441, [11440]);
   (11443, [11442]); (11445, [11444]); (11447, [11446]); (11449, [11448]);
   (11451, [11450]); (11453, [11452]); (11455, [11454]); (11457, [11456]);
   (11459, [11458]); (11461, [11460]); (11463, [11462]); (11465, [11464]);
   (11467, [11466]); (11469, [11468]); (11471, [11470]); (11473, [11472]);
   (11475, [11474]); (11477, [11476]); (11479, [11478]); (11481, [11480]);
   (11483, [11482]); (11485, [11484]); (11487, [11486]); (11489, [11488]);
   (11491, [11490]); (11500, [11499]); (11502, [11501]); (11507, [11506]);
   (11520, [4256]); (11521, [4257]); (11522, [4258]); (11523, [4259]);
   (11524, [4260]); (11525, [4261]); (11526, [4262]); (11527, [4263]);
   (11528, [4264]); (11529, [4265]); (11530, [4266]); (11531, [4267]);
   (11532, [4268]); (11533, [4269]); (11534, [4270]); (11535, [4271]);
   (11536, [4272]); (11537, [4273]); (11538, [4274]); (11539, [4275]);
   (11540, [4276]); (11541, [4277]); (11542, [4278]); (11543, [4279]);
   (11544, [4280]); (11545, [4281]); (11546, [4282]); (11547, [4283]);
   (11548, [4284]); (11549, [4285]); (11550, [4286]); (11551, [4287]);
   (11552, [4288]); (11553, [4289]); (11554, [4290]); (11555, [4291]);
   (11556, [4292]); (11557, [4293]); (11559, [4295]); (11565, [4301]);
   (42561, [42560]); (42563, [42562]); (42565, [42564]); (42567, [42566]);
   (42569, [42568]); (42571, [42570]); (42573, [42572]); (42575, [42574]);
   (42577, [42576]); (42579, [42578]); (42581, [42580]); (42583, [42582]);
   (42585, [42584]); (42587, [42586]); (42589, [42588]); (42591, [42590]);
   (42593, [42592]); (42595, [42594]); (42597, [42596]); (42599, [42598]);
   (42601, [42600]); (42603, [42602]); (42605, [42604]); (42625, [42624]);
   (42627, [42626]); (42629, [42628]); (42631, [42630]); (42633, [42632]);
   (42635, [42634]); (42637, [42636]); (42639, [42638]); (42641, [42640]);
   (42643, [42642]); (42645, [42644]); (42647, [42646]); (42649, [42648]);
   (42651, [42650]); (42787, [42786]); (42789, [42788]); (42791, [42790]);
   (42793, [42792]); (42795, [42794]); (42797, [42796]); (42799, [42798]);
   (42803, [42802]); (42805, [42804]); (42807, [42806]); (42809, [42808]);
   (42811, [42810]); (42813, [42812]); (42815, [42814]); (42817, [42816]);
   (42819, [42818]); (42821, [42820]); (42823, [42822]); (42825, [42824]);
   (42827, [42826]); (42829, [42828]); (42831, [42830]); (42833, [42832]);
   (42835, [42834]); (42837, [42836]); (42839, [42838]); (42841, [42840]);
   (42843, [42842]); (42845, [42844]); (42847, [42846]); (42849, [42848]);
   (42851, [42850]); (42853, [42852]); (42855, [42854]); (42857, [42856]);
   (42859, [42858]); (42861, [42860]); (42863, [42862]); (42874, [42873]);
   (42876, [42875]); (42879, [42878]); (42881, [42880]); (42883, [42882]);
   (42885, [42884]); (42887, [42886]); (42892, [42891]); (42897, [42896]);
   (42899, [42898]); (42900, [42948]); (42903, [42902]); (42905, [42904]);
   (42907, [42906]); (42909, [42908]); (42911, [42910]); (42913, [42912]);
   (42915, [42914]); (42917, [42916]); (42919, [42918]); (42921, [42920]);
   (42933, [42932]); (42935, [42934]); (42937, [42936]); (42939, [42938]);
   (42941, [42940]); (42943, [42942]); (42945, [42944]); (42947, [42946]);
   (42952, [42951]); (42954, [42953]); (42961, [42960]); (42967, [42966]);
   (42969, [42968]); (42998, [42997]); (43859, [42931]); (43888, [5024]);
   (43889, [5025]); (43890, [5026]); (43891, [5027]); (43892, [5028]);
   (43893, [5029]); (43894, [5030]); (43895, [5031]); (43896, [5032]);
   (43897, [5033]); (43898, [5034]); (43899, [5035]); (43900, [5036]);
   (43901, [5037]); (43902, [5038]); (43903, [5039]); (43904, [5040]);
   (43905, [5041]); (43906, [5042]); (43907, [5043]); (43908, [5044]);
   (43909, [5045]); (43910, [5046]); (43911, [5047]); (43912, [5048]);
   (43913, [5049]); (43914, [5050]); (43915, [5051]); (43916, [5052]);
   (43917, [5053]); (43918, [5054]); (43919, [5055]); (43920, [5056]);
   (43921, [5057]); (43922, [5058]); (43923, [5059]); (43924, [5060]);
   (43925, [5061]); (43926, [5062]); (43927, [5063]); (43928, [5064]);
   (43929, [5065]); (43930, [5066]); (43931, [5067]); (43932, [5068]);
   (43933, [5069]); (43934, [5070]); (43935, [5071]); (43936, [5072]);
   (43937, [5073]); (43938, [5074]); (43939, [5075]); (43940, [5076]);
   (43941, [5077]); (43942, [5078]); (43943, [5079]); (43944, [5080]);
   (43945, [5081]); (43946, [5082]); (43947, [5083]); (43948, [5084]);
   (43949, [5085]); (43950, [5086]); (43951, [5087]); (43952, [5088]);
   (43953, [5089]); (43954, [5090]); (43955, [5091]); (43956, [5092]);
   (43957, [5093]); (43958, [5094]); (43959, [5095]); (43960, [5096]);
   (43961, [5097]); (43962, [5098]); (43963, [5099]); (43964, [5100]);
   (43965, [5101]); (43966, [5102]); (43967, [5103]); (64256, [70; 70]);
   (64257, [70; 73]); (64258, [70; 76]); (64259, [70; 70; 73]);
   (64260, [70; 70; 76]); (64261, [83; 84]); (64262, [83; 84]);
   (64275, [1348; 1350]); (64276, [1348; 1333]); (64277, [1348; 1339]);
   (64278, [1358; 1350]); (64279, [1348; 1341]); (65345, [65313]);
   (65346, [65314]); (65347, [65315]); (65348, [65316]); (65349, [65317]);
   (65350, [65318]); (65351, [65319]); (65352, [65320]); (65353, [65321]);
   (65354, [65322]); (65355, [65323]); (65356, [65324]); (65357, [65325]);
   (65358, [65326]); (65359, [65327]); (65360, [65328]); (65361, [65329]);
   (65362, [65330]); (65363, [65331]); (65364, [65332]); (65365, [65333]);
   (65366, [65334]); (65367, [65335]); (65368, [65336]); (65369, [65337]);
   (65370, [65338]); (66600, [66560]); (66601, [66561]); (66602, [66562]);
   (66603, [66563]); (66604, [66564]); (66605, [66565]); (66606, [66566]);
   (66607, [66567]); (66608, [66568]); (66609, [66569]); (66610, [66570]);
   (66611, [66571]); (66612, [66572]); (66613, [66573]); (66614, [66574]);
   (66615, [66575]); (66616, [66576]); (66617, [66577]); (66618, [66578]);
   (66619, [66579]); (66620, [66580]); (66621, [66581]); (66622, [66582]);
   (66623, [66583]); (66624, [66584]); (66625, [66585]); (66626, [66586]);
   (66627, [66587]); (66628, [66588]); (66629, [66589]); (66630, [66590]);
   (66631, [66591]); (66632, [66592]); (66633, [66593]); (66634, [66594]);
   (66635, [66595]); (66636, [66596]); (66637, [66597]); (66638, [66598]);
   (66639, [66599]); (66776, [66736]); (66777, [66737]); (66778, [66738]);
   (66779, [66739]); (66780, [66740]); (66781, [66741]); (66782, [66742]);
   (66783, [66743]); (66784, [66744]); (66785, [66745]); (66786, [66746]);
   (66787, [66747]); (66788, [66748]); (66789, [66749]); (66790, [66750]);
   (66791, [66751]); (66792, [66752]); (66793, [66753]); (66794, [66754]);
   (66795, [66755]); (66796, [66756]); (66797, [66757]); (66798, [66758]);
   (66799, [66759]); (66800, [66760]); (66801, [66761]); (66802, [66762]);
   (66803, [66763]); (66804, [66764]); (66805, [66765]); (66806, [66766]);
   (66807, [66767]); (66808, [66768]); (66809, [66769]); (66810, [66770]);
   (66811, [66771]); (66967, [66928]); (66968, [66929]); (66969, [66930]);
   (66970, [66931]); (66971, [66932]); (66972, [66933]); (66973, [66934]);
   (66974, [66935]); (66975, [66936]); (66976, [66937]); (66977, [66938]);
   (66979, [66940]); (66980, [66941]); (66981, [66942]); (66982, [66943]);
   (66983, [66944]); (66984, [66945]); (66985, [66946]); (66986, [66947]);
   (66987, [66948]); (66988, [66949]); (66989, [66950]); (66990, [66951]);
   (66991, [66952]); (66992, [66953]); (66993, [66954]); (66995, [66956]);
   (66996, [66957]); (66997, [66958]); (66998, [66959]); (66999, [66960]);
   (67000, [66961]); (67001, [66962]); (67003, [66964]); (67004, [66965]);
   (68800, [68736]); (68801, [68737]); (68802, [68738]); (68803, [68739]);
   (68804, [68740]); (68805, [68741]); (68806, [68742]); (68807, [68743]);
   (68808, [68744]); (68809, [68745]); (68810, [68746]); (68811, [68747]);
   (68812, [68748]); (68813, [68749]); (68814, [68750]); (68815, [68751]);
   (68816, [68752]); (68817, [68753]); (68818, [68754]); (68819, [68755]);
   (68820, [68756]); (68821, [68757]); (68822, [68758]); (68823, [68759]);
   (68824, [68760]); (68825, [68761]); (68826, [68762]); (68827, [68763]);
   (68828, [68764]); (68829, [68765]); (68830, [68766]); (68831, [68767]);
   (68832, [68768]); (68833, [68769]); (68834, [68770]); (68835, [68771]);
   (68836, [68772]); (68837, [68773]); (68838, [68774]); (68839, [68775]);
   (68840, [68776]); (68841, [68777]); (68842, [68778]); (68843, [68779]);
   (68844, [68780]); (68845, [68781]); (68846, [68782]); (68847, [68783]);
   (68848, [68784]); (68849, [68785]); (68850, [68786]); (71872, [71840]);
   (71873, [71841]); (71874, [71842]); (71875, [71843]); (71876, [71844]);
   (71877, [71845]); (71878, [71846]); (71879, [71847]); (71880, [71848]);
   (71881, [71849]); (71882, [71850]); (71883, [71851]); (71884, [71852]);
   (71885, [71853]); (71886, [71854]); (71887, [71855]); (71888, [71856]);
   (71889, [71857]); (71890, [71858]); (71891, [71859]); (71892, [71860]);
   (71893, [71861]); (71894, [71862]); (71895, [71863]); (71896, [71864]);
   (71897, [71865]); (71898, [71866]); (71899, [71867]); (71900, [71868]);
   (71901, [71869]); (71902, [71870]); (71903, [71871]); (93792, [93760]);
   (93793, [93761]); (93794, [93762]); (93795, [93763]); (93796, [93764]);
   (93797, [93765]); (93798, [93766]); (93799, [93767]); (93800, [93768]);
   (93801, [93769]); (93802, [93770]); (93803, [93771]); (93804, [93772]);
   (93805, [93773]); (93806, [93774]); (93807, [93775]); (93808, [93776]);
   (93809, [93777]); (93810, [93778]); (93811, [93779]); (93812, [93780]);
   (93813, [93781]); (93814, [93782]); (93815, [93783]); (93816, [93784]);
   (93817, [93785]); (93818, [93786]); (93819, [93787]); (93820, [93788]);
   (93821, [93789]); (93822, [93790]); (93823, [93791]); (125218, [125184]);
   (125219, [125185]); (125220, [125186]); (125221, [125187]);
   (125222, [125188]); (125223, [125189]); (125224, [125190]);
   (125225, [125191]); (125226, [125192]); (125227, [125193]);
   (125228, [125194]); (125229, [125195]); (125230, [125196]);
   (125231, [125197]); (125232, [125198]); (125233, [125199]);
   (125234, [125200]); (125235, [125201]); (125236, [125202]);
   (125237, [125203]); (125238, [125204]); (125239, [125205]);
   (125240, [125206]); (125241, [125207]); (125242, [125208]);
   (125243, [125209]); (125244, [125210]); (125245, [125211]);
   (125246, [125212]); (125247, [125213]); (125248, [125214]);
   (125249, [125215]); (125250, [125216]); (125251, [125217])
  ].

Definition upper_char (c : Z) : list Z :=
  match find (fun row => fst row =? c) upper_table with
  | Some row => snd row
  | None => [c]
  end.

(** [s.upper()] *)
Definition upper (s : str) : str := flat_map upper_char s.

(** [s.lstrip()], [s.rstrip()], [s.strip()] *)
Fixpoint lstrip (s : str) : str :=
  match s with
  | [] => []
  | c :: s' => if is_space c then lstrip s' else s
  end.

Fixpoint rstrip (s : str) : str :=
  match s with
  | [] => []
  | c :: s' =>
      match rstrip s' with
      | [] => if is_space c then [] else [c]
      | r => c :: r
      end
  end.

Definition strip (s : str) : str := rstrip (lstrip s).

(** [a == b] *)
Fixpoint eqb (a b : str) : bool :=
  match a, b with
  | [], [] => true
  | x :: a', y :: b' => (x =? y) && eqb a' b'
  | _, _ => false
  end.

(** [s in l] for a list of strings. *)
Definition mem (s : str) (l : list str) : bool := existsb (eqb s) l.

End PyUnicode.

(** [DataTransformer.map_turkish_gender] on any text. *)
Module UnicodeTransformer.

Definition female_terms : list PyUnicode.str :=
  map PyUnicode.of_ascii ["BAYAN"; "K"; "KADIN"; "F"; "FEMALE"].
Definition male_terms : list PyUnicode.str :=
  map PyUnicode.of_ascii ["BAY"; "E"; "ERKEK"; "M"; "MALE"].

Definition map_turkish_gender (gender_str : PyUnicode.str) : PyUnicode.str :=
  let gender_clean := PyUnicode.upper (PyUnicode.strip gender_str) in
  if PyUnicode.mem gender_clean female_terms then PyUnicode.of_ascii "Female"
  else if PyUnicode.mem gender_clean male_terms then PyUnicode.of_ascii "Male"
  else PyUnicode.strip gender_str.

End UnicodeTransformer.


(* ================================================================== *)
(** ** The world outside the program *)

(** An error of the operating system: [errno] and [strerror]. *)
Record os_failure := mkOsFailure { os_errno : Z; os_strerror : string }.

Definition os_class (f : os_failure) : exn_class :=
  if os_errno f =? 2 then FileNotFoundError
  else if os_errno f =? 13 then PermissionError
  else if os_errno f =? 20 then NotADirectoryError
  else OSError.

(** The [OSError] raised for [filename]; [str(e)] is
    ["[Errno n] strerror: 'filename'"]. *)
Definition os_error (f : os_failure) (filename : string) : exn :=
  mkExn (os_class f)
        ("[Errno " ++ PyStr.str_of_int (os_errno f) ++ "] " ++ os_strerror f
           ++ ": '" ++ filename ++ "'").

Record World := mkWorld {
  (** [os.path.exists], [os.path.isdir], [os.listdir] *)
  path_exists : string -> bool;
  path_isdir : string -> bool;
  listdir : string -> os_failure + list string;
  (** [open(path, 'r', encoding='utf-8')] and the iteration over its lines *)
  read_lines : string -> outcome (list string);
  (** [Image.open], [convert] and [pytesseract.image_to_string] *)
  image_to_string : string -> outcome string;
  (** [fitz.open] and [page.get_text()] of every page, in document order *)
  pdf_page_texts : string -> outcome (list string);
  (** [pytesseract.get_tesseract_version()], [pytesseract.get_languages()] *)
  tesseract_version : outcome string;
  tesseract_languages : outcome (list string)
}.

(** The newline character. *)
Definition nl : string := String (ascii_of_nat 10) EmptyString.

(* ================================================================== *)
(** ** [src/utils/file_navigator.py] *)

Module FileSystemNavigator.

(** [os.path.join(a, b)] (POSIX) *)
Definition path_join (a b : string) : string :=
  match b with
  | String "/" _ => b
  | _ =>
      if negb (PyStr.truthy a) then b
      else if Z.eqb (PyStr.rfind "/" a) (PyStr.len a - 1) then a ++ b
      else a ++ "/" ++ b
  end.

(** A discovered subject: [(subject_id, patient_name, folder_path)]. *)
Definition subject_folder : Type := string * string * string.

Definition parse_folder_name (folder_name : string) : string * string :=
  if PyStr.contains_char "_" folder_name
  then let '(p0, p1) := PyStr.split_first "_" folder_name in
       (PyStr.strip p0, PyStr.join " " (PyStr.split_ws p1))
  else (PyStr.strip folder_name, "").

Definition get_subject_folders (w : World) (root_folder : string)
    (subject_list : list string) : outcome (list subject_folder) :=
  if negb (path_exists w root_folder) then Return []
  else
    match listdir w root_folder with
    | inl f => Raise (os_error f root_folder)
    | inr items =>
        Return
          (flat_map
             (fun item =>
                let folder_path := path_join root_folder item in
                if path_isdir w folder_path
                then let '(subject_id, patient_name) := parse_folder_name item in
                     if PyStr.truthy subject_id && PyStr.mem subject_id subject_list
                     then [(subject_id, patient_name, folder_path)]
                     else []
                else [])
             items)
    end.

Definition find_target_files (w : World) (subject_folder target_filename : string)
  : outcome (list string) :=
  if negb (path_exists w subject_folder) then Return []
  else
    match listdir w subject_folder with
    | inl f => Raise (os_error f subject_folder)
    | inr items =>
        Return
          (flat_map
             (fun item =>
                let subfolder_path := path_join subject_folder item in
                if path_isdir w subfolder_path && PyStr.isdigit item
                then let target_file_path := path_join subfolder_path target_filename in
                     if path_exists w target_file_path then [target_file_path] else []
                else [])
             items)
    end.

Definition load_subject_list (w : World) (subject_list_file : string)
  : outcome (list string) :=
  catch
    (lines <- read_lines w subject_list_file ;;
     Return (filter PyStr.truthy (map PyStr.strip lines)))
    is_file_not_found
    (fun _ => Return []).

(** [Path(file_path).name]: the last component that is neither empty nor
    a single dot. *)
Definition path_name (file_path : string) : string :=
  last (filter (fun p => PyStr.truthy p && negb (String.eqb p "."))
               (PyStr.split_on "/" file_path)) "".

(** [Path(file_path).suffix] *)
Definition path_suffix (file_path : string) : string :=
  let name := path_name file_path in
  let i := PyStr.rfind "." name in
  if (0 <? i) && (i <? PyStr.len name - 1) then PyStr.drop i name else "".

Definition image_formats : list string :=
  [".jpg"; ".jpeg"; ".png"; ".tiff"; ".bmp"; ".gif"].
Definition pdf_formats : list string := [".pdf"].

Definition get_file_type (file_path : string) : string :=
  let ext := PyStr.lower (path_suffix file_path) in
  if PyStr.mem ext image_formats then "image"
  else if PyStr.mem ext pdf_formats then "pdf"
  else "unknown".

End FileSystemNavigator.

(* ================================================================== *)
(** ** Calls observed during a run

    The trace of a run lists the progress reports handed to the caller's
    callback and the calls that start a subject's pipeline or attempt a text
    extraction, in the order in which the coordinator sees them. *)

Inductive event :=
| Progress (percentage : Z) (message : string)
| FindTargetFiles (folder_path : string)
| ImageExtraction (path : string)      (* TextExtractor._extract_from_image *)
| PdfExtraction (path : string)        (* TextExtractor._extract_from_pdf *)
| PdfFallback (path : string).         (* ExtractionEngine._extract_pdf_fallback *)

Definition trace : Type := list event.

Definition is_extraction (e : event) : bool :=
  match e with
  | ImageExtraction _ | PdfExtraction _ | PdfFallback _ => true
  | _ => false
  end.

Definition is_subject_processing (e : event) : bool :=
  match e with
  | Progress _ _ => false
  | _ => true
  end.

(* ================================================================== *)
(** ** [src/core/text_extractor.py] *)

Module TextExtractor.

Record t := mk { tesseract_config : string }.

Definition backslash : string := String (ascii_of_nat 92) EmptyString.

(** [_get_tesseract_installation_instructions], by [sys.platform]. *)
Definition _get_tesseract_installation_instructions (platform : string) : string :=
  if String.prefix "win" platform
  then "Tesseract OCR not found!" ++ nl ++ nl
       ++ "Windows Installation Instructions:" ++ nl
       ++ "1. Download Tesseract from: https://github.com/UB-Mannheim/tesseract/wiki" ++ nl
       ++ "2. Install with English and Turkish language packs" ++ nl
       ++ "3. Add Tesseract to your system PATH, or" ++ nl
       ++ "4. Set the full path in your application configuration" ++ nl ++ nl
       ++ "Default installation path: C:" ++ backslash ++ "Program Files"
       ++ backslash ++ "Tesseract-OCR" ++ backslash
  else if String.prefix "darwin" platform
  then "Tesseract OCR not found!" ++ nl ++ nl
       ++ "macOS Installation Instructions:" ++ nl
       ++ "1. Install using Homebrew: brew install tesseract" ++ nl
       ++ "2. Or download from: https://github.com/tesseract-ocr/tesseract" ++ nl
       ++ "3. Ensure tesseract is in your PATH"
  else "Tesseract OCR not found!" ++ nl ++ nl
       ++ "Linux Installation Instructions:" ++ nl
       ++ "1. Ubuntu/Debian: sudo apt-get install tesseract-ocr tesseract-ocr-eng" ++ nl
       ++ "2. CentOS/RHEL: sudo yum install tesseract tesseract-langpack-eng" ++ nl
       ++ "3. Or compile from source: https://github.com/tesseract-ocr/tesseract".

(** The instructions on Linux, the platform of this embedding (as for the
    paths). *)
Definition installation_instructions : string :=
  _get_tesseract_installation_instructions "linux".

(** [_validate_tesseract_installation]: every failure leaves as a
    [TesseractNotFoundError]. *)
Definition _validate_tesseract_installation (w : World) : outcome unit :=
  let body :=
    _version <- tesseract_version w ;;
    languages <- tesseract_languages w ;;
    if negb (PyStr.mem "eng" languages)
    then Raise (mkExn TesseractNotFoundError
                  "English language pack not found in Tesseract installation. Please reinstall Tesseract with English language support.")
    else Return tt in
  match body with
  | Return u => Return u
  | Raise e =>
      match exn_cls e with
      | PyTesseractNotFound =>
          Raise (mkExn TesseractNotFoundError installation_instructions)
      | _ =>
          Raise (mkExn TesseractNotFoundError
                   ("Tesseract OCR validation failed: " ++ exn_str e ++ nl ++ nl
                      ++ "Please ensure Tesseract OCR is properly installed and accessible."))
      end
  end.

(** [TextExtractor(tesseract_config)], when the version of the installed
    program can be read (see [Construction]). *)
Definition init (w : World) (tesseract_config : string) : outcome t :=
  _u <- _validate_tesseract_installation w ;;
  Return (mk tesseract_config).

Definition _extract_from_image (w : World) (self : t) (image_path : string)
  : outcome (option string) :=
  catch
    (text <- image_to_string w image_path ;;
     Return (if PyStr.truthy text then Some (PyStr.strip text) else None))
    any_exception
    (fun _ => Return None).

Definition _extract_from_pdf (w : World) (self : t) (pdf_path : string)
  : outcome (option string) :=
  catch
    (pages <- pdf_page_texts w pdf_path ;;
     let text_content := filter (fun text => PyStr.truthy (PyStr.strip text)) pages in
     let full_text := PyStr.join nl text_content in
     Return (if PyStr.truthy full_text then Some (PyStr.strip full_text) else None))
    any_exception
    (fun _ => Return None).

Definition extract_text (w : World) (self : t) (file_path file_type : string)
  : outcome (option string) :=
  catch
    (if String.eqb file_type "image" then _extract_from_image w self file_path
     else if String.eqb file_type "pdf" then _extract_from_pdf w self file_path
     else Return None)
    any_exception
    (fun _ => Return None).

(** The extraction that [extract_text] starts for a file type. *)
Definition extract_text_calls (file_path file_type : string) : trace :=
  if String.eqb file_type "image" then [ImageExtraction file_path]
  else if String.eqb file_type "pdf" then [PdfExtraction file_path]
  else [].

End TextExtractor.

(* ================================================================== *)
(** ** [src/core/data_processor.py] *)

(** One extraction rule, a JSON object: a key may be missing. *)
Record rule := mkRule {
  rule_name : option string;
  rule_pattern : option string;
  rule_transform : option string
}.

(** [d.get(key, default)] *)
Definition get_or {A} (default : A) (o : option A) : A :=
  match o with Some a => a | None => default end.

(** A Python [dict] with string keys, in insertion order. *)
Definition pydict : Type := list (string * pyval).

(** [d[key] = v]: a known key keeps its place. *)
Fixpoint dict_set (d : pydict) (key : string) (v : pyval) : pydict :=
  match d with
  | [] => [(key, v)]
  | (k, x) :: d' =>
      if String.eqb k key then (k, v) :: d' else (k, x) :: dict_set d' key v
  end.

(** The record of one subject, as [_process_single_subject] builds it. *)
Record subject_record := mkRecord {
  subject_id : string;
  patient_name : string;
  file_path : string;
  extracted_text : option string;
  extraction_status : string;
  error : option string
}.

Definition opt_str (o : option string) : pyval :=
  match o with Some s => PStr s | None => PNone end.

(** [item.items()] *)
Definition items (r : subject_record) : pydict :=
  [ ("subject_id", PStr (subject_id r));
    ("patient_name", PStr (patient_name r));
    ("file_path", PStr (file_path r));
    ("extracted_text", opt_str (extracted_text r));
    ("extraction_status", PStr (extraction_status r));
    ("error", opt_str (error r)) ].

(** [bool(v)] and [str(v)] *)
Definition val_truthy (v : pyval) : bool :=
  match v with
  | PNone => false
  | PStr s => PyStr.truthy s
  | PInt n => negb (n =? 0)
  end.

Definition val_str (v : pyval) : string :=
  match v with
  | PNone => "None"
  | PStr s => s
  | PInt n => PyStr.str_of_int n
  end.

Module DataProcessor.

Section WithRegex.

Variable re_search : regex_engine.

(** The body of the loop over the rules in [process_extracted_data]. *)
Definition apply_rule (text : string) (processed_record : pydict) (r : rule)
  : outcome pydict :=
  let field_name := get_or "" (rule_name r) in
  let pattern := get_or "" (rule_pattern r) in
  let transform := get_or "none" (rule_transform r) in
  if PyStr.truthy field_name && PyStr.truthy pattern
  then
    raw_value <- DataTransformer.extract_with_pattern re_search text pattern ;;
    match raw_value with
    | Some v =>
        processed_value <- DataTransformer.transform_value v transform ;;
        Return (dict_set processed_record field_name processed_value)
    | None => Return (dict_set processed_record field_name PNone)
    end
  else Return processed_record.

Fixpoint apply_rules (text : string) (processed_record : pydict)
    (rules : list rule) : outcome pydict :=
  match rules with
  | [] => Return processed_record
  | r :: rest =>
      d <- apply_rule text processed_record r ;;
      apply_rules text d rest
  end.

(** The body of the loop over the records in [process_extracted_data]. *)
Definition process_record (extraction_rules : list rule) (record : subject_record)
  : outcome pydict :=
  let processed_record :=
    [("Subject ID", PStr (subject_id record)); ("Name", PStr (patient_name record))] in
  match extracted_text record with
  | Some text =>
      if PyStr.truthy text
      then apply_rules text processed_record extraction_rules
      else Return processed_record
  | None => Return processed_record
  end.

(** [process_extracted_data]: the rows of the report. *)
Fixpoint process_extracted_data (extraction_rules : list rule)
    (raw_data : list subject_record) : outcome (list pydict) :=
  match raw_data with
  | [] => Return []
  | record :: rest =>
      row <- process_record extraction_rules record ;;
      rows <- process_extracted_data extraction_rules rest ;;
      Return (row :: rows)
  end.

End WithRegex.

(** [_add_summary_sheet]: a row has data when a column other than the
    identity columns holds a value that is not blank. *)
Definition has_data (row : pydict) : bool :=
  existsb
    (fun '(col, v) =>
       negb (PyStr.mem col ["Subject ID"; "Name"])
       && match v with PNone => false | _ => true end
       && negb (String.eqb (PyStr.strip (val_str v)) ""))
    row.

Definition summary_successful_extractions (rows : list pydict) : Z :=
  Z.of_nat (List.length (filter has_data rows)).

End DataProcessor.

(* ================================================================== *)
(** ** [src/core/extraction_engine.py] *)

Module ExtractionEngine.

Import FileSystemNavigator.

(** The application configuration, as far as the engine reads it. *)
Record config := mkConfig {
  cfg_max_workers : option Z;
  cfg_tesseract_config : option string
}.

Record t := mk {
  extraction_rules : list rule;
  max_workers : Z;
  text_extractor : option TextExtractor.t;
  tesseract_available : bool
}.

Definition is_tesseract_not_found (c : exn_class) : bool :=
  match c with TesseractNotFoundError => true | _ => false end.

(** [ExtractionEngine(config, extraction_rules)], when the version of the
    installed program can be read (see [Construction]). *)
Definition init (w : World) (cfg : config) (rules : list rule) : outcome t :=
  let workers := get_or 4 (cfg_max_workers cfg) in
  catch
    (te <- TextExtractor.init w (get_or "--psm 6 -l eng" (cfg_tesseract_config cfg)) ;;
     Return (mk rules workers (Some te) true))
    is_tesseract_not_found
    (fun _ => Return (mk rules workers None false)).

(** The dictionary returned by [extract_data]; the keys [missing_subjects]
    and [warnings] are set only when a requested subject has no folder. *)
Record results := mkResults {
  success : bool;
  data : list subject_record;
  total_subjects : Z;
  processed_subjects : Z;
  successful_extractions : Z;
  failed_extractions : Z;
  errors : list string;
  missing_subjects : option (list string);
  warnings : option (list string)
}.

Definition _extract_pdf_fallback (w : World) (pdf_path : string)
  : outcome (option string) :=
  catch
    (pages <- pdf_page_texts w pdf_path ;;
     let text_content := filter (fun text => PyStr.truthy (PyStr.strip text)) pages in
     let full_text := PyStr.join nl text_content in
     Return (if PyStr.truthy full_text then Some (PyStr.strip full_text) else None))
    any_exception
    (fun _ => Return None).

Definition with_error (r : subject_record) (msg : string) : subject_record :=
  mkRecord (subject_id r) (patient_name r) (file_path r) (extracted_text r)
           (extraction_status r) (Some msg).

Definition with_file_path (r : subject_record) (p : string) : subject_record :=
  mkRecord (subject_id r) (patient_name r) p (extracted_text r)
           (extraction_status r) (error r).

Definition with_text (r : subject_record) (text : string) : subject_record :=
  mkRecord (subject_id r) (patient_name r) (file_path r) (Some text)
           "Success" (error r).

(** The "Extract text" step of [_process_single_subject], with the call it
    makes. *)
Definition extract_for (self : t) (w : World) (target_file file_type : string)
  : outcome (option string) * trace :=
  match String.eqb file_type "image", text_extractor self with
  | true, Some te =>
      (TextExtractor.extract_text w te target_file file_type,
       TextExtractor.extract_text_calls target_file file_type)
  | _, _ =>
      if String.eqb file_type "pdf"
      then match text_extractor self with
           | Some te =>
               (TextExtractor.extract_text w te target_file file_type,
                TextExtractor.extract_text_calls target_file file_type)
           | None =>
               (_extract_pdf_fallback w target_file, [PdfFallback target_file])
           end
      else (Return None, [])
  end.

Definition _process_single_subject (self : t) (w : World)
    (sid pname folder_path target_filename : string) : subject_record * trace :=
  let result := mkRecord sid pname "" None "Failed" None in
  let started := [FindTargetFiles folder_path] in
  match find_target_files w folder_path target_filename with
  | Raise e => (with_error result (exn_str e), started)
  | Return [] =>
      (with_error result ("Target file '" ++ target_filename ++ "' not found"),
       started)
  | Return (target_file :: _) =>
      let result := with_file_path result target_file in
      let file_type := get_file_type target_file in
      if String.eqb file_type "unknown"
      then (with_error result ("Unsupported file type: " ++ target_file), started)
      else if String.eqb file_type "image" && negb (tesseract_available self)
      then (with_error result "Tesseract OCR not available for image text extraction",
            started)
      else
        let '(extraction, calls) := extract_for self w target_file file_type in
        match extraction with
        | Raise e => (with_error result (exn_str e), (started ++ calls)%list)
        | Return extracted =>
            match extracted with
            | Some text =>
                if PyStr.truthy text
                then (with_text result text, (started ++ calls)%list)
                else (with_error result "Failed to extract text from file",
                      (started ++ calls)%list)
            | None =>
                (with_error result "Failed to extract text from file",
                 (started ++ calls)%list)
            end
        end
  end.

(** A task handed to the executor: the subject it was submitted for and what
    [future.result()] gives once it is done. *)
Record future := mkFuture {
  fut_subject : string * string;
  fut_result : outcome (subject_record * trace)
}.

(** [executor.submit(self._process_single_subject, ...)] for every folder. *)
Definition submit_all (self : t) (w : World) (target_filename : string)
    (subject_folders : list subject_folder) : list future :=
  map (fun '(sid, pname, folder_path) =>
         mkFuture (sid, pname)
           (Return (_process_single_subject self w sid pname folder_path
                      target_filename)))
      subject_folders.

(** [as_completed(futures)]: the futures in the order in which they finish.
    The order is not fixed by the program; [schedule] lists the positions of
    the submitted tasks in their order of completion. *)
Definition as_completed {A} (schedule : list nat) (futures : list A) : list A :=
  flat_map (fun i => match nth_error futures i with
                     | Some f => [f]
                     | None => []
                     end)
           schedule.

(** [30 + int((completed / total_subjects) * 50)], in binary64.  For
    [1 <= completed <= total_subjects] the product is finite and [int] does
    not raise. *)
Definition progress_percentage (completed total_subjects : Z) : Z :=
  let quotient :=
    SFdiv PyFloat.prec PyFloat.emax
      (binary_normalize PyFloat.prec PyFloat.emax completed 0 false)
      (binary_normalize PyFloat.prec PyFloat.emax total_subjects 0 false) in
  let scaled :=
    SFmul PyFloat.prec PyFloat.emax quotient
      (binary_normalize PyFloat.prec PyFloat.emax 50 0 false) in
  30 + match scaled with
       | S754_finite s m e => PyFloat.trunc_finite s m e
       | _ => 0
       end.

Definition error_result (sid pname : string) (e : exn) : subject_record :=
  mkRecord sid pname "" None "Failed" (Some (exn_str e)).

(** The loop over the completed futures in [_process_subjects];
    [has_callback] tells whether a progress callback was given.  A callback
    records its arguments and returns, as the one of the application does
    when it emits its signal; [AnyCallback.collect] is the loop for a
    callback that may raise. *)
Fixpoint collect (has_callback : bool) (total_subjects : Z) (done : list future)
    (completed : Z) (extraction_data : list subject_record) (tr : trace)
  : list subject_record * trace :=
  match done with
  | [] => (extraction_data, tr)
  | fut :: rest =>
      let completed := completed + 1 in
      let '(sid, pname) := fut_subject fut in
      match fut_result fut with
      | Return (result, calls) =>
          let status :=
            "Processed " ++ sid ++ " (" ++ PyStr.str_of_int completed ++ "/"
              ++ PyStr.str_of_int total_subjects ++ ")" in
          collect has_callback total_subjects rest completed
            (extraction_data ++ [result])%list
            (tr ++ calls
                ++ (if has_callback
                    then [Progress (progress_percentage completed total_subjects) status]
                    else []))%list
      | Raise e =>
          collect has_callback total_subjects rest completed
            (extraction_data ++ [error_result sid pname e])%list tr
      end
  end.

(** [_process_subjects]; [ThreadPoolExecutor] refuses a worker limit that is
    not positive. *)
Definition _process_subjects (self : t) (w : World)
    (subject_folders : list subject_folder) (target_filename : string)
    (has_callback : bool) (schedule : list nat)
  : outcome (list subject_record * trace) :=
  let total_subjects := Z.of_nat (List.length subject_folders) in
  if max_workers self <=? 0
  then Raise (mkExn ValueError "max_workers must be greater than 0")
  else
    let futures := submit_all self w target_filename subject_folders in
    Return (collect has_callback total_subjects (as_completed schedule futures)
              0 [] []).

(** The test of the counting loop in [extract_data]. *)
Definition has_extracted_data (item : subject_record) : bool :=
  existsb
    (fun '(key, value) =>
       negb (PyStr.mem key ["subject_id"; "name"])
       && val_truthy value
       && PyStr.truthy (PyStr.strip (val_str value)))
    (items item).

Definition initial_results : results :=
  mkResults false [] 0 0 0 0 [] None None.

Definition add_error (r : results) (msg : string) : results :=
  mkResults (success r) (data r) (total_subjects r) (processed_subjects r)
            (successful_extractions r) (failed_extractions r)
            (errors r ++ [msg])%list (missing_subjects r) (warnings r).

Definition progress (has_callback : bool) (percentage : Z) (message : string)
  : trace :=
  if has_callback then [Progress percentage message] else [].

(** The end of [extract_data] after the [try] statement. *)
Definition completed_run (has_callback : bool) (r : results) (tr : trace)
  : results * trace :=
  (r, (tr ++ progress has_callback 100 "Extraction completed")%list).

(** The handler [except Exception as e] of [extract_data]. *)
Definition extraction_error (has_callback : bool) (r : results) (tr : trace)
    (e : exn) : results * trace :=
  completed_run has_callback (add_error r ("Extraction error: " ++ exn_str e)) tr.

(** [[sid for sid in subject_list if sid not in found_subject_ids]] *)
Definition missing_of (subject_list : list string)
    (subject_folders : list subject_folder) : list string :=
  let found_subject_ids := map (fun folder => fst (fst folder)) subject_folders in
  filter (fun sid => negb (PyStr.mem sid found_subject_ids)) subject_list.

Definition extract_data (self : t) (w : World)
    (root_folder subject_list_file target_filename : string)
    (has_callback : bool) (schedule : list nat) : results * trace :=
  let results0 := initial_results in
  let tr0 := progress has_callback 10 "Loading subject list..." in
  match load_subject_list w subject_list_file with
  | Raise e => extraction_error has_callback results0 tr0 e
  | Return [] => (add_error results0 "No subjects found in subject list file", tr0)
  | Return subject_list =>
      let tr1 := (tr0 ++ progress has_callback 20 "Finding subject folders...")%list in
      match get_subject_folders w root_folder subject_list with
      | Raise e => extraction_error has_callback results0 tr1 e
      | Return subject_folders =>
          let total := Z.of_nat (List.length subject_folders) in
          let missing := missing_of subject_list subject_folders in
          let results1 :=
            match missing with
            | [] => mkResults false [] total 0 0 0 [] None None
            | _ =>
                mkResults false [] total 0 0 0 [] (Some missing)
                  (Some ["Missing " ++ PyStr.str_of_int (Z.of_nat (List.length missing))
                           ++ " subject folders: " ++ PyStr.join ", " missing])
            end in
          match subject_folders with
          | [] =>
              match missing with
              | [] =>
                  (add_error results1
                     "No subject folders found matching the subject list", tr1)
              | _ =>
                  (add_error results1
                     ("No subject folders found. Missing: "
                        ++ PyStr.join ", " missing), tr1)
              end
          | _ =>
              let tr2 :=
                (tr1 ++ progress has_callback 30
                          ("Processing " ++ PyStr.str_of_int total ++ " subjects..."))%list in
              match _process_subjects self w subject_folders target_filename
                      has_callback schedule with
              | Raise e => extraction_error has_callback results1 tr2 e
              | Return (extraction_data, calls) =>
                  let processed := Z.of_nat (List.length extraction_data) in
                  let successful_count :=
                    Z.of_nat (List.length (filter has_extracted_data extraction_data)) in
                  completed_run has_callback
                    (mkResults true extraction_data total processed
                       successful_count (processed - successful_count)
                       [] (missing_subjects results1) (warnings results1))
                    (tr2 ++ calls
                         ++ progress has_callback 90 "Processing extraction data...")%list
              end
          end
      end
  end.

End ExtractionEngine.

(* ================================================================== *)
(** ** [_process_subjects] with any progress callback

    [ExtractionEngine.collect] is the loop of [_process_subjects] for the
    callback of the application, which emits a signal and returns.  In the
    code the call of the callback stands inside the [try] of the loop, after
    the record of the subject was appended: when the callback raises, the
    handler appends an error record for the same subject.  In [extract_data]
    the reports stand inside the [try] as well, but for the last one.  The
    loop and the two functions are given here for a callback that may
    raise. *)

Module AnyCallback.

Import ExtractionEngine.

(** What the call [progress_callback(progress, status)] does. *)
Definition progress_callback : Type := Z -> string -> outcome unit.

(** The callback of the application. *)
Definition emitting : progress_callback := fun _ _ => Return tt.

(** [progress_callback] as [ExtractionEngine._process_subjects] takes it:
    none, or the one of the application. *)
Definition given (has_callback : bool) : option progress_callback :=
  if has_callback then Some emitting else None.

(** Every call of the callback returns. *)
Definition returns (callback : option progress_callback) : Prop :=
  forall call, callback = Some call ->
  forall progress status, call progress status = Return tt.

Definition is_given (callback : option progress_callback) : bool :=
  match callback with Some _ => true | None => false end.

(** The loop over the completed futures.  The trace records a call of the
    callback whether it returns or raises. *)
Fixpoint collect (callback : option progress_callback) (total_subjects : Z)
    (done : list future) (completed : Z) (extraction_data : list subject_record)
    (tr : trace) : list subject_record * trace :=
  match done with
  | [] => (extraction_data, tr)
  | fut :: rest =>
      let completed := completed + 1 in
      let '(sid, pname) := fut_subject fut in
      match fut_result fut with
      | Return (result, calls) =>
          match callback with
          | Some call =>
              let progress := progress_percentage completed total_subjects in
              let status :=
                "Processed " ++ sid ++ " (" ++ PyStr.str_of_int completed ++ "/"
                  ++ PyStr.str_of_int total_subjects ++ ")" in
              match call progress status with
              | Return _ =>
                  collect callback total_subjects rest completed
                    (extraction_data ++ [result])%list
                    (tr ++ calls ++ [Progress progress status])%list
              | Raise e =>
                  collect callback total_subjects rest completed
                    (extraction_data ++ [result; error_result sid pname e])%list
                    (tr ++ calls ++ [Progress progress status])%list
              end
          | None =>
              collect callback total_subjects rest completed
                (extraction_data ++ [result])%list (tr ++ calls)%list
          end
      | Raise e =>
          collect callback total_subjects rest completed
            (extraction_data ++ [error_result sid pname e])%list tr
      end
  end.

(** [_process_subjects] *)
Definition _process_subjects (self : t) (w : World)
    (subject_folders : list FileSystemNavigator.subject_folder)
    (target_filename : string) (callback : option progress_callback)
    (schedule : list nat) : outcome (list subject_record * trace) :=
  let total_subjects := Z.of_nat (List.length subject_folders) in
  if max_workers self <=? 0
  then Raise (mkExn ValueError "max_workers must be greater than 0")
  else
    let futures := submit_all self w target_filename subject_folders in
    Return (collect callback total_subjects (as_completed schedule futures)
              0 [] []).

(** [if progress_callback: progress_callback(percentage, message)] and the
    call that the trace records for it. *)
Definition report (callback : option progress_callback) (percentage : Z)
    (message : string) : outcome unit :=
  match callback with
  | Some call => call percentage message
  | None => Return tt
  end.

Definition call_of (callback : option progress_callback) (percentage : Z)
    (message : string) : trace :=
  match callback with
  | Some _ => [Progress percentage message]
  | None => []
  end.

(** The end of [extract_data] after the [try] statement: the last report
    stands outside of the handler. *)
Definition completed_run (callback : option progress_callback) (r : results)
    (tr : trace) : outcome results * trace :=
  (_u <- report callback 100 "Extraction completed" ;; Return r,
   (tr ++ call_of callback 100 "Extraction completed")%list).

(** The handler [except Exception as e] of [extract_data]. *)
Definition extraction_error (callback : option progress_callback) (r : results)
    (tr : trace) (e : exn) : outcome results * trace :=
  completed_run callback (add_error r ("Extraction error: " ++ exn_str e)) tr.

(** [extract_data]; the dictionary [results] is filled step by step, and the
    handler adds its error to what was filled in when the exception came. *)
Definition extract_data (self : t) (w : World)
    (root_folder subject_list_file target_filename : string)
    (callback : option progress_callback) (schedule : list nat)
  : outcome results * trace :=
  let results0 := initial_results in
  let tr0 := call_of callback 10 "Loading subject list..." in
  match report callback 10 "Loading subject list..." with
  | Raise e => extraction_error callback results0 tr0 e
  | Return _ =>
  match FileSystemNavigator.load_subject_list w subject_list_file with
  | Raise e => extraction_error callback results0 tr0 e
  | Return [] =>
      (Return (add_error results0 "No subjects found in subject list file"), tr0)
  | Return subject_list =>
      let tr1 := (tr0 ++ call_of callback 20 "Finding subject folders...")%list in
      match report callback 20 "Finding subject folders..." with
      | Raise e => extraction_error callback results0 tr1 e
      | Return _ =>
      match FileSystemNavigator.get_subject_folders w root_folder subject_list with
      | Raise e => extraction_error callback results0 tr1 e
      | Return subject_folders =>
          let total := Z.of_nat (List.length subject_folders) in
          let missing := missing_of subject_list subject_folders in
          let results1 :=
            match missing with
            | [] => mkResults false [] total 0 0 0 [] None None
            | _ =>
                mkResults false [] total 0 0 0 [] (Some missing)
                  (Some ["Missing " ++ PyStr.str_of_int (Z.of_nat (List.length missing))
                           ++ " subject folders: " ++ PyStr.join ", " missing])
            end in
          match subject_folders with
          | [] =>
              match missing with
              | [] =>
                  (Return (add_error results1
                             "No subject folders found matching the subject list"),
                   tr1)
              | _ =>
                  (Return (add_error results1
                             ("No subject folders found. Missing: "
                                ++ PyStr.join ", " missing)), tr1)
              end
          | _ =>
              let message := "Processing " ++ PyStr.str_of_int total ++ " subjects..." in
              let tr2 := (tr1 ++ call_of callback 30 message)%list in
              match report callback 30 message with
              | Raise e => extraction_error callback results1 tr2 e
              | Return _ =>
              match _process_subjects self w subject_folders target_filename
                      callback schedule with
              | Raise e => extraction_error callback results1 tr2 e
              | Return (extraction_data, calls) =>
                  let processed := Z.of_nat (List.length extraction_data) in
                  let successful_count :=
                    Z.of_nat (List.length (filter has_extracted_data extraction_data)) in
                  let tr3 :=
                    (tr2 ++ calls
                         ++ call_of callback 90 "Processing extraction data...")%list in
                  match report callback 90 "Processing extraction data..." with
                  | Raise e =>
                      extraction_error callback
                        (mkResults false extraction_data total processed
                           successful_count (processed - successful_count)
                           [] (missing_subjects results1) (warnings results1))
                        tr3 e
                  | Return _ =>
                      completed_run callback
                        (mkResults true extraction_data total processed
                           successful_count (processed - successful_count)
                           [] (missing_subjects results1) (warnings results1))
                        tr3
                  end
              end
              end
          end
      end
      end
  end
  end.

End AnyCallback.

(* ================================================================== *)
(** ** The constructors and the end of the interpreter

    [pytesseract.get_tesseract_version()] reads the version that the
    installed program prints.  When the text is no version, or the version
    is older than the oldest one it supports, it raises [SystemExit], which
    derives from [BaseException] and not from [Exception]: neither of the
    handlers of [_validate_tesseract_installation] nor the one of
    [ExtractionEngine.__init__] catches it.  [TextExtractor.init] and
    [ExtractionEngine.init] above are the constructors when the version can
    be read; the constructors are given here with the other case. *)

Module Construction.

(** What the installed program prints as its version. *)
Inductive version_text :=
| Unreadable (raw_version : string)
| Readable.

(** The end of a constructor: the object, an exception, or [SystemExit]. *)
Inductive result (A : Type) :=
| Built (a : A)
| Failed (e : exn)
| Exited (message : string).
Arguments Built {A} a.
Arguments Failed {A} e.
Arguments Exited {A} message.

Definition of_outcome {A} (o : outcome A) : result A :=
  match o with
  | Return a => Built a
  | Raise e => Failed e
  end.

Definition double_quote : string := String (ascii_of_nat 34) EmptyString.

(** [TextExtractor(tesseract_config)] *)
Definition text_extractor_init (version : version_text) (w : World)
    (tesseract_config : string) : result TextExtractor.t :=
  match version with
  | Unreadable raw_version =>
      Exited ("Invalid tesseract version: " ++ double_quote ++ raw_version
                ++ double_quote)
  | Readable => of_outcome (TextExtractor.init w tesseract_config)
  end.

(** [ExtractionEngine(config, extraction_rules)] *)
Definition extraction_engine_init (version : version_text) (w : World)
    (cfg : ExtractionEngine.config) (rules : list rule)
  : result ExtractionEngine.t :=
  let workers := get_or 4 (ExtractionEngine.cfg_max_workers cfg) in
  match text_extractor_init version w
          (get_or "--psm 6 -l eng" (ExtractionEngine.cfg_tesseract_config cfg)) with
  | Built te => Built (ExtractionEngine.mk rules workers (Some te) true)
  | Failed e =>
      if ExtractionEngine.is_tesseract_not_found (exn_cls e)
      then Built (ExtractionEngine.mk rules workers None false)
      else Failed e
  | Exited message => Exited message
  end.

End Construction.

(* ================================================================== *)
(** ** What the specification says, in its own words *)

(** A string of whitespace only. *)
Fixpoint blank (s : string) : bool :=
  match s with
  | EmptyString => true
  | String c s' => PyStr.is_space c && blank s'
  end.


(** The success count as the specification describes it: the rows of the
    report in which a declared rule field, that is a column other than the
    identity columns, holds a non-empty value. *)
Definition spec_successful_count (rows : list pydict) : Z :=
  DataProcessor.summary_successful_extractions rows.

(** An age written with two decimals, as in ["25.50"]. *)
Definition age_literal (years hundredths : Z) : string :=
  PyStr.str_of_int years ++ "."
    ++ (if hundredths <? 10 then "0" else "") ++ PyStr.str_of_int hundredths.

(** The rounding rule of the specification on [years.hundredths]. *)
Definition spec_round_age (years hundredths : Z) : Z :=
  if 50 <? hundredths then years + 1 else years.

Definition round_age_agrees (years hundredths : Z) : bool :=
  match DataTransformer.round_age (age_literal years hundredths) with
  | Return (Some r) => r =? spec_round_age years hundredths
  | _ => false
  end.

(* ================================================================== *)
(** ** Notions used to state the properties *)

(** The record that the pipeline of one discovered subject produces. *)
Definition record_of (self : ExtractionEngine.t) (w : World)
    (target_filename : string) (s : FileSystemNavigator.subject_folder)
  : subject_record :=
  let '(sid, pname, folder_path) := s in
  fst (ExtractionEngine._process_single_subject self w sid pname folder_path
         target_filename).

(** The record that the loop of [_process_subjects] stores for a future. *)
Definition stored_record (fut : ExtractionEngine.future) : subject_record :=
  match ExtractionEngine.fut_result fut with
  | Return (result, _) => result
  | Raise e =>
      ExtractionEngine.error_result (fst (ExtractionEngine.fut_subject fut))
        (snd (ExtractionEngine.fut_subject fut)) e
  end.

(** The ways in which the pipeline of one subject fails: the target file is
    not found, its type is not supported, the extraction returns nothing, or
    an exception is raised. *)
Inductive pipeline_failure (self : ExtractionEngine.t) (w : World)
    (folder_path target_filename : string) : Prop :=
| TargetNotFound :
    FileSystemNavigator.find_target_files w folder_path target_filename
      = Return [] ->
    pipeline_failure self w folder_path target_filename
| UnsupportedType (target_file : string) (rest : list string) :
    FileSystemNavigator.find_target_files w folder_path target_filename
      = Return (target_file :: rest) ->
    FileSystemNavigator.get_file_type target_file = "unknown" ->
    pipeline_failure self w folder_path target_filename
| NothingExtracted (target_file : string) (rest : list string)
    (extracted : option string) :
    FileSystemNavigator.find_target_files w folder_path target_filename
      = Return (target_file :: rest) ->
    fst (ExtractionEngine.extract_for self w target_file
           (FileSystemNavigator.get_file_type target_file)) = Return extracted ->
    extracted = None \/ extracted = Some "" ->
    pipeline_failure self w folder_path target_filename
| ProcessingRaised (e : exn) :
    FileSystemNavigator.find_target_files w folder_path target_filename
      = Raise e ->
    pipeline_failure self w folder_path target_filename.

(** The subject folders that the resolver discovers for a run: none when the
    list of subjects cannot be read or is empty, or when the root cannot be
    listed. *)
Definition discovered (w : World) (root_folder subject_list_file : string)
  : list FileSystemNavigator.subject_folder :=
  match FileSystemNavigator.load_subject_list w subject_list_file with
  | Return subject_list =>
      match FileSystemNavigator.get_subject_folders w root_folder subject_list with
      | Return subject_folders => subject_folders
      | Raise _ => []
      end
  | Raise _ => []
  end.

(* ================================================================== *)
(** ** A sample world

    The root [/data] holds the folders [001_Jane Doe] and [002_John Smith]
    and a plain file.  Subject 001 has the files [report.pdf] and [scan.png]
    in visit folder [1]; subject 002 has no visit folder.  No OCR engine is
    installed. *)

Definition table {A} (rows : list (string * A)) (default : A) (key : string) : A :=
  match find (fun row => String.eqb (fst row) key) rows with
  | Some row => snd row
  | None => default
  end.

Definition sample_report : string :=
  "Age: 25.6" ++ nl ++ "Gender: Bayan" ++ nl.

Definition sample_world : World :=
  mkWorld
    (fun p => PyStr.mem p
       ["/data"; "/data/001_Jane Doe"; "/data/002_John Smith"; "/data/notes.txt";
        "/data/001_Jane Doe/1"; "/data/001_Jane Doe/1/report.pdf";
        "/data/001_Jane Doe/1/scan.png"; "/data/subjects.txt"; "/data/only_002.txt"; "/data/twice.txt"])
    (fun p => PyStr.mem p
       ["/data"; "/data/001_Jane Doe"; "/data/002_John Smith"; "/data/001_Jane Doe/1"])
    (table
       [("/data", inr ["001_Jane Doe"; "002_John Smith"; "notes.txt"]);
        ("/data/001_Jane Doe", inr ["1"]);
        ("/data/002_John Smith", inr []);
        ("/data/001_Jane Doe/1", inr ["report.pdf"; "scan.png"])]
       (inl (mkOsFailure 2 "No such file or directory")))
    (table
       [("/data/subjects.txt", Return ["001" ++ nl; "002" ++ nl; nl; "003" ++ nl]);
        ("/data/only_002.txt", Return ["002" ++ nl]);
        ("/data/twice.txt", Return ["001" ++ nl; "001" ++ nl; "003" ++ nl; "003" ++ nl])]
       (Raise (mkExn FileNotFoundError "[Errno 2] No such file or directory")))
    (fun _ => Raise (mkExn PyTesseractNotFound "tesseract is not installed"))
    (table
       [("/data/001_Jane Doe/1/report.pdf", Return [sample_report])]
       (Raise (mkExn OtherException "no such file")))
    (Raise (mkExn PyTesseractNotFound "tesseract is not installed"))
    (Raise (mkExn PyTesseractNotFound "tesseract is not installed")).

(** The same world with an OCR engine that knows English. *)
Definition sample_world_ocr : World :=
  mkWorld (path_exists sample_world) (path_isdir sample_world)
    (listdir sample_world) (read_lines sample_world)
    (image_to_string sample_world) (pdf_page_texts sample_world)
    (Return "5.3.0") (Return ["eng"; "osd"; "tur"]).

Definition sample_config : ExtractionEngine.config :=
  ExtractionEngine.mkConfig (Some 4) None.

Definition sample_rules : list rule :=
  [mkRule (Some "Age") (Some "Age\s*:\s*([\d.]+)") (Some "age_round");
   mkRule (Some "Gender") (Some "Gender\s*:\s*(\w+)") (Some "gender_turkish")].

(** The engine built in the sample world: OCR is off. *)
Definition sample_engine : ExtractionEngine.t :=
  ExtractionEngine.mk sample_rules 4 None false.

(** A configuration with a worker limit of 0, and the engine built from it
    in the sample world. *)
Definition no_workers_config : ExtractionEngine.config :=
  ExtractionEngine.mkConfig (Some 0) None.

Definition no_workers_engine : ExtractionEngine.t :=
  ExtractionEngine.mk sample_rules 0 None false.

(** A progress callback that raises. *)
Definition failing_callback : AnyCallback.progress_callback :=
  fun _ _ => Raise (mkExn OtherException "wrapped C/C++ object has been deleted").


(** A search engine known at one input only: ["(a)|b"] matches ["b"] through
    its second branch, so group 1 takes no part in the match. *)
Definition alternation_engine : regex_engine :=
  fun pattern text _flags =>
    if String.eqb pattern "(a)|b" && String.eqb text "b"
    then Return (Some (mkMatch [None]))
    else Return None.

(* ================================================================== *)
(** ** Further functions of the code *)

(** [re.compile(pattern)]: library code; raises [re.error] when the pattern
    does not compile. *)
Definition regex_compiler : Type := string -> outcome unit.

(** The part of pandas and openpyxl behind [export_to_excel]: writing the
    rows as a workbook at a path.  The data frame is taken as the list of its
    rows: [pandas.DataFrame] builds it from the row dictionaries and does not
    raise on them. *)
Definition workbook_writer : Type := list pydict -> string -> outcome unit.

Module TextExtractorChecks.

(** The dictionary returned by [TextExtractor.check_tesseract_availability]. *)
Record availability := mkAvailability {
  available : bool;
  version : option string;
  languages : list string;
  availability_error : option string;
  path : option string
}.

Definition probe_error (e : exn) : string :=
  match exn_cls e with
  | PyTesseractNotFound => "Tesseract executable not found in PATH"
  | _ => "Tesseract validation error: " ++ exn_str e
  end.

(** [check_tesseract_availability]; [tesseract_cmd] is the reading of
    [pytesseract.pytesseract.tesseract_cmd]. *)
Definition check_tesseract_availability (w : World) (tesseract_cmd : outcome string)
  : availability :=
  match tesseract_version w with
  | Raise e => mkAvailability false None [] (Some (probe_error e)) None
  | Return v =>
      match tesseract_languages w with
      | Raise e => mkAvailability false (Some v) [] (Some (probe_error e)) None
      | Return langs =>
          mkAvailability true (Some v) langs None
            (Some (match tesseract_cmd with
                   | Return cmd => cmd
                   | Raise _ => "Default system path"
                   end))
      end
  end.

(** The dictionary returned by [TextExtractor.extract_and_validate]. *)
Record validation := mkValidation {
  val_file_path : string;
  val_file_type : string;
  val_text : option string;
  val_success : bool;
  val_error : option string;
  val_text_length : Z
}.

Definition extract_and_validate (w : World) (self : TextExtractor.t)
    (file_path file_type : string) : validation :=
  match TextExtractor.extract_text w self file_path file_type with
  | Return (Some text) =>
      if PyStr.truthy text
      then mkValidation file_path file_type (Some text) true None (PyStr.len text)
      else mkValidation file_path file_type None false (Some "No text extracted") 0
  | Return None =>
      mkValidation file_path file_type None false (Some "No text extracted") 0
  | Raise e => mkValidation file_path file_type None false (Some (exn_str e)) 0
  end.

End TextExtractorChecks.

Module RuleValidation.

Section WithCompiler.

Variable re_compile : regex_compiler.

(** The body of the loop of [DataProcessor.validate_extraction_rules] for the
    rule number [rule_num]. *)
Definition validate_rule (rule_num : Z) (r : rule) : outcome (list string) :=
  let prefix := "Rule " ++ PyStr.str_of_int rule_num ++ ": " in
  let no_name :=
    if PyStr.truthy (get_or "" (rule_name r)) then []
    else [prefix ++ "Missing field name"] in
  let no_pattern :=
    if PyStr.truthy (get_or "" (rule_pattern r)) then []
    else [prefix ++ "Missing extraction pattern"] in
  catch
    (_u <- re_compile (get_or "" (rule_pattern r)) ;;
     Return (no_name ++ no_pattern)%list)
    is_re_error
    (fun e =>
       let invalid := prefix ++ "Invalid regex pattern - " ++ exn_str e in
       Return (no_name ++ no_pattern ++ [invalid])%list).

(** The loop of [validate_extraction_rules] from the index [i]. *)
Fixpoint validate_from (i : Z) (rules : list rule) : outcome (list string) :=
  match rules with
  | [] => Return []
  | r :: rest =>
      errs <- validate_rule (i + 1) r ;;
      more <- validate_from (i + 1) rest ;;
      Return (errs ++ more)%list
  end.

Definition validate_extraction_rules (extraction_rules : list rule)
  : outcome (list string) :=
  validate_from 0 extraction_rules.

End WithCompiler.

End RuleValidation.

Module ExcelReport.

(** [DataProcessor.export_to_excel]: whatever goes wrong while the workbook
    is written gives [False]. *)
Definition export_to_excel (write_workbook : workbook_writer) (df : list pydict)
    (output_path : string) : bool :=
  match catch (_u <- write_workbook df output_path ;; Return true)
              any_exception (fun _ => Return false) with
  | Return b => b
  | Raise _ => false
  end.

(** [ExtractionEngine.generate_excel_report] *)
Definition generate_excel_report (self : ExtractionEngine.t)
    (re_search : regex_engine) (write_workbook : workbook_writer)
    (extraction_results : ExtractionEngine.results) (output_path : string) : bool :=
  match catch
          (processed_df <- DataProcessor.process_extracted_data re_search
                             (ExtractionEngine.extraction_rules self)
                             (ExtractionEngine.data extraction_results) ;;
           Return (export_to_excel write_workbook processed_df output_path))
          any_exception (fun _ => Return false) with
  | Return b => b
  | Raise _ => false
  end.

End ExcelReport.

(** A string without whitespace. *)
Fixpoint no_space (s : string) : bool :=
  match s with
  | EmptyString => true
  | String c s' => negb (PyStr.is_space c) && no_space s'
  end.

(** A word: not empty, without whitespace. *)
Definition is_word (s : string) : bool := PyStr.truthy s && no_space s.

(** A string without the character [c]. *)
Definition lacks (c : ascii) (s : string) : bool := negb (PyStr.contains_char c s).

(** [d.get(key)] *)
Fixpoint dict_get (d : pydict) (key : string) : option pyval :=
  match d with
  | [] => None
  | (k, v) :: d' => if String.eqb k key then Some v else dict_get d' key
  end.

(** The rules that [process_extracted_data] applies: those with a name and
    a pattern. *)
Definition usable (r : rule) : bool :=
  PyStr.truthy (get_or "" (rule_name r)) && PyStr.truthy (get_or "" (rule_pattern r)).

(** A search engine that never finds a match. *)
Definition no_match_engine : regex_engine := fun _ _ _ => Return None.

(** A compiler that accepts every pattern but an unclosed group. *)
Definition sample_compiler : regex_compiler :=
  fun pattern =>
    if String.eqb pattern "("
    then Raise (mkExn ReError "missing ), unterminated subpattern at position 0")
    else Return tt.

(** The test of [get_subject_folders] on one entry of the root. *)
Definition is_requested_folder (w : World) (root_folder : string)
    (subject_list : list string) (item : string) : bool :=
  path_isdir w (FileSystemNavigator.path_join root_folder item)
  && PyStr.truthy (fst (FileSystemNavigator.parse_folder_name item))
  && PyStr.mem (fst (FileSystemNavigator.parse_folder_name item)) subject_list.


(** The columns that the usable rules add to a row. *)
Definition rule_columns (rules : list rule) : list string :=
  map (fun r => get_or "" (rule_name r)) (filter usable rules).

(** [bool(record.get('extracted_text'))] *)
Definition has_text (record : subject_record) : bool :=
  match extracted_text record with
  | Some text => PyStr.truthy text
  | None => false
  end.

(** The path that an extraction call reads. *)
Definition event_path (e : event) : string :=
  match e with
  | Progress _ message => message
  | FindTargetFiles p | ImageExtraction p | PdfExtraction p | PdfFallback p => p
  end.

Definition is_find_target_files (e : event) : bool :=
  match e with FindTargetFiles _ => true | _ => false end.

Definition is_progress (e : event) : bool :=
  match e with Progress _ _ => true | _ => false end.

(** A rule that [validate_extraction_rules] accepts. *)
Definition accepted (re_compile : regex_compiler) (r : rule) : Prop :=
  get_or "" (rule_name r) <> ""
  /\ get_or "" (rule_pattern r) <> ""
  /\ exists u, re_compile (get_or "" (rule_pattern r)) = Return u.

(** ** [src/utils/config_manager.py] *)

Module ConfigManager.

(** [open(path, 'r', encoding='utf-8')] and [json.load] of a list of rules. *)
Definition rules_reader : Type := string -> outcome (list rule).

(** [self.rules_config_path] *)
Definition rules_config_path (config_dir : string) : string :=
  FileSystemNavigator.path_join config_dir "default_rules.json".

(** The rules written in [_get_default_rules]. *)
Definition builtin_rules : list rule :=
  [mkRule (Some "Age") (Some "Age\s*:\s*([\d.]+)") (Some "age_round");
   mkRule (Some "Gender") (Some "Gender\s*:\s*(\w+)") (Some "gender_turkish");
   mkRule (Some "Date of Test")
     (Some "(?:Date of Test|Test Date|Date)\s*:\s*([\d\-\/\.]+)") (Some "none");
   mkRule (Some "Clinician")
     (Some "(?:Clinician|Doctor|Physician|Dr\.)\s*:?\s*([A-Za-z\s\.]+)")
     (Some "none")].

Definition _get_default_rules (read : rules_reader) (config_dir : string)
  : list rule :=
  match catch (read (FileSystemNavigator.path_join config_dir "default_rules.json"))
              any_exception (fun _ => Return builtin_rules) with
  | Return rules => rules
  | Raise _ => builtin_rules
  end.

Definition load_extraction_rules (read : rules_reader) (config_dir : string)
  : outcome (list rule) :=
  catch (read (rules_config_path config_dir))
        is_file_not_found
        (fun _ => Return (_get_default_rules read config_dir)).

End ConfigManager.

(** The progress reports of a trace: [(percentage, message)], in order. *)
Definition reported (tr : trace) : list (Z * string) :=
  flat_map (fun e => match e with
                     | Progress percentage message => [(percentage, message)]
                     | _ => []
                     end) tr.

(** The percentage after [completed] of [total_subjects] subjects in exact
    arithmetic, and what is checked of the computed one. *)
Definition exact_percentage (completed total_subjects : Z) : Z :=
  30 + (completed * 50) / total_subjects.

(** A list that never falls from one element to the next. *)
Fixpoint rising (l : list Z) : bool :=
  match l with
  | a :: (b :: _) as rest => (a <=? b) && rising rest
  | _ => true
  end.

(** The percentages reported for [total_subjects] subjects, one after each
    completed subject. *)
Definition percentages (total_subjects : nat) : list (Z * Z) :=
  map (fun completed =>
         (Z.of_nat completed,
          ExtractionEngine.progress_percentage (Z.of_nat completed)
            (Z.of_nat total_subjects)))
      (seq 1 total_subjects).

Definition percentage_checked (total_subjects : Z) (report : Z * Z) : bool :=
  let '(completed, p) := report in
  (30 <=? p) && (p <=? 80)
  && (exact_percentage completed total_subjects - 1 <=? p)
  && (p <=? exact_percentage completed total_subjects)
  && ((p =? 80) || negb (completed =? total_subjects)).

Definition percentages_checked (total_subjects : nat) : bool :=
  let ps := percentages total_subjects in
  forallb (percentage_checked (Z.of_nat total_subjects)) ps
  && rising (map snd ps).

(** ** [src/ui/main_window.py]: the checks before a run is started *)

(** [s.endswith(suffix)] *)
Fixpoint endswith (s suffix : string) : bool :=
  String.eqb s suffix
  || match s with
     | EmptyString => false
     | String _ s' => endswith s' suffix
     end.

Module MainWindow.

Definition image_extensions : list string :=
  [".jpg"; ".jpeg"; ".png"; ".tiff"; ".bmp"; ".gif"].

(** [any(target_filename.endswith(ext) for ext in image_extensions)] on the
    lower-case file name. *)
Definition is_image (target_filename_text : string) : bool :=
  let target_filename := PyStr.lower target_filename_text in
  existsb (fun ext => endswith target_filename ext) image_extensions.

(** [MainWindow.validate_inputs].  The three texts are the contents of the
    input fields; [proceed_anyway] is the user's answer to the question asked
    when the target looks like an image and no OCR engine was detected (the
    question is asked in that case only).  The warnings shown before a
    [return False] do not change the result. *)
Definition validate_inputs (w : World)
    (data_folder subject_list target_filename : string)
    (tesseract_available proceed_anyway : bool) : bool :=
  if negb (PyStr.truthy data_folder) then false
  else if negb (PyStr.truthy subject_list) then false
  else if negb (PyStr.truthy target_filename) then false
  else if negb (path_exists w data_folder) then false
  else if negb (path_exists w subject_list) then false
  else if is_image target_filename && negb tesseract_available
       then (if negb proceed_anyway then false else true)
  else true.

End MainWindow.

(* ================================================================== *)
(** * Properties *)

(** ** Strings *)

Lemma truthy_true_iff (s : string) : PyStr.truthy s = true <-> s <> "".
Proof. destruct s; simpl; split; congruence. Qed.

Lemma truthy_false_iff (s : string) : PyStr.truthy s = false <-> s = "".
Proof. destruct s; simpl; split; congruence. Qed.

Lemma blank_lstrip (s : string) : blank (PyStr.lstrip s) = blank s.
Proof.
  induction s as [|c s IH]; simpl; [reflexivity|].
  destruct (PyStr.is_space c) eqn:E; simpl; [exact IH | now rewrite E].
Qed.

Lemma rstrip_empty_iff (s : string) : PyStr.rstrip s = "" <-> blank s = true.
Proof.
  induction s as [|c s IH]; simpl; [tauto|].
  destruct (PyStr.rstrip s) eqn:R.
  - destruct (PyStr.is_space c); simpl.
    + split; intros _; [now apply IH | reflexivity].
    + split; discriminate.
  - split; [discriminate|].
    intros H. apply andb_true_iff in H. destruct H as [_ H].
    apply IH in H. discriminate.
Qed.

Lemma strip_empty_iff (s : string) : PyStr.strip s = "" <-> blank s = true.
Proof.
  unfold PyStr.strip. rewrite rstrip_empty_iff. now rewrite blank_lstrip.
Qed.

Lemma truthy_strip (s : string) : PyStr.truthy (PyStr.strip s) = negb (blank s).
Proof.
  destruct (blank s) eqn:B; simpl.
  - apply truthy_false_iff. now apply strip_empty_iff.
  - apply truthy_true_iff. intros H. apply strip_empty_iff in H. congruence.
Qed.

Lemma blank_app (a b : string) : blank (a ++ b) = blank a && blank b.
Proof.
  induction a as [|c a IH]; simpl; [reflexivity|].
  now rewrite IH, andb_assoc.
Qed.

Lemma blank_join_nl (l : list string) :
  blank (PyStr.join nl l) = forallb blank l.
Proof.
  unfold PyStr.join.
  induction l as [|x l IH]; [reflexivity|].
  destruct l as [|y l].
  - simpl. now rewrite andb_true_r.
  - change (String.concat nl (x :: y :: l))
      with (x ++ nl ++ String.concat nl (y :: l)).
    rewrite !blank_app, IH. reflexivity.
Qed.

Lemma blank_empty_or_space (s : string) : blank s = false -> s <> "".
Proof. intros H E. subst s. discriminate. Qed.

Lemma join_nonempty (sep x : string) (l : list string) :
  x <> "" -> PyStr.join sep (x :: l) <> "".
Proof.
  intros Hx. unfold PyStr.join. destruct l as [|y l]; simpl; [exact Hx|].
  destruct x; [congruence | discriminate].
Qed.

(** ** The transforms *)

(** C10.  A transform name outside the recognized ones (["age_round"],
    ["gender_turkish"], ["none"] and the empty name) leaves the value as it
    is: the very same string is returned, untrimmed, and nothing is raised. *)
Theorem transform_value_unrecognized_unchanged (value transform_type : string) :
  transform_type <> "age_round" ->
  transform_type <> "gender_turkish" ->
  transform_type <> "none" ->
  transform_type <> "" ->
  DataTransformer.transform_value value transform_type = Return (PStr value).
Proof.
  intros Hage Hgender Hnone Hempty.
  unfold DataTransformer.transform_value.
  apply String.eqb_neq in Hage, Hgender, Hnone.
  rewrite Hage, Hgender, Hnone.
  apply truthy_true_iff in Hempty. rewrite Hempty. reflexivity.
Qed.

Lemma transform_value_unrecognized_witness :
  DataTransformer.transform_value " 25.7 " "round_age" = Return (PStr " 25.7 ").
Proof.
  apply (transform_value_unrecognized_unchanged " 25.7 " "round_age");
    discriminate.
Defined.

Lemma mem_In (s : string) (l : list string) : PyStr.mem s l = true <-> In s l.
Proof.
  unfold PyStr.mem. rewrite existsb_exists. split.
  - intros [x [Hin Heq]]. apply String.eqb_eq in Heq. now subst.
  - intros Hin. exists s. split; [exact Hin | apply String.eqb_refl].
Qed.

Lemma mem_not_In (s : string) (l : list string) :
  PyStr.mem s l = false <-> ~ In s l.
Proof.
  rewrite <- mem_In. destruct (PyStr.mem s l); split; congruence.
Qed.

(** *** Text beyond ASCII *)

Lemma unicode_eqb_eq (a b : PyUnicode.str) : PyUnicode.eqb a b = true <-> a = b.
Proof.
  revert b. induction a as [|x a IH]; intros [|y b]; simpl;
    try (split; [discriminate | discriminate]); [tauto|].
  rewrite andb_true_iff, Z.eqb_eq, IH. split.
  - intros [-> ->]. reflexivity.
  - intros H. injection H as -> ->. tauto.
Qed.

Lemma unicode_mem_In (s : PyUnicode.str) (l : list PyUnicode.str) :
  PyUnicode.mem s l = true <-> In s l.
Proof.
  unfold PyUnicode.mem. rewrite existsb_exists. split.
  - intros (x & Hin & E). apply unicode_eqb_eq in E. now subst.
  - intros H. exists s. split; [exact H | now apply unicode_eqb_eq].
Qed.

Lemma unicode_mem_not_In (s : PyUnicode.str) (l : list PyUnicode.str) :
  PyUnicode.mem s l = false <-> ~ In s l.
Proof.
  rewrite <- unicode_mem_In. destruct (PyUnicode.mem s l); split; congruence.
Qed.

(** On ASCII text [PyUnicode] is [PyStr]. *)
Lemma code_eqb (x y : ascii) : (PyStr.code x =? PyStr.code y) = Ascii.eqb x y.
Proof.
  destruct (Ascii.eqb_spec x y) as [->|N]; [apply Z.eqb_refl|].
  apply Z.eqb_neq. intros H. apply N. unfold PyStr.code in H.
  apply Nat2Z.inj in H. apply (f_equal ascii_of_nat) in H.
  now rewrite !ascii_nat_embedding in H.
Qed.

Lemma of_ascii_eqb (a b : string) :
  PyUnicode.eqb (PyUnicode.of_ascii a) (PyUnicode.of_ascii b) = String.eqb a b.
Proof.
  revert b. induction a as [|x a IH]; intros [|y b]; try reflexivity.
  change (((PyStr.code x =? PyStr.code y)
           && PyUnicode.eqb (PyUnicode.of_ascii a) (PyUnicode.of_ascii b))
          = (Ascii.eqb x y && String.eqb a b)%bool).
  now rewrite code_eqb, IH.
Qed.

Lemma of_ascii_mem (s : string) (l : list string) :
  PyUnicode.mem (PyUnicode.of_ascii s) (map PyUnicode.of_ascii l) = PyStr.mem s l.
Proof.
  unfold PyUnicode.mem, PyStr.mem.
  induction l as [|a l IH]; [reflexivity|].
  simpl. now rewrite of_ascii_eqb, IH.
Qed.

Lemma is_space_ascii (c : ascii) :
  PyStr.code c < 128 -> PyUnicode.is_space (PyStr.code c) = PyStr.is_space c.
Proof.
  intros H. unfold PyUnicode.is_space, PyStr.is_space.
  set (n := PyStr.code c) in *.
  assert (E : forall k, 128 <= k -> (n =? k) = false)
    by (intros k Hk; apply Z.eqb_neq; lia).
  rewrite !E by lia.
  assert (R : (8192 <=? n) = false) by (apply Z.leb_gt; lia).
  rewrite R. simpl. now rewrite !orb_false_r.
Qed.

Lemma upper_char_ascii (c : ascii) :
  PyStr.code c < 128 ->
  PyUnicode.upper_char (PyStr.code c) = [PyStr.code (PyStr.upper_char c)].
Proof.
  intros H.
  assert (T : forallb (fun n => PyUnicode.eqb
                                  (PyUnicode.upper_char (Z.of_nat n))
                                  [PyStr.code (PyStr.upper_char (ascii_of_nat n))])
                      (seq 0 128) = true)
    by (vm_compute; reflexivity).
  rewrite forallb_forall in T.
  specialize (T (nat_of_ascii c)).
  rewrite ascii_nat_embedding in T. apply unicode_eqb_eq. apply T.
  apply in_seq. unfold PyStr.code in H. lia.
Qed.

Lemma isascii_cons (c : ascii) (s : string) :
  PyUnicode.isascii (String c s) = true
  <-> PyStr.code c < 128 /\ PyUnicode.isascii s = true.
Proof.
  unfold PyUnicode.isascii. simpl. rewrite andb_true_iff, Z.ltb_lt. tauto.
Qed.

Lemma of_ascii_lstrip (s : string) :
  PyUnicode.isascii s = true ->
  PyUnicode.of_ascii (PyStr.lstrip s) = PyUnicode.lstrip (PyUnicode.of_ascii s).
Proof.
  induction s as [|c s IH]; intros A; [reflexivity|].
  apply isascii_cons in A. destruct A as [Hc Hs].
  change (PyUnicode.lstrip (PyUnicode.of_ascii (String c s)))
    with (if PyUnicode.is_space (PyStr.code c)
          then PyUnicode.lstrip (PyUnicode.of_ascii s)
          else PyUnicode.of_ascii (String c s)).
  rewrite (is_space_ascii c Hc). simpl PyStr.lstrip.
  destruct (PyStr.is_space c); [exact (IH Hs) | reflexivity].
Qed.

Lemma isascii_lstrip (s : string) :
  PyUnicode.isascii s = true -> PyUnicode.isascii (PyStr.lstrip s) = true.
Proof.
  induction s as [|c s IH]; intros A; [reflexivity|].
  simpl. destruct (PyStr.is_space c); [|exact A].
  apply isascii_cons in A. now apply IH.
Qed.

Lemma of_ascii_rstrip (s : string) :
  PyUnicode.isascii s = true ->
  PyUnicode.of_ascii (PyStr.rstrip s) = PyUnicode.rstrip (PyUnicode.of_ascii s)
  /\ PyUnicode.isascii (PyStr.rstrip s) = true.
Proof.
  induction s as [|c s IH]; intros A; [split; reflexivity|].
  apply isascii_cons in A. destruct A as [Hc Hs].
  destruct (IH Hs) as [E Ar].
  change (PyUnicode.rstrip (PyUnicode.of_ascii (String c s)))
    with (match PyUnicode.rstrip (PyUnicode.of_ascii s) with
          | [] => if PyUnicode.is_space (PyStr.code c) then [] else [PyStr.code c]
          | r => PyStr.code c :: r
          end).
  rewrite <- E, (is_space_ascii c Hc). simpl PyStr.rstrip.
  destruct (PyStr.rstrip s) as [|d r] eqn:R.
  - destruct (PyStr.is_space c); split; try reflexivity.
    apply isascii_cons. now split.
  - split; [reflexivity|]. apply isascii_cons. now split.
Qed.

Lemma of_ascii_strip (s : string) :
  PyUnicode.isascii s = true ->
  PyUnicode.of_ascii (PyStr.strip s) = PyUnicode.strip (PyUnicode.of_ascii s)
  /\ PyUnicode.isascii (PyStr.strip s) = true.
Proof.
  intros A. unfold PyStr.strip, PyUnicode.strip.
  rewrite <- (of_ascii_lstrip s A).
  apply of_ascii_rstrip, isascii_lstrip, A.
Qed.

Lemma of_ascii_upper (s : string) :
  PyUnicode.isascii s = true ->
  PyUnicode.of_ascii (PyStr.upper s) = PyUnicode.upper (PyUnicode.of_ascii s).
Proof.
  induction s as [|c s IH]; intros A; [reflexivity|].
  apply isascii_cons in A. destruct A as [Hc Hs].
  change (PyUnicode.upper (PyUnicode.of_ascii (String c s)))
    with (PyUnicode.upper_char (PyStr.code c)
            ++ PyUnicode.upper (PyUnicode.of_ascii s))%list.
  rewrite (upper_char_ascii c Hc), <- (IH Hs). reflexivity.
Qed.

(** On ASCII text the gender transform is the one of [DataTransformer]. *)
Lemma map_turkish_gender_ascii (gender_str : string) :
  PyUnicode.isascii gender_str = true ->
  UnicodeTransformer.map_turkish_gender (PyUnicode.of_ascii gender_str)
  = PyUnicode.of_ascii (DataTransformer.map_turkish_gender gender_str).
Proof.
  intros A. destruct (of_ascii_strip gender_str A) as [S As].
  unfold UnicodeTransformer.map_turkish_gender,
    DataTransformer.map_turkish_gender.
  rewrite <- S, <- (of_ascii_upper _ As).
  unfold UnicodeTransformer.female_terms, UnicodeTransformer.male_terms.
  change ["BAYAN"; "K"; "KADIN"; "F"; "FEMALE"] with DataTransformer.female_terms.
  change ["BAY"; "E"; "ERKEK"; "M"; "MALE"] with DataTransformer.male_terms.
  rewrite !of_ascii_mem.
  destruct (PyStr.mem _ DataTransformer.female_terms); [reflexivity|].
  destruct (PyStr.mem _ DataTransformer.male_terms); reflexivity.
Qed.

(** C6.  The gender transform, on any text: it looks the trimmed,
    upper-cased input up in the two vocabularies; a female term gives
    ["Female"], a male term gives ["Male"], and any other token is handed
    back as it was written (the trimmed input, in its own case); so
    ["BAYAN"] gives ["Female"] and ["unknown_token"] gives
    ["unknown_token"].  Trimming and upper case are those of Python on
    Unicode text: [kadın], written with a dotless i, gives ["Female"], and
    so does ["BAYAN"] followed by a no-break space.  The function is total:
    it never raises. *)
Theorem map_turkish_gender_lookup (gender_str : PyUnicode.str) :
  let token := PyUnicode.strip gender_str in
  (In (PyUnicode.upper token) UnicodeTransformer.female_terms ->
     UnicodeTransformer.map_turkish_gender gender_str
     = PyUnicode.of_ascii "Female")
  /\ (In (PyUnicode.upper token) UnicodeTransformer.male_terms ->
     UnicodeTransformer.map_turkish_gender gender_str
     = PyUnicode.of_ascii "Male")
  /\ (~ In (PyUnicode.upper token) UnicodeTransformer.female_terms ->
      ~ In (PyUnicode.upper token) UnicodeTransformer.male_terms ->
      UnicodeTransformer.map_turkish_gender gender_str = token)
  /\ UnicodeTransformer.map_turkish_gender (PyUnicode.of_ascii "BAYAN")
     = PyUnicode.of_ascii "Female"
  /\ UnicodeTransformer.map_turkish_gender (PyUnicode.of_ascii "unknown_token")
     = PyUnicode.of_ascii "unknown_token"
  /\ UnicodeTransformer.map_turkish_gender [107; 97; 100; 305; 110]
     = PyUnicode.of_ascii "Female"
  /\ UnicodeTransformer.map_turkish_gender (PyUnicode.of_ascii "BAYAN" ++ [160])%list
     = PyUnicode.of_ascii "Female".
Proof.
  intros token. unfold UnicodeTransformer.map_turkish_gender. fold token.
  split; [|split; [|split; [|repeat split; vm_compute; reflexivity]]].
  - intros H. apply unicode_mem_In in H. now rewrite H.
  - intros H.
    destruct (PyUnicode.mem (PyUnicode.upper token)
                UnicodeTransformer.female_terms) eqn:F.
    + apply unicode_mem_In in F. exfalso. revert F H.
      generalize (PyUnicode.upper token). intros u.
      unfold UnicodeTransformer.female_terms, UnicodeTransformer.male_terms.
      simpl. intros [F|[F|[F|[F|[F|[]]]]]];
        rewrite <- F; intros [H|[H|[H|[H|[H|[]]]]]]; discriminate.
    + apply unicode_mem_In in H. now rewrite H.
  - intros F M. apply unicode_mem_not_In in F, M. now rewrite F, M.
Qed.

Lemma map_turkish_gender_witness :
  UnicodeTransformer.map_turkish_gender (PyUnicode.of_ascii " bayan ")
    = PyUnicode.of_ascii "Female"
  /\ UnicodeTransformer.map_turkish_gender
       ([160] ++ PyUnicode.of_ascii "Erkek" ++ [8195])%list
     = PyUnicode.of_ascii "Male"
  /\ UnicodeTransformer.map_turkish_gender (PyUnicode.of_ascii " Bilinmiyor ")
     = PyUnicode.of_ascii "Bilinmiyor".
Proof.
  split; [|split].
  - destruct (map_turkish_gender_lookup (PyUnicode.of_ascii " bayan "))
      as (F & _).
    apply F. vm_compute. tauto.
  - destruct (map_turkish_gender_lookup
                ([160] ++ PyUnicode.of_ascii "Erkek" ++ [8195])%list)
      as (_ & M & _).
    apply M. vm_compute. tauto.
  - destruct (map_turkish_gender_lookup (PyUnicode.of_ascii " Bilinmiyor "))
      as (_ & _ & U & _).
    apply U; vm_compute; intros H;
      repeat (destruct H as [H|H]; [discriminate H|]); exact H.
Defined.

(** The examples of the specification for the age rounding. *)
Lemma round_age_examples :
  DataTransformer.round_age "25.50" = Return (Some 25)
  /\ DataTransformer.round_age "25.51" = Return (Some 26)
  /\ DataTransformer.round_age "25.00" = Return (Some 25)
  /\ DataTransformer.round_age "abc" = Return None.
Proof. repeat split; vm_compute; reflexivity. Qed.

(** X16.  The rounding rule on every age below 150 written with two
    decimals: up from [.51] on, down to the integer part otherwise. *)
Lemma round_age_two_decimals (years hundredths : Z) :
  0 <= years < 150 -> 0 <= hundredths < 100 ->
  DataTransformer.round_age (age_literal years hundredths)
  = Return (Some (spec_round_age years hundredths)).
Proof.
  intros Hy Hh.
  assert (T : forallb (fun y => forallb (fun h => round_age_agrees (Z.of_nat y) (Z.of_nat h))
                                        (seq 0 100)) (seq 0 150) = true)
    by (vm_compute; reflexivity).
  rewrite forallb_forall in T.
  specialize (T (Z.to_nat years)). rewrite forallb_forall in T.
  specialize (T ltac:(apply in_seq; lia) (Z.to_nat hundredths) ltac:(apply in_seq; lia)).
  rewrite !Z2Nat.id in T by lia.
  unfold round_age_agrees in T.
  destruct (DataTransformer.round_age (age_literal years hundredths)) as [[r|]|e];
    try discriminate.
  apply Z.eqb_eq in T. now subst.
Qed.

(** A string that [float] rejects gives [None]. *)
Lemma round_age_not_a_float (age_str : string) (e : exn) :
  PyFloat.of_string (PyStr.strip age_str) = Raise e ->
  exn_cls e = ValueError ->
  DataTransformer.round_age age_str = Return None.
Proof.
  intros H Hc. unfold DataTransformer.round_age. rewrite H. simpl.
  now rewrite Hc.
Qed.

(** C5.  [round_age] does not return on every string: ["inf"], which is not
    a decimal number, and ["1e999"], whose value exceeds the range of a
    float, are read by [float] as infinity; [int] then raises
    [OverflowError], which the handler for [ValueError] and [TypeError]
    lets through. *)
Theorem round_age_raises_on_infinity :
  DataTransformer.round_age "inf"
    = Raise (mkExn OverflowError "cannot convert float infinity to integer")
  /\ DataTransformer.round_age "1e999"
    = Raise (mkExn OverflowError "cannot convert float infinity to integer").
Proof. split; vm_compute; reflexivity. Qed.

(** ** Pattern extraction *)

(** What [extract_with_pattern] gets right: a first group that took part in
    the match is returned trimmed; no match, a pattern without a group and a
    pattern that does not compile give [None]. *)
Lemma extract_with_pattern_returns (re_search : regex_engine)
    (text pattern : string) :
  (forall s rest,
      re_search pattern text [IGNORECASE; MULTILINE]
        = Return (Some (mkMatch (Some s :: rest))) ->
      DataTransformer.extract_with_pattern re_search text pattern
        = Return (Some (PyStr.strip s)))
  /\ (re_search pattern text [IGNORECASE; MULTILINE] = Return None ->
      DataTransformer.extract_with_pattern re_search text pattern = Return None)
  /\ (re_search pattern text [IGNORECASE; MULTILINE] = Return (Some (mkMatch [])) ->
      DataTransformer.extract_with_pattern re_search text pattern = Return None)
  /\ (forall e,
      re_search pattern text [IGNORECASE; MULTILINE] = Raise e ->
      exn_cls e = ReError ->
      DataTransformer.extract_with_pattern re_search text pattern = Return None).
Proof.
  unfold DataTransformer.extract_with_pattern.
  repeat split; intros.
  - now rewrite H.
  - now rewrite H.
  - now rewrite H.
  - rewrite H. simpl. now rewrite H0.
Qed.

(** C9.  When the pattern matches but its first group takes no part in the
    match (as in ["(a)|b"] against ["b"]), [match.groups()] is not empty and
    [match.group(1)] is [None]: [extract_with_pattern] then raises
    [AttributeError] instead of returning the group or [None]. *)
Theorem extract_with_pattern_unset_group_raises (re_search : regex_engine)
    (text pattern : string) (rest : list (option string)) :
  re_search pattern text [IGNORECASE; MULTILINE]
    = Return (Some (mkMatch (None :: rest))) ->
  DataTransformer.extract_with_pattern re_search text pattern
    = Raise (mkExn AttributeError "'NoneType' object has no attribute 'strip'").
Proof.
  intros H. unfold DataTransformer.extract_with_pattern. rewrite H. reflexivity.
Qed.

Lemma extract_with_pattern_unset_group_witness :
  DataTransformer.extract_with_pattern alternation_engine "b" "(a)|b"
    = Raise (mkExn AttributeError "'NoneType' object has no attribute 'strip'").
Proof.
  apply (extract_with_pattern_unset_group_raises alternation_engine "b" "(a)|b" []).
  reflexivity.
Defined.

(** ** Native PDF extraction *)


Lemma kept_pages_not_blank (pages : list string) :
  forallb (fun text => negb (blank text))
          (filter (fun text => PyStr.truthy (PyStr.strip text)) pages) = true.
Proof.
  induction pages as [|p pages IH]; simpl; [reflexivity|].
  rewrite truthy_strip. destruct (blank p) eqn:B; simpl; [exact IH|].
  now rewrite B, IH.
Qed.

(** The text computed from the pages by [_extract_from_pdf] and by
    [_extract_pdf_fallback]. *)
Lemma pdf_text_of_pages (pages : list string) :
  let kept := filter (fun text => PyStr.truthy (PyStr.strip text)) pages in
  (if PyStr.truthy (PyStr.join nl kept)
   then Some (PyStr.strip (PyStr.join nl kept)) else None)
  = match kept with
    | [] => None
    | _ => Some (PyStr.strip (PyStr.join nl kept))
    end.
Proof.
  intros kept. pose proof (kept_pages_not_blank pages) as K. fold kept in K.
  destruct kept as [|x l]; [reflexivity|].
  simpl in K. apply andb_true_iff in K. destruct K as [Kx _].
  apply negb_true_iff in Kx.
  assert (N : PyStr.join nl (x :: l) <> "")
    by (apply join_nonempty; now apply blank_empty_or_space).
  apply truthy_true_iff in N. now rewrite N.
Qed.




(** ** Subject discovery *)

Lemma mem_ext (l l' : list string) :
  (forall x, In x l <-> In x l') -> forall x, PyStr.mem x l = PyStr.mem x l'.
Proof.
  intros H x. destruct (PyStr.mem x l') eqn:M.
  - apply mem_In. apply H. now apply mem_In.
  - apply mem_not_In. intros Hin. apply H in Hin. apply mem_In in Hin. congruence.
Qed.

(** The folders found depend on the request list as a set only. *)
Lemma get_subject_folders_ext (w : World) (root_folder : string)
    (l l' : list string) :
  (forall x, In x l <-> In x l') ->
  FileSystemNavigator.get_subject_folders w root_folder l
  = FileSystemNavigator.get_subject_folders w root_folder l'.
Proof.
  intros H. unfold FileSystemNavigator.get_subject_folders.
  destruct (negb (path_exists w root_folder)); [reflexivity|].
  destruct (listdir w root_folder) as [f|entries]; [reflexivity|].
  f_equal. apply flat_map_ext. intros item.
  destruct (path_isdir w (FileSystemNavigator.path_join root_folder item));
    [|reflexivity].
  destruct (FileSystemNavigator.parse_folder_name item) as [sid pname].
  now rewrite (mem_ext l l' H sid).
Qed.

Lemma missing_of_app (l1 l2 : list string)
    (fs : list FileSystemNavigator.subject_folder) :
  ExtractionEngine.missing_of (l1 ++ l2) fs
  = (ExtractionEngine.missing_of l1 fs ++ ExtractionEngine.missing_of l2 fs)%list.
Proof. unfold ExtractionEngine.missing_of. apply filter_app. Qed.

Lemma count_occ_filter (f : string -> bool) (l : list string) (x : string) :
  count_occ string_dec (filter f l) x
  = if f x then count_occ string_dec l x else 0%nat.
Proof.
  induction l as [|y l IH]; simpl.
  - now destruct (f x).
  - destruct (string_dec y x) as [->|N].
    + destruct (f x) eqn:F; simpl; [|exact IH].
      destruct (string_dec x x); [now rewrite IH | congruence].
    + destruct (f y); simpl; [destruct (string_dec y x); [congruence|]|]; exact IH.
Qed.

(** C7.  The missing list is the request list, in its order and with its
    repetitions, without the identifiers that were found: it distributes
    over concatenation of the request, and an identifier that was not found
    is kept, and occurs as often as it was requested.  The folders found do not
    change when the request repeats an identifier, so a repeated identifier
    whose folder exists still gives one triple.  Hence the number of found
    triples plus the number of missing entries is not always the number of
    distinct requested identifiers: the request 001, 001, 003, 003 against
    the sample world gives one triple and two missing entries for two
    distinct identifiers. *)
Theorem missing_subjects_keep_duplicates :
  (forall l1 l2 fs,
      ExtractionEngine.missing_of (l1 ++ l2) fs
      = (ExtractionEngine.missing_of l1 fs ++ ExtractionEngine.missing_of l2 fs)%list)
  /\ (forall sid fs,
      ExtractionEngine.missing_of [sid] fs
      = if PyStr.mem sid (map (fun folder => fst (fst folder)) fs)
        then [] else [sid])
  /\ (forall sid l fs,
      count_occ string_dec (ExtractionEngine.missing_of l fs) sid
      = if PyStr.mem sid (map (fun folder => fst (fst folder)) fs)
        then 0%nat else count_occ string_dec l sid)
  /\ (forall w root_folder l,
      FileSystemNavigator.get_subject_folders w root_folder l
      = FileSystemNavigator.get_subject_folders w root_folder (nodup string_dec l))
  /\ (let request := ["001"; "001"; "003"; "003"] in
      let found := [("001", "Jane Doe", "/data/001_Jane Doe")] in
      FileSystemNavigator.get_subject_folders sample_world "/data" request
        = Return found
      /\ ExtractionEngine.missing_of request found = ["003"; "003"]
      /\ (List.length found + List.length (ExtractionEngine.missing_of request found)
          <> List.length (nodup string_dec request))%nat).
Proof.
  split; [exact missing_of_app|]. split; [|split; [|split]].
  - intros sid fs. unfold ExtractionEngine.missing_of. simpl.
    now destruct (PyStr.mem sid (map (fun folder => fst (fst folder)) fs)).
  - intros sid l fs. unfold ExtractionEngine.missing_of.
    rewrite count_occ_filter.
    now destruct (PyStr.mem sid (map (fun folder => fst (fst folder)) fs)).
  - intros w root_folder l. apply get_subject_folders_ext.
    intros x. symmetry. apply nodup_In.
  - cbv zeta. split; [vm_compute; reflexivity|].
    split; [vm_compute; reflexivity|].
    vm_compute. discriminate.
Qed.

(** ** Backend availability *)

Lemma validate_raises_tesseract_not_found (w : World) (e : exn) :
  TextExtractor._validate_tesseract_installation w = Raise e ->
  exn_cls e = TesseractNotFoundError.
Proof.
  unfold TextExtractor._validate_tesseract_installation.
  destruct (_ <- tesseract_version w ;; _) as [u|e0].
  - discriminate.
  - destruct (exn_cls e0); intros H; injection H as <-; reflexivity.
Qed.

(** The constructor of the engine never raises. *)
Lemma engine_init_returns (w : World) (cfg : ExtractionEngine.config)
    (rules : list rule) :
  exists self, ExtractionEngine.init w cfg rules = Return self
               /\ ExtractionEngine.max_workers self = get_or 4 (ExtractionEngine.cfg_max_workers cfg)
               /\ (ExtractionEngine.tesseract_available self = true
                   <-> ExtractionEngine.text_extractor self <> None).
Proof.
  unfold ExtractionEngine.init, TextExtractor.init.
  destruct (TextExtractor._validate_tesseract_installation w) as [u|e] eqn:V; simpl.
  - eexists. split; [reflexivity|]. simpl. split; [reflexivity|].
    split; [discriminate | reflexivity].
  - rewrite (validate_raises_tesseract_not_found w e V). simpl.
    eexists. split; [reflexivity|]. simpl. split; [reflexivity|].
    split; [discriminate | congruence].
Qed.

Lemma fallback_returns (w : World) (pdf_path : string) :
  exists text, ExtractionEngine._extract_pdf_fallback w pdf_path = Return text.
Proof.
  unfold ExtractionEngine._extract_pdf_fallback.
  destruct (pdf_page_texts w pdf_path); simpl; eauto.
Qed.

Lemma extract_from_pdf_is_fallback (w : World) (self : TextExtractor.t)
    (pdf_path : string) :
  TextExtractor._extract_from_pdf w self pdf_path
  = ExtractionEngine._extract_pdf_fallback w pdf_path.
Proof. reflexivity. Qed.

Lemma extract_text_pdf (w : World) (self : TextExtractor.t) (pdf_path : string) :
  TextExtractor.extract_text w self pdf_path "pdf"
  = ExtractionEngine._extract_pdf_fallback w pdf_path.
Proof.
  unfold TextExtractor.extract_text. simpl.
  rewrite extract_from_pdf_is_fallback.
  destruct (fallback_returns w pdf_path) as [text ->]. reflexivity.
Qed.

(** C4.  When the probe of the OCR engine fails, the engine is built with
    OCR off.  Then a subject whose target is an image gets a ["Failed"]
    record with the error ["Tesseract OCR not available for image text
    extraction"] and no extraction call is made; a subject whose target is a
    PDF has its text extracted by [_extract_pdf_fallback], and its record is
    the one an engine with OCR would produce. *)
Theorem ocr_unavailable_blocks_images_not_pdfs (w : World)
    (cfg : ExtractionEngine.config) (rules : list rule) (e : exn) :
  TextExtractor._validate_tesseract_installation w = Raise e ->
  let self :=
    ExtractionEngine.mk rules (get_or 4 (ExtractionEngine.cfg_max_workers cfg))
      None false in
  ExtractionEngine.init w cfg rules = Return self
  /\ forall sid pname folder_path target_filename target_file rest,
      FileSystemNavigator.find_target_files w folder_path target_filename
        = Return (target_file :: rest) ->
      (FileSystemNavigator.get_file_type target_file = "image" ->
         ExtractionEngine._process_single_subject self w sid pname folder_path
           target_filename
         = (mkRecord sid pname target_file None "Failed"
              (Some "Tesseract OCR not available for image text extraction"),
            [FindTargetFiles folder_path])
         /\ existsb is_extraction
              (snd (ExtractionEngine._process_single_subject self w sid pname
                      folder_path target_filename)) = false)
      /\ (FileSystemNavigator.get_file_type target_file = "pdf" ->
         snd (ExtractionEngine._process_single_subject self w sid pname
                folder_path target_filename)
         = [FindTargetFiles folder_path; PdfFallback target_file]
         /\ (forall text,
               ExtractionEngine._extract_pdf_fallback w target_file
                 = Return (Some text) ->
               text <> "" ->
               fst (ExtractionEngine._process_single_subject self w sid pname
                      folder_path target_filename)
               = mkRecord sid pname target_file (Some text) "Success" None)
         /\ (forall te workers,
               fst (ExtractionEngine._process_single_subject
                      (ExtractionEngine.mk rules workers (Some te) true) w
                      sid pname folder_path target_filename)
               = fst (ExtractionEngine._process_single_subject self w sid pname
                        folder_path target_filename))).
Proof.
  intros V self. split.
  - unfold ExtractionEngine.init, TextExtractor.init. rewrite V. simpl.
    now rewrite (validate_raises_tesseract_not_found w e V).
  - intros sid pname folder_path target_filename target_file rest F.
    unfold ExtractionEngine._process_single_subject. rewrite F.
    split; intros T; rewrite T; simpl.
    + split; reflexivity.
    + unfold ExtractionEngine.extract_for. simpl.
      destruct (fallback_returns w target_file) as [o Ho].
      split; [|split].
      * rewrite Ho. destruct o as [t|]; [destruct (PyStr.truthy t)|]; reflexivity.
      * intros text Ht Hne. rewrite Ht.
        apply truthy_true_iff in Hne. now rewrite Hne.
      * intros te workers. rewrite extract_text_pdf, Ho.
        destruct o as [t|]; [destruct (PyStr.truthy t)|]; reflexivity.
Qed.

Lemma ocr_unavailable_witness :
  ExtractionEngine.init sample_world sample_config sample_rules
    = Return sample_engine
  /\ ExtractionEngine._process_single_subject sample_engine sample_world
       "001" "Jane Doe" "/data/001_Jane Doe" "report.pdf"
     = (mkRecord "001" "Jane Doe" "/data/001_Jane Doe/1/report.pdf"
          (Some ("Age: 25.6" ++ nl ++ "Gender: Bayan")) "Success" None,
        [FindTargetFiles "/data/001_Jane Doe";
         PdfFallback "/data/001_Jane Doe/1/report.pdf"]).
Proof.
  destruct (ocr_unavailable_blocks_images_not_pdfs sample_world sample_config
              sample_rules
              (mkExn TesseractNotFoundError TextExtractor.installation_instructions)
              eq_refl) as [I _].
  split; [exact I | reflexivity].
Defined.

Example image_target_without_ocr :
  ExtractionEngine._process_single_subject sample_engine sample_world
    "001" "Jane Doe" "/data/001_Jane Doe" "scan.png"
  = (mkRecord "001" "Jane Doe" "/data/001_Jane Doe/1/scan.png" None "Failed"
       (Some "Tesseract OCR not available for image text extraction"),
     [FindTargetFiles "/data/001_Jane Doe"]).
Proof. reflexivity. Qed.

(** ** The coordinator *)

Section Completion.

Context {A B : Type}.

Lemma as_completed_map (f : A -> B) (schedule : list nat) (l : list A) :
  ExtractionEngine.as_completed schedule (map f l)
  = map f (ExtractionEngine.as_completed schedule l).
Proof.
  unfold ExtractionEngine.as_completed.
  induction schedule as [|i schedule IH]; simpl; [reflexivity|].
  rewrite map_app, IH, nth_error_map.
  now destruct (nth_error l i).
Qed.

Lemma as_completed_shift (a : A) (l : list A) (schedule : list nat) :
  ExtractionEngine.as_completed (map S schedule) (a :: l)
  = ExtractionEngine.as_completed schedule l.
Proof.
  unfold ExtractionEngine.as_completed.
  induction schedule as [|i schedule IH]; simpl; [reflexivity|].
  now rewrite IH.
Qed.

(** In submission order every task completes once. *)
Lemma as_completed_in_order (l : list A) :
  ExtractionEngine.as_completed (seq 0 (List.length l)) l = l.
Proof.
  induction l as [|a l IH]; [reflexivity|].
  simpl List.length. simpl seq. rewrite <- seq_shift.
  change (ExtractionEngine.as_completed (0%nat :: map S (seq 0 (List.length l))) (a :: l))
    with (a :: ExtractionEngine.as_completed (map S (seq 0 (List.length l))) (a :: l)).
  now rewrite as_completed_shift, IH.
Qed.

(** In any order of completion every task completes once. *)
Lemma as_completed_permutation (schedule : list nat) (l : list A) :
  Permutation schedule (seq 0 (List.length l)) ->
  Permutation (ExtractionEngine.as_completed schedule l) l.
Proof.
  intros H. rewrite <- (as_completed_in_order l) at 2.
  unfold ExtractionEngine.as_completed. now apply Permutation_flat_map.
Qed.

End Completion.

(** The loop appends one record for every completed future. *)
Lemma collect_records (has_callback : bool) (total : Z)
    (done : list ExtractionEngine.future) :
  forall completed extraction_data tr,
    fst (ExtractionEngine.collect has_callback total done completed
           extraction_data tr)
    = (extraction_data ++ map stored_record done)%list.
Proof.
  induction done as [|fut done IH]; intros completed extraction_data tr; simpl.
  - now rewrite app_nil_r.
  - unfold stored_record at 1.
    destruct (ExtractionEngine.fut_subject fut) as [sid pname].
    destruct (ExtractionEngine.fut_result fut) as [[result calls]|e];
      rewrite IH, <- app_assoc; reflexivity.
Qed.

Lemma stored_record_submitted (self : ExtractionEngine.t) (w : World)
    (target_filename : string) (l : list FileSystemNavigator.subject_folder) :
  map stored_record (ExtractionEngine.submit_all self w target_filename l)
  = map (record_of self w target_filename) l.
Proof.
  unfold ExtractionEngine.submit_all. rewrite map_map. apply map_ext.
  intros [[sid pname] folder_path]. reflexivity.
Qed.

(** With a positive worker limit [_process_subjects] returns, and its records
    are those of the subjects in their order of completion. *)
Lemma process_subjects_records (self : ExtractionEngine.t) (w : World)
    (subject_folders : list FileSystemNavigator.subject_folder)
    (target_filename : string) (has_callback : bool) (schedule : list nat) :
  0 < ExtractionEngine.max_workers self ->
  exists tr,
    ExtractionEngine._process_subjects self w subject_folders target_filename
      has_callback schedule
    = Return (map (record_of self w target_filename)
                  (ExtractionEngine.as_completed schedule subject_folders), tr).
Proof.
  intros Hw. unfold ExtractionEngine._process_subjects.
  assert (E : (ExtractionEngine.max_workers self <=? 0) = false)
    by (apply Z.leb_gt; exact Hw).
  rewrite E.
  match goal with
  | |- exists tr, Return ?c = _ => exists (snd c); rewrite (surjective_pairing c) at 1
  end.
  rewrite collect_records. simpl app.
  unfold ExtractionEngine.submit_all at 1. rewrite as_completed_map.
  exact (f_equal (fun recs => Return (recs, _))
           (stored_record_submitted self w target_filename
              (ExtractionEngine.as_completed schedule subject_folders))).
Qed.

Lemma os_error_str_nonempty (f : os_failure) (filename : string) :
  exn_str (os_error f filename) <> "".
Proof. unfold os_error. simpl. discriminate. Qed.

Lemma find_target_files_raise (w : World) (folder_path target_filename : string)
    (e : exn) :
  FileSystemNavigator.find_target_files w folder_path target_filename = Raise e ->
  exn_str e <> "".
Proof.
  unfold FileSystemNavigator.find_target_files.
  destruct (negb (path_exists w folder_path)); [discriminate|].
  destruct (listdir w folder_path) as [f|entries]; [|discriminate].
  intros H. injection H as <-. apply os_error_str_nonempty.
Qed.

Lemma extract_text_returns (w : World) (te : TextExtractor.t)
    (file_path file_type : string) :
  exists o, TextExtractor.extract_text w te file_path file_type = Return o.
Proof.
  unfold TextExtractor.extract_text.
  match goal with |- exists o, catch ?c _ _ = _ => destruct c end; simpl; eauto.
Qed.

(** The text extraction step never raises. *)
Lemma extract_for_returns (self : ExtractionEngine.t) (w : World)
    (target_file file_type : string) :
  exists o, fst (ExtractionEngine.extract_for self w target_file file_type)
            = Return o.
Proof.
  unfold ExtractionEngine.extract_for.
  destruct (String.eqb file_type "image"), (ExtractionEngine.text_extractor self) as [te|];
    simpl; try apply extract_text_returns;
    destruct (String.eqb file_type "pdf"); simpl;
    try apply extract_text_returns; try apply fallback_returns; eauto.
Qed.

(** A record is either a failure with an error message that is not empty, or
    a success with a text that is not empty; it carries the identity of its
    subject. *)
Ltac failed_with_message :=
  simpl; repeat split; left; repeat split;
  eexists; split; [reflexivity | try discriminate].

Lemma process_single_subject_record (self : ExtractionEngine.t) (w : World)
    (sid pname folder_path target_filename : string) :
  let r := fst (ExtractionEngine._process_single_subject self w sid pname
                  folder_path target_filename) in
  subject_id r = sid /\ patient_name r = pname
  /\ ((extraction_status r = "Failed" /\ extracted_text r = None
       /\ exists msg, error r = Some msg /\ msg <> "")
      \/ (extraction_status r = "Success" /\ error r = None
          /\ exists text, extracted_text r = Some text /\ text <> "")).
Proof.
  unfold ExtractionEngine._process_single_subject.
  destruct (FileSystemNavigator.find_target_files w folder_path target_filename)
    as [[|target_file rest]|e] eqn:F.
  - failed_with_message.
  - destruct (String.eqb (FileSystemNavigator.get_file_type target_file) "unknown");
      [failed_with_message|].
    destruct (String.eqb (FileSystemNavigator.get_file_type target_file) "image"
              && negb (ExtractionEngine.tesseract_available self));
      [failed_with_message|].
    destruct (extract_for_returns self w target_file
                (FileSystemNavigator.get_file_type target_file)) as [o Ho].
    destruct (ExtractionEngine.extract_for self w target_file
                (FileSystemNavigator.get_file_type target_file)) as [x calls].
    simpl in Ho. subst x.
    destruct o as [text|]; [destruct (PyStr.truthy text) eqn:T|];
      [|failed_with_message..].
    simpl. repeat split. right. repeat split. exists text.
    split; [reflexivity | now apply truthy_true_iff].
  - failed_with_message.
    now apply (find_target_files_raise w folder_path target_filename).
Qed.

(** A failure of the pipeline gives a ["Failed"] record. *)
Lemma pipeline_failure_failed (self : ExtractionEngine.t) (w : World)
    (sid pname folder_path target_filename : string) :
  pipeline_failure self w folder_path target_filename ->
  extraction_status
    (fst (ExtractionEngine._process_single_subject self w sid pname folder_path
            target_filename)) = "Failed".
Proof.
  intros H. unfold ExtractionEngine._process_single_subject.
  destruct H as [F | target_file rest F T | target_file rest extracted F X N | e F];
    rewrite F; try reflexivity.
  - now rewrite T.
  - destruct (String.eqb (FileSystemNavigator.get_file_type target_file) "unknown");
      [reflexivity|].
    destruct (String.eqb (FileSystemNavigator.get_file_type target_file) "image"
              && negb (ExtractionEngine.tesseract_available self)); [reflexivity|].
    destruct (ExtractionEngine.extract_for self w target_file
                (FileSystemNavigator.get_file_type target_file)) as [x calls].
    simpl in X. subst x. destruct N as [-> | ->]; reflexivity.
Qed.

(** The record of a subject depends on the world through the files of that
    subject only. *)
Lemma process_single_subject_local (self : ExtractionEngine.t) (w w' : World)
    (sid pname folder_path target_filename : string) :
  FileSystemNavigator.find_target_files w folder_path target_filename
    = FileSystemNavigator.find_target_files w' folder_path target_filename ->
  (forall target_file rest,
      FileSystemNavigator.find_target_files w folder_path target_filename
        = Return (target_file :: rest) ->
      pdf_page_texts w target_file = pdf_page_texts w' target_file
      /\ image_to_string w target_file = image_to_string w' target_file) ->
  ExtractionEngine._process_single_subject self w sid pname folder_path
    target_filename
  = ExtractionEngine._process_single_subject self w' sid pname folder_path
      target_filename.
Proof.
  intros F X. unfold ExtractionEngine._process_single_subject. rewrite <- F.
  destruct (FileSystemNavigator.find_target_files w folder_path target_filename)
    as [[|target_file rest]|e]; try reflexivity.
  destruct (X target_file rest eq_refl) as [P I].
  assert (E : forall ty,
             ExtractionEngine.extract_for self w target_file ty
             = ExtractionEngine.extract_for self w' target_file ty).
  { intros ty. unfold ExtractionEngine.extract_for, TextExtractor.extract_text,
      TextExtractor._extract_from_image, TextExtractor._extract_from_pdf,
      ExtractionEngine._extract_pdf_fallback.
    now rewrite P, I. }
  now rewrite E.
Qed.

(** For a callback that returns, the loop is the one of
    [ExtractionEngine.collect]. *)
Lemma collect_returning (callback : option AnyCallback.progress_callback)
    (total : Z) (done : list ExtractionEngine.future) :
  AnyCallback.returns callback ->
  forall completed extraction_data tr,
    AnyCallback.collect callback total done completed extraction_data tr
    = ExtractionEngine.collect (AnyCallback.is_given callback) total done
        completed extraction_data tr.
Proof.
  intros R.
  induction done as [|fut done IH]; intros completed extraction_data tr;
    [reflexivity|].
  simpl. destruct (ExtractionEngine.fut_subject fut) as [sid pname].
  destruct (ExtractionEngine.fut_result fut) as [[result calls]|e]; [|apply IH].
  destruct callback as [call|]; simpl.
  - rewrite (R call eq_refl). apply IH.
  - rewrite app_nil_r. apply IH.
Qed.

Lemma process_subjects_returning (self : ExtractionEngine.t) (w : World)
    (subject_folders : list FileSystemNavigator.subject_folder)
    (target_filename : string)
    (callback : option AnyCallback.progress_callback) (schedule : list nat) :
  AnyCallback.returns callback ->
  AnyCallback._process_subjects self w subject_folders target_filename callback
    schedule
  = ExtractionEngine._process_subjects self w subject_folders target_filename
      (AnyCallback.is_given callback) schedule.
Proof.
  intros R. unfold AnyCallback._process_subjects, ExtractionEngine._process_subjects.
  now rewrite (collect_returning callback _ _ R).
Qed.

(** The callbacks that [ExtractionEngine._process_subjects] takes return. *)
Lemma given_returns (has_callback : bool) :
  AnyCallback.returns (AnyCallback.given has_callback)
  /\ AnyCallback.is_given (AnyCallback.given has_callback) = has_callback.
Proof.
  destruct has_callback; split; try reflexivity.
  - intros call H. injection H as <-. reflexivity.
  - intros call H. discriminate H.
Qed.

(** C2.  With a positive worker limit and a progress callback that returns
    (or none), in whatever order the subjects complete, [_process_subjects]
    returns without raising; its records are, up to their order, the records
    of the discovered subjects, one for each.  When the pipeline of a subject
    fails (target file not found, file type not supported, nothing
    extracted, or an exception raised), the record of that subject carries
    its identifier, the status ["Failed"] and an error message that is not
    empty, and the remaining records are those of the other subjects, as if
    the failing subject were not there. *)
Theorem subject_failures_are_isolated (self : ExtractionEngine.t) (w : World)
    (subject_folders : list FileSystemNavigator.subject_folder)
    (target_filename : string)
    (callback : option AnyCallback.progress_callback) (schedule : list nat) :
  0 < ExtractionEngine.max_workers self ->
  AnyCallback.returns callback ->
  Permutation schedule (seq 0 (List.length subject_folders)) ->
  exists recs tr,
    AnyCallback._process_subjects self w subject_folders target_filename
      callback schedule = Return (recs, tr)
    /\ Permutation recs (map (record_of self w target_filename) subject_folders)
    /\ List.length recs = List.length subject_folders
    /\ forall before sid pname folder_path after,
        subject_folders = (before ++ (sid, pname, folder_path) :: after)%list ->
        pipeline_failure self w folder_path target_filename ->
        let r := record_of self w target_filename (sid, pname, folder_path) in
        subject_id r = sid
        /\ extraction_status r = "Failed"
        /\ (exists msg, error r = Some msg /\ msg <> "")
        /\ Permutation recs
             (r :: map (record_of self w target_filename) (before ++ after)).
Proof.
  intros Hw Hc Hs.
  rewrite (process_subjects_returning self w subject_folders target_filename
             callback schedule Hc).
  destruct (process_subjects_records self w subject_folders target_filename
              (AnyCallback.is_given callback) schedule Hw) as [tr Htr].
  pose proof (as_completed_permutation schedule subject_folders Hs) as P.
  assert (PR : Permutation
                 (map (record_of self w target_filename)
                      (ExtractionEngine.as_completed schedule subject_folders))
                 (map (record_of self w target_filename) subject_folders))
    by now apply Permutation_map.
  eexists. exists tr. split; [exact Htr|]. split; [exact PR|]. split.
  - rewrite (Permutation_length PR). apply length_map.
  - intros before sid pname folder_path after -> Hfail r.
    pose proof (process_single_subject_record self w sid pname folder_path
                  target_filename) as (Hid & _ & Hcases).
    pose proof (pipeline_failure_failed self w sid pname folder_path
                  target_filename Hfail) as Hst.
    split; [exact Hid|]. split; [exact Hst|]. split.
    + destruct Hcases as [(_ & _ & Hmsg) | (Hsuccess & _)]; [exact Hmsg|].
      unfold r, record_of. rewrite Hst in Hsuccess. discriminate.
    + eapply Permutation_trans; [exact PR|].
      rewrite !map_app. simpl. symmetry. apply Permutation_middle.
Qed.

(** In the sample world subject 002 has no visit folder: its pipeline fails,
    its record says so, and the record of subject 001 is there as well. *)
Lemma subject_failures_witness :
  let failed := mkRecord "002" "John Smith" "" None "Failed"
                  (Some "Target file 'report.pdf' not found") in
  exists recs tr,
    AnyCallback._process_subjects sample_engine sample_world
      [("001", "Jane Doe", "/data/001_Jane Doe");
       ("002", "John Smith", "/data/002_John Smith")]
      "report.pdf" (Some AnyCallback.emitting) [1; 0]%nat = Return (recs, tr)
    /\ List.length recs = 2%nat
    /\ record_of sample_engine sample_world "report.pdf"
         ("002", "John Smith", "/data/002_John Smith") = failed
    /\ Permutation recs
         [failed;
          record_of sample_engine sample_world "report.pdf"
            ("001", "Jane Doe", "/data/001_Jane Doe")].
Proof.
  destruct (subject_failures_are_isolated sample_engine sample_world
              [("001", "Jane Doe", "/data/001_Jane Doe");
               ("002", "John Smith", "/data/002_John Smith")]
              "report.pdf" (Some AnyCallback.emitting) [1; 0]%nat)
    as (recs & tr & H & _ & L & F).
  - reflexivity.
  - intros call E. injection E as <-. reflexivity.
  - apply perm_swap.
  - destruct (F [("001", "Jane Doe", "/data/001_Jane Doe")]
                "002" "John Smith" "/data/002_John Smith" [] eq_refl
                (TargetNotFound sample_engine sample_world "/data/002_John Smith"
                   "report.pdf" eq_refl))
      as (_ & _ & _ & P).
    exists recs, tr. split; [exact H|]. split; [exact L|].
    split; [reflexivity | exact P].
Defined.

(** C2, as stated, fails in two ways.  With a worker limit of 0 the pool
    refuses to start: [_process_subjects] raises and gives no record for the
    discovered subject.  With a callback that raises, the loop appends the
    record of the subject and then an error record for the same subject:
    two records for one discovered subject. *)
Lemma subject_failures_counterexample :
  AnyCallback._process_subjects no_workers_engine sample_world
    [("002", "John Smith", "/data/002_John Smith")] "report.pdf" None [0%nat]
  = Raise (mkExn ValueError "max_workers must be greater than 0")
  /\ AnyCallback._process_subjects sample_engine sample_world
       [("002", "John Smith", "/data/002_John Smith")] "report.pdf"
       (Some failing_callback) [0%nat]
     = Return
         ([mkRecord "002" "John Smith" "" None "Failed"
             (Some "Target file 'report.pdf' not found");
           mkRecord "002" "John Smith" "" None "Failed"
             (Some "wrapped C/C++ object has been deleted")],
          [FindTargetFiles "/data/002_John Smith";
           Progress 80 "Processed 002 (1/1)"]).
Proof. split; reflexivity. Qed.

(** ** The run *)

Lemma get_subject_folders_nil (w : World) (root_folder : string)
    (fs : list FileSystemNavigator.subject_folder) :
  FileSystemNavigator.get_subject_folders w root_folder [] = Return fs -> fs = [].
Proof.
  unfold FileSystemNavigator.get_subject_folders.
  destruct (negb (path_exists w root_folder)); [congruence|].
  destruct (listdir w root_folder) as [f|entries]; [discriminate|].
  intros H. injection H as <-.
  induction entries as [|item entries IH]; [reflexivity|].
  simpl. rewrite IH.
  destruct (path_isdir w (FileSystemNavigator.path_join root_folder item));
    [|reflexivity].
  destruct (FileSystemNavigator.parse_folder_name item) as [sid pname].
  now rewrite andb_false_r.
Qed.

Lemma progress_only (has_callback : bool) (percentage : Z) (message : string) :
  existsb is_subject_processing
    (ExtractionEngine.progress has_callback percentage message) = false.
Proof. now destruct has_callback. Qed.

(** For a callback that returns, [extract_data] is the one of
    [ExtractionEngine]. *)
Lemma extract_data_returning (self : ExtractionEngine.t) (w : World)
    (root_folder subject_list_file target_filename : string)
    (callback : option AnyCallback.progress_callback) (schedule : list nat) :
  AnyCallback.returns callback ->
  AnyCallback.extract_data self w root_folder subject_list_file target_filename
    callback schedule
  = (Return (fst (ExtractionEngine.extract_data self w root_folder
                    subject_list_file target_filename
                    (AnyCallback.is_given callback) schedule)),
     snd (ExtractionEngine.extract_data self w root_folder subject_list_file
            target_filename (AnyCallback.is_given callback) schedule)).
Proof.
  intros R.
  assert (Rep : forall p m, AnyCallback.report callback p m = Return tt).
  { intros p m. destruct callback as [call|]; [apply (R call eq_refl) | reflexivity]. }
  assert (Tr : forall p m,
             AnyCallback.call_of callback p m
             = ExtractionEngine.progress (AnyCallback.is_given callback) p m).
  { intros p m. now destruct callback. }
  unfold AnyCallback.extract_data, ExtractionEngine.extract_data,
    AnyCallback.extraction_error, ExtractionEngine.extraction_error,
    AnyCallback.completed_run, ExtractionEngine.completed_run.
  cbv zeta. rewrite !Rep, !Tr.
  destruct (FileSystemNavigator.load_subject_list w subject_list_file)
    as [[|sid0 subject_list]|e]; try reflexivity.
  destruct (FileSystemNavigator.get_subject_folders w root_folder
              (sid0 :: subject_list)) as [[|folder fs]|e]; try reflexivity.
  rewrite ?Rep, ?Tr.
  rewrite (process_subjects_returning self w (folder :: fs) target_filename
             callback schedule R).
  destruct (ExtractionEngine._process_subjects self w (folder :: fs)
              target_filename (AnyCallback.is_given callback) schedule)
    as [[recs calls]|e]; rewrite ?Rep, ?Tr; reflexivity.
Qed.

(** C3.  With a progress callback that returns (or none), [extract_data]
    returns a result.  When the resolver discovers no subject folder (the
    list of subjects is missing, unreadable or empty, the root is missing or
    cannot be listed, or no folder matches), the result has the success flag
    off, an error list that is not empty and no data, and the pipeline of no
    subject is started.  When at least one folder is discovered and the
    worker limit is positive, the result has the success flag on, no error
    and one record for every discovered subject, whatever the status of
    these records. *)
Theorem zero_subjects_abort_else_complete (self : ExtractionEngine.t)
    (w : World) (root_folder subject_list_file target_filename : string)
    (callback : option AnyCallback.progress_callback) (schedule : list nat) :
  AnyCallback.returns callback ->
  let found := discovered w root_folder subject_list_file in
  let run := AnyCallback.extract_data self w root_folder subject_list_file
               target_filename callback schedule in
  exists res,
    fst run = Return res
    /\ (found = [] ->
        ExtractionEngine.success res = false
        /\ ExtractionEngine.errors res <> []
        /\ ExtractionEngine.data res = []
        /\ existsb is_subject_processing (snd run) = false)
    /\ (found <> [] ->
        0 < ExtractionEngine.max_workers self ->
        Permutation schedule (seq 0 (List.length found)) ->
        ExtractionEngine.success res = true
        /\ ExtractionEngine.errors res = []
        /\ ExtractionEngine.total_subjects res = Z.of_nat (List.length found)
        /\ ExtractionEngine.processed_subjects res = Z.of_nat (List.length found)
        /\ Permutation (ExtractionEngine.data res)
             (map (record_of self w target_filename) found)).
Proof.
  intros R found run. subst found run.
  rewrite (extract_data_returning self w root_folder subject_list_file
             target_filename callback schedule R).
  set (has_callback := AnyCallback.is_given callback).
  eexists. split; [reflexivity|]. cbn [fst snd].
  unfold discovered, ExtractionEngine.extract_data.
  destruct (FileSystemNavigator.load_subject_list w subject_list_file)
    as [[|sid0 subject_list]|e] eqn:L.
  - (* the list is empty *)
    split.
    + intros _. simpl. rewrite progress_only.
      repeat split. discriminate.
    + intros N. exfalso. apply N.
      destruct (FileSystemNavigator.get_subject_folders w root_folder []) eqn:G;
        [now apply (get_subject_folders_nil w root_folder) | reflexivity].
  - destruct (FileSystemNavigator.get_subject_folders w root_folder
                (sid0 :: subject_list)) as [[|folder fs]|e] eqn:G.
    + (* no folder matches *)
      split; [|congruence]. intros _.
      destruct (ExtractionEngine.missing_of (sid0 :: subject_list) []);
        simpl; rewrite existsb_app, !progress_only;
        repeat split; discriminate.
    + (* some folders *)
      split; [discriminate|]. intros _ Hw Hs.
      destruct (process_subjects_records self w (folder :: fs) target_filename
                  has_callback schedule Hw) as [tr ->].
      pose proof (as_completed_permutation schedule (folder :: fs) Hs) as P.
      unfold ExtractionEngine.completed_run. cbn [fst snd].
      cbn [ExtractionEngine.success ExtractionEngine.errors
           ExtractionEngine.total_subjects ExtractionEngine.processed_subjects
           ExtractionEngine.data].
      repeat split.
      * now rewrite length_map, (Permutation_length P).
      * now apply Permutation_map.
    + (* the root cannot be listed *)
      split; [|congruence]. intros _.
      simpl. rewrite !existsb_app, !progress_only.
      repeat split. discriminate.
  - (* the list cannot be read *)
    split; [|congruence]. intros _.
    simpl. rewrite existsb_app, !progress_only.
    repeat split. discriminate.
Qed.

Lemma zero_subjects_witness :
  (exists res,
     fst (AnyCallback.extract_data sample_engine sample_world "/data"
            "/data/no_such_list.txt" "report.pdf" (Some AnyCallback.emitting) [])
       = Return res
     /\ ExtractionEngine.success res = false
     /\ ExtractionEngine.errors res <> []
     /\ ExtractionEngine.data res = [])
  /\ (exists res,
        fst (AnyCallback.extract_data sample_engine sample_world "/data"
               "/data/only_002.txt" "report.pdf" (Some AnyCallback.emitting)
               [0%nat])
          = Return res
        /\ ExtractionEngine.success res = true
        /\ ExtractionEngine.errors res = []
        /\ map extraction_status (ExtractionEngine.data res) = ["Failed"]).
Proof.
  assert (R : AnyCallback.returns (Some AnyCallback.emitting))
    by (intros call E; injection E as <-; reflexivity).
  split.
  - destruct (zero_subjects_abort_else_complete sample_engine sample_world
                "/data" "/data/no_such_list.txt" "report.pdf"
                (Some AnyCallback.emitting) [] R) as (res & E & A & _).
    destruct (A eq_refl) as (S & Er & D & _). exists res. auto.
  - destruct (zero_subjects_abort_else_complete sample_engine sample_world
                "/data" "/data/only_002.txt" "report.pdf"
                (Some AnyCallback.emitting) [0%nat] R) as (res & E & _ & C).
    destruct C as (S & Er & _).
    + vm_compute. discriminate.
    + reflexivity.
    + vm_compute. constructor. constructor.
    + exists res. split; [exact E|]. split; [exact S|]. split; [exact Er|].
      vm_compute in E. injection E as <-. reflexivity.
Defined.

(** C3, as stated, fails in two ways.  With a worker limit that is not
    positive, a folder is discovered for subject 002, the pool refuses to
    start, and the run ends with the success flag off and no data.  With a
    callback that raises, the last report, which stands outside of the
    handler, raises as well: the caller is handed no result. *)
Lemma zero_subjects_worker_limit_counterexample :
  let run := AnyCallback.extract_data no_workers_engine sample_world "/data"
               "/data/only_002.txt" "report.pdf" None [0%nat] in
  ExtractionEngine.init sample_world no_workers_config sample_rules
    = Return no_workers_engine
  /\ discovered sample_world "/data" "/data/only_002.txt"
     = [("002", "John Smith", "/data/002_John Smith")]
  /\ (exists res,
        fst run = Return res
        /\ ExtractionEngine.success res = false
        /\ ExtractionEngine.data res = []
        /\ ExtractionEngine.errors res
           = ["Extraction error: max_workers must be greater than 0"])
  /\ fst (AnyCallback.extract_data sample_engine sample_world "/data"
            "/data/only_002.txt" "report.pdf" (Some failing_callback) [0%nat])
     = Raise (mkExn OtherException "wrapped C/C++ object has been deleted").
Proof.
  cbv zeta. split; [reflexivity|]. split; [reflexivity|]. split; [|reflexivity].
  eexists. split; [reflexivity|]. repeat split; reflexivity.
Qed.

(** ** The success count *)

(** The status of a record is not blank, so the counting loop of
    [extract_data] counts the record, whatever the rules found. *)
Lemma has_extracted_data_of_status (r : subject_record) :
  extraction_status r = "Failed" \/ extraction_status r = "Success" ->
  ExtractionEngine.has_extracted_data r = true.
Proof.
  intros H. unfold ExtractionEngine.has_extracted_data.
  apply existsb_exists.
  exists ("extraction_status", PStr (extraction_status r)). split.
  - unfold items. simpl. tauto.
  - destruct H as [-> | ->]; reflexivity.
Qed.

Lemma stored_record_status (self : ExtractionEngine.t) (w : World)
    (target_filename : string) (s : FileSystemNavigator.subject_folder) :
  extraction_status (record_of self w target_filename s) = "Failed"
  \/ extraction_status (record_of self w target_filename s) = "Success".
Proof.
  destruct s as [[sid pname] folder_path]. unfold record_of.
  destruct (process_single_subject_record self w sid pname folder_path
              target_filename) as (_ & _ & [(H & _) | (H & _)]); auto.
Qed.

Lemma filter_all {A} (f : A -> bool) (l : list A) :
  (forall x, In x l -> f x = true) -> filter f l = l.
Proof.
  induction l as [|a l IH]; intros H; simpl; [reflexivity|].
  rewrite (H a (or_introl eq_refl)), IH; [reflexivity|].
  intros x Hx. apply H. now right.
Qed.

(** X18.  In every run the count of successful extractions is the number of
    processed subjects, and the count of failed extractions is zero. *)
Lemma every_record_counted_successful (self : ExtractionEngine.t) (w : World)
    (root_folder subject_list_file target_filename : string)
    (has_callback : bool) (schedule : list nat) :
  let res := fst (ExtractionEngine.extract_data self w root_folder
                    subject_list_file target_filename has_callback schedule) in
  ExtractionEngine.successful_extractions res
    = ExtractionEngine.processed_subjects res
  /\ ExtractionEngine.failed_extractions res = 0.
Proof.
  unfold ExtractionEngine.extract_data.
  destruct (FileSystemNavigator.load_subject_list w subject_list_file)
    as [[|sid0 subject_list]|e]; [simpl; auto | | simpl; auto].
  destruct (FileSystemNavigator.get_subject_folders w root_folder
              (sid0 :: subject_list)) as [[|folder fs]|e]; [| | simpl; auto].
  - destruct (ExtractionEngine.missing_of (sid0 :: subject_list) []); simpl; auto.
  - destruct (Z_lt_le_dec 0 (ExtractionEngine.max_workers self)) as [Hw|Hw].
    + destruct (process_subjects_records self w (folder :: fs) target_filename
                  has_callback schedule Hw) as [tr ->].
      unfold ExtractionEngine.completed_run. cbn [fst snd].
      cbn [ExtractionEngine.successful_extractions
           ExtractionEngine.processed_subjects
           ExtractionEngine.failed_extractions].
      rewrite filter_all; [split; [reflexivity | lia]|].
      intros r Hr. apply in_map_iff in Hr. destruct Hr as [s [<- _]].
      apply has_extracted_data_of_status, stored_record_status.
    + unfold ExtractionEngine._process_subjects.
      apply Z.leb_le in Hw. rewrite Hw.
      destruct (ExtractionEngine.missing_of (sid0 :: subject_list) (folder :: fs));
        simpl; auto.
Qed.

(** C1.  The success count does not look at the rule fields.  In the sample
    world the run over subject 002, whose target file is missing, yields one
    ["Failed"] record without text; the report row of this record has the
    identity columns only, for any rules and any search engine, so no
    declared rule field has a value.  Yet [extract_data] reports one
    successful and no failed extraction: the keys [extraction_status] and
    [error] (and [patient_name], which the exclusion list misses) are
    counted as extracted data. *)
Theorem success_count_ignores_rule_fields :
  let res := fst (ExtractionEngine.extract_data sample_engine sample_world
                    "/data" "/data/only_002.txt" "report.pdf" false [0%nat]) in
  ExtractionEngine.data res
    = [mkRecord "002" "John Smith" "" None "Failed"
         (Some "Target file 'report.pdf' not found")]
  /\ ExtractionEngine.processed_subjects res = 1
  /\ ExtractionEngine.successful_extractions res = 1
  /\ ExtractionEngine.failed_extractions res = 0
  /\ forall (re_search : regex_engine) (rules : list rule),
      DataProcessor.process_extracted_data re_search rules
        (ExtractionEngine.data res)
      = Return [[("Subject ID", PStr "002"); ("Name", PStr "John Smith")]]
      /\ spec_successful_count
           [[("Subject ID", PStr "002"); ("Name", PStr "John Smith")]] = 0.
Proof.
  cbv zeta. repeat split.
Qed.

(* ================================================================== *)
(** * Further properties *)

(** ** More on strings *)

Lemma append_empty_r (s : string) : s ++ "" = s.
Proof. induction s as [|c s IH]; simpl; [reflexivity | now rewrite IH]. Qed.

Lemma append_assoc (a b c : string) : (a ++ b) ++ c = a ++ (b ++ c).
Proof. induction a as [|x a IH]; simpl; [reflexivity | now rewrite IH]. Qed.

Lemma length_append (a b : string) :
  String.length (a ++ b) = (String.length a + String.length b)%nat.
Proof. induction a as [|x a IH]; simpl; [reflexivity | now rewrite IH]. Qed.

Lemma rstrip_idempotent (s : string) : PyStr.rstrip (PyStr.rstrip s) = PyStr.rstrip s.
Proof.
  induction s as [|c s IH]; [reflexivity|].
  simpl. destruct (PyStr.rstrip s) as [|d r] eqn:R.
  - destruct (PyStr.is_space c) eqn:E; simpl; [reflexivity | now rewrite E].
  - change (PyStr.rstrip (String c (String d r)))
      with (match PyStr.rstrip (String d r) with
            | EmptyString =>
                if PyStr.is_space c then EmptyString else String c EmptyString
            | r0 => String c r0
            end).
    now rewrite IH.
Qed.

Lemma rstrip_keeps_head (c : ascii) (r : string) :
  PyStr.is_space c = false -> exists r', PyStr.rstrip (String c r) = String c r'.
Proof.
  intros E. simpl. destruct (PyStr.rstrip r); [rewrite E|]; eauto.
Qed.

Lemma lstrip_head (s : string) :
  PyStr.lstrip s = ""
  \/ exists c r, PyStr.lstrip s = String c r /\ PyStr.is_space c = false.
Proof.
  induction s as [|c s IH]; simpl; [now left|].
  destruct (PyStr.is_space c) eqn:E; [exact IH | right; eauto].
Qed.

(** [s.strip().strip() == s.strip()] *)
Lemma strip_idempotent (s : string) : PyStr.strip (PyStr.strip s) = PyStr.strip s.
Proof.
  unfold PyStr.strip.
  destruct (lstrip_head s) as [-> | (c & r & -> & E)]; [reflexivity|].
  destruct (rstrip_keeps_head c r E) as [r' R].
  rewrite R. simpl PyStr.lstrip. rewrite E, <- R. apply rstrip_idempotent.
Qed.

Lemma rstrip_app (a b : string) :
  PyStr.rstrip b <> "" -> PyStr.rstrip (a ++ b) = a ++ PyStr.rstrip b.
Proof.
  intros H. induction a as [|c a IH]; [reflexivity|].
  simpl. rewrite IH. destruct (a ++ PyStr.rstrip b) eqn:E; [|reflexivity].
  destruct a; simpl in E; [contradiction | discriminate].
Qed.

Lemma rstrip_no_space (s : string) : no_space s = true -> PyStr.rstrip s = s.
Proof.
  induction s as [|c s IH]; [reflexivity|].
  simpl. intros H. apply andb_true_iff in H. destruct H as [Hc Hs].
  apply negb_true_iff in Hc. rewrite (IH Hs), Hc. now destruct s.
Qed.

Lemma word_not_empty (x : string) : is_word x = true -> x <> "".
Proof. destruct x; [discriminate | discriminate]. Qed.

Lemma strip_word (x : string) : is_word x = true -> PyStr.strip x = x.
Proof.
  intros H. unfold is_word in H. apply andb_true_iff in H. destruct H as [T N].
  unfold PyStr.strip. destruct x as [|c x]; [discriminate|].
  simpl in N. apply andb_true_iff in N. destruct N as [Hc Hx].
  simpl PyStr.lstrip. apply negb_true_iff in Hc. rewrite Hc.
  apply rstrip_no_space. simpl. now rewrite Hc, Hx.
Qed.

(** Words joined by single spaces are left alone by [strip]. *)
Lemma strip_join_words (ws : list string) :
  Forall (fun x => is_word x = true) ws ->
  PyStr.strip (PyStr.join " " ws) = PyStr.join " " ws.
Proof.
  intros H. unfold PyStr.strip.
  assert (L : PyStr.lstrip (PyStr.join " " ws) = PyStr.join " " ws).
  { destruct H as [|x l Hx _]; [reflexivity|].
    unfold is_word in Hx. apply andb_true_iff in Hx. destruct Hx as [T N].
    destruct x as [|c x]; [discriminate|].
    simpl in N. apply andb_true_iff in N. destruct N as [Hc _].
    apply negb_true_iff in Hc.
    unfold PyStr.join. destruct l; simpl; now rewrite Hc. }
  rewrite L. clear L.
  induction H as [|x l Hx Hl IH]; [reflexivity|].
  destruct l as [|y l].
  - unfold PyStr.join. simpl. apply rstrip_no_space.
    unfold is_word in Hx. apply andb_true_iff in Hx. tauto.
  - change (PyStr.join " " (x :: y :: l)) with (x ++ " " ++ PyStr.join " " (y :: l)).
    rewrite rstrip_app; [rewrite rstrip_app; [now rewrite IH|]|].
    + rewrite IH. apply join_nonempty. apply word_not_empty.
      now inversion Hl.
    + rewrite rstrip_app; rewrite IH.
      * discriminate.
      * apply join_nonempty. apply word_not_empty. now inversion Hl.
Qed.

Lemma no_space_app (a b : string) :
  no_space (a ++ b) = no_space a && no_space b.
Proof.
  induction a as [|c a IH]; simpl; [reflexivity|]. now rewrite IH, andb_assoc.
Qed.

Lemma truthy_app_r (a : string) (c : ascii) :
  PyStr.truthy (a ++ String c EmptyString) = true.
Proof. now destruct a. Qed.

(** The pieces of [split] are words. *)
Lemma split_ws_from_words (s : string) :
  forall cur, no_space cur = true ->
    Forall (fun x => is_word x = true) (PyStr.split_ws_from s cur).
Proof.
  induction s as [|c s IH]; intros cur Hcur; simpl.
  - destruct (PyStr.truthy cur) eqn:T; [|constructor].
    constructor; [|constructor]. unfold is_word. now rewrite T, Hcur.
  - destruct (PyStr.is_space c) eqn:E.
    + destruct (PyStr.truthy cur) eqn:T; [|now apply IH].
      constructor; [|now apply IH]. unfold is_word. now rewrite T, Hcur.
    + apply IH. rewrite no_space_app, Hcur. simpl. now rewrite E.
Qed.

Lemma split_ws_from_word (x : string) :
  no_space x = true ->
  forall rest cur,
    PyStr.split_ws_from (x ++ rest) cur = PyStr.split_ws_from rest (cur ++ x).
Proof.
  induction x as [|c x IH]; intros Hx rest cur.
  - simpl. now rewrite append_empty_r.
  - simpl in Hx. apply andb_true_iff in Hx. destruct Hx as [Hc Hx].
    apply negb_true_iff in Hc. simpl. rewrite Hc, (IH Hx).
    f_equal. now rewrite append_assoc.
Qed.

(** Splitting words that were joined by single spaces gives them back. *)
Lemma split_ws_join_words (ws : list string) :
  Forall (fun x => is_word x = true) ws ->
  PyStr.split_ws (PyStr.join " " ws) = ws.
Proof.
  unfold PyStr.split_ws.
  induction 1 as [|x l Hx Hl IH]; [reflexivity|].
  unfold is_word in Hx. apply andb_true_iff in Hx. destruct Hx as [T N].
  destruct l as [|y l].
  - unfold PyStr.join. simpl String.concat.
    rewrite <- (append_empty_r x) at 1.
    rewrite (split_ws_from_word x N).
    destruct x; [discriminate T | reflexivity].
  - change (PyStr.join " " (x :: y :: l)) with (x ++ " " ++ PyStr.join " " (y :: l)).
    remember (PyStr.join " " (y :: l)) as J eqn:EJ.
    rewrite (split_ws_from_word x N).
    destruct x; [discriminate T|]. simpl. now rewrite IH.
Qed.

(** ** The subject list and the folder names *)




Lemma lacks_cons (c d : ascii) (s : string) :
  lacks c (String d s) = negb (Ascii.eqb c d) && lacks c s.
Proof. unfold lacks. simpl. apply negb_orb. Qed.

Lemma lacks_lstrip (c : ascii) (s : string) :
  lacks c s = true -> lacks c (PyStr.lstrip s) = true.
Proof.
  induction s as [|d s IH]; [trivial|].
  simpl. destruct (PyStr.is_space d); [|trivial].
  rewrite lacks_cons. intros H. apply andb_true_iff in H. now apply IH.
Qed.

Lemma lacks_rstrip (c : ascii) (s : string) :
  lacks c s = true -> lacks c (PyStr.rstrip s) = true.
Proof.
  induction s as [|d s IH]; [trivial|].
  rewrite lacks_cons. intros H. apply andb_true_iff in H. destruct H as [Hd Hs].
  simpl. destruct (PyStr.rstrip s) eqn:R.
  - destruct (PyStr.is_space d); [reflexivity|].
    rewrite lacks_cons, Hd. reflexivity.
  - rewrite lacks_cons, Hd. now apply IH.
Qed.

Lemma lacks_strip (c : ascii) (s : string) :
  lacks c s = true -> lacks c (PyStr.strip s) = true.
Proof. intros H. unfold PyStr.strip. now apply lacks_rstrip, lacks_lstrip. Qed.

Lemma split_first_lacks (c : ascii) (s : string) :
  lacks c (fst (PyStr.split_first c s)) = true.
Proof.
  induction s as [|d s IH]; [reflexivity|].
  simpl. destruct (Ascii.eqb c d) eqn:E; [reflexivity|].
  destruct (PyStr.split_first c s) as [a b]. simpl in *.
  now rewrite lacks_cons, E, IH.
Qed.

(** The text before and after the first occurrence of the separator. *)
Lemma split_first_app (c : ascii) (a b : string) :
  lacks c a = true ->
  PyStr.contains_char c (a ++ String c b) = true
  /\ PyStr.split_first c (a ++ String c b) = (a, b).
Proof.
  induction a as [|d a IH]; intros H.
  - simpl. now rewrite Ascii.eqb_refl.
  - rewrite lacks_cons in H. apply andb_true_iff in H. destruct H as [Hd Ha].
    apply negb_true_iff in Hd. destruct (IH Ha) as [C S].
    simpl. now rewrite Hd, C, S.
Qed.

(** X2.  [parse_folder_name] yields a canonical pair: the identifier has no
    whitespace around it and no underscore; the name has no whitespace
    around it and its words are separated by single spaces; and parsing the
    folder name written from the pair, identifier, underscore, name, gives
    the same pair again. *)
Theorem parse_folder_name_canonical (folder_name : string) :
  let sid := fst (FileSystemNavigator.parse_folder_name folder_name) in
  let pname := snd (FileSystemNavigator.parse_folder_name folder_name) in
  PyStr.strip sid = sid
  /\ lacks "_" sid = true
  /\ PyStr.strip pname = pname
  /\ PyStr.join " " (PyStr.split_ws pname) = pname
  /\ FileSystemNavigator.parse_folder_name (sid ++ "_" ++ pname) = (sid, pname).
Proof.
  intros sid pname.
  assert (W : exists ws, Forall (fun x => is_word x = true) ws
                         /\ pname = PyStr.join " " ws).
  { subst pname. unfold FileSystemNavigator.parse_folder_name.
    destruct (PyStr.contains_char "_" folder_name).
    - destruct (PyStr.split_first "_" folder_name) as [p0 p1]. simpl.
      exists (PyStr.split_ws p1). split; [|reflexivity].
      now apply split_ws_from_words.
    - exists []. split; [constructor | reflexivity]. }
  destruct W as (ws & Hws & Hp).
  assert (S : PyStr.strip sid = sid /\ lacks "_" sid = true).
  { subst sid. unfold FileSystemNavigator.parse_folder_name.
    destruct (PyStr.contains_char "_" folder_name) eqn:C.
    - pose proof (split_first_lacks "_" folder_name) as L.
      destruct (PyStr.split_first "_" folder_name) as [p0 p1]. simpl in *.
      split; [apply strip_idempotent | now apply lacks_strip].
    - simpl. split; [apply strip_idempotent|].
      apply lacks_strip. unfold lacks. now rewrite C. }
  destruct S as [S1 S2].
  assert (J : PyStr.join " " (PyStr.split_ws pname) = pname)
    by (rewrite Hp at 1; now rewrite split_ws_join_words).
  split; [exact S1|]. split; [exact S2|].
  split; [rewrite Hp; now apply strip_join_words|].
  split; [exact J|].
  destruct (split_first_app "_" sid pname S2) as [C F].
  unfold FileSystemNavigator.parse_folder_name.
  change (sid ++ "_" ++ pname) with (sid ++ String "_" pname).
  now rewrite C, F, S1, J.
Qed.

(** ** Discovery of folders and files *)

Lemma flat_map_filter_map {A B} (keep : A -> bool) (f : A -> B) (l : list A) :
  flat_map (fun x => if keep x then [f x] else []) l = map f (filter keep l).
Proof.
  induction l as [|a l IH]; [reflexivity|].
  simpl. rewrite IH. now destruct (keep a).
Qed.

Lemma get_subject_folders_listing (w : World) (root_folder : string)
    (subject_list items : list string) :
  path_exists w root_folder = true ->
  listdir w root_folder = inr items ->
  FileSystemNavigator.get_subject_folders w root_folder subject_list
  = Return (map (fun item =>
                   (fst (FileSystemNavigator.parse_folder_name item),
                    snd (FileSystemNavigator.parse_folder_name item),
                    FileSystemNavigator.path_join root_folder item))
                (filter (is_requested_folder w root_folder subject_list) items)).
Proof.
  intros E L. unfold FileSystemNavigator.get_subject_folders.
  rewrite E, L. simpl. f_equal.
  rewrite <- flat_map_filter_map. apply flat_map_ext. intros item.
  unfold is_requested_folder.
  destruct (path_isdir w (FileSystemNavigator.path_join root_folder item));
    [|reflexivity].
  destruct (FileSystemNavigator.parse_folder_name item) as [sid pname].
  reflexivity.
Qed.

(** X3.  The folders that [get_subject_folders] returns are, in the order of
    the listing of the root and one for each entry, the directories of the
    root whose parsed identifier is not empty and is requested: two
    directories with the same identifier give two triples.  A root that does
    not exist gives no folder, and a root that cannot be listed raises the
    error of the listing. *)
Theorem get_subject_folders_listing_order (w : World) (root_folder : string)
    (subject_list : list string) :
  (path_exists w root_folder = false ->
     FileSystemNavigator.get_subject_folders w root_folder subject_list = Return [])
  /\ (forall f,
        path_exists w root_folder = true ->
        listdir w root_folder = inl f ->
        FileSystemNavigator.get_subject_folders w root_folder subject_list
        = Raise (os_error f root_folder))
  /\ (forall items,
        path_exists w root_folder = true ->
        listdir w root_folder = inr items ->
        exists fs,
          FileSystemNavigator.get_subject_folders w root_folder subject_list
            = Return fs
          /\ map (fun folder => snd folder) fs
             = map (FileSystemNavigator.path_join root_folder)
                   (filter (is_requested_folder w root_folder subject_list) items)
          /\ (forall sid pname folder_path,
                In (sid, pname, folder_path) fs <->
                exists item,
                  In item items
                  /\ folder_path = FileSystemNavigator.path_join root_folder item
                  /\ path_isdir w folder_path = true
                  /\ FileSystemNavigator.parse_folder_name item = (sid, pname)
                  /\ sid <> "" /\ In sid subject_list)).
Proof.
  split; [|split].
  - intros E. unfold FileSystemNavigator.get_subject_folders. now rewrite E.
  - intros f E L. unfold FileSystemNavigator.get_subject_folders. now rewrite E, L.
  - intros items E L. eexists. split; [apply (get_subject_folders_listing _ _ _ _ E L)|].
    split; [now rewrite !map_map|].
    intros sid pname folder_path. rewrite in_map_iff. split.
    + intros (item & Heq & Hin). apply filter_In in Hin. destruct Hin as [Hin K].
      unfold is_requested_folder in K.
      apply andb_true_iff in K. destruct K as [K M].
      apply andb_true_iff in K. destruct K as [D T].
      injection Heq as <- <- <-. exists item.
      repeat split; try assumption.
      * now destruct (FileSystemNavigator.parse_folder_name item).
      * now apply truthy_true_iff.
      * now apply mem_In.
    + intros (item & Hin & -> & D & P & N & M). exists item. split.
      * now rewrite P.
      * apply filter_In. split; [exact Hin|].
        unfold is_requested_folder. rewrite D, P. simpl.
        apply truthy_true_iff in N. apply mem_In in M. now rewrite N, M.
Qed.

Lemma get_subject_folders_listing_witness :
  exists fs,
    FileSystemNavigator.get_subject_folders sample_world "/data" ["002"; "001"]
      = Return fs
    /\ map (fun folder => snd folder) fs
       = ["/data/001_Jane Doe"; "/data/002_John Smith"].
Proof.
  destruct (get_subject_folders_listing_order sample_world "/data" ["002"; "001"])
    as (_ & _ & H).
  destruct (H ["001_Jane Doe"; "002_John Smith"; "notes.txt"] eq_refl eq_refl)
    as (fs & G & P & _).
  exists fs. split; [exact G | exact P].
Defined.

Lemma found_ids_requested (w : World) (root_folder : string)
    (subject_list : list string) (fs : list FileSystemNavigator.subject_folder) :
  FileSystemNavigator.get_subject_folders w root_folder subject_list = Return fs ->
  forall sid, In sid (map (fun folder => fst (fst folder)) fs) ->
              In sid subject_list /\ sid <> "".
Proof.
  unfold FileSystemNavigator.get_subject_folders.
  destruct (negb (path_exists w root_folder)).
  { intros H. injection H as <-. contradiction. }
  destruct (listdir w root_folder) as [f|items]; [discriminate|].
  intros H. injection H as <-. intros sid Hin.
  apply in_map_iff in Hin. destruct Hin as ([[sid' pname] folder_path] & <- & Hin).
  apply in_flat_map in Hin. destruct Hin as (item & _ & Hin).
  destruct (path_isdir w (FileSystemNavigator.path_join root_folder item));
    [|contradiction].
  destruct (FileSystemNavigator.parse_folder_name item) as [sid0 pname0].
  destruct (PyStr.truthy sid0) eqn:T; [|contradiction].
  destruct (PyStr.mem sid0 subject_list) eqn:M; [|contradiction].
  destruct Hin as [Heq|[]]. injection Heq as <- <- <-. simpl.
  split; [now apply mem_In | now apply truthy_true_iff].
Qed.

(** X4.  Found and missing split the request: every found identifier was
    requested and is not empty, every missing one was requested, and every
    requested identifier is either found or missing, never both; nothing is
    missing exactly when every requested identifier has a folder. *)
Theorem request_split_into_found_and_missing (w : World) (root_folder : string)
    (subject_list : list string) (fs : list FileSystemNavigator.subject_folder) :
  FileSystemNavigator.get_subject_folders w root_folder subject_list = Return fs ->
  let found := map (fun folder => fst (fst folder)) fs in
  let missing := ExtractionEngine.missing_of subject_list fs in
  (forall sid, In sid found -> In sid subject_list /\ sid <> "")
  /\ (forall sid, In sid missing -> In sid subject_list)
  /\ (forall sid, In sid subject_list ->
        (In sid found \/ In sid missing) /\ ~ (In sid found /\ In sid missing))
  /\ (missing = [] <-> forall sid, In sid subject_list -> In sid found).
Proof.
  intros G found missing.
  assert (M : forall sid, In sid missing <-> In sid subject_list /\ ~ In sid found).
  { intros sid. unfold missing, ExtractionEngine.missing_of. rewrite filter_In.
    fold found. rewrite negb_true_iff, mem_not_In. tauto. }
  split; [exact (found_ids_requested w root_folder subject_list fs G)|].
  split; [intros sid H; now apply M in H|].
  split.
  - intros sid Hin. split.
    + destruct (in_dec string_dec sid found) as [F|F]; [now left|].
      right. apply M. now split.
    + intros [F Hm]. apply M in Hm. tauto.
  - split.
    + intros E sid Hin.
      destruct (in_dec string_dec sid found) as [F|F]; [exact F|].
      exfalso. assert (Hm : In sid missing) by (apply M; now split).
      rewrite E in Hm. contradiction.
    + intros H. destruct missing as [|sid rest] eqn:E; [reflexivity|].
      exfalso. assert (Hm : In sid (sid :: rest)) by now left.
      apply M in Hm. destruct Hm as [Hin Hn]. apply Hn. now apply H.
Qed.

Lemma request_split_witness :
  (In "003" ["001"; "002"]
   \/ In "003" (ExtractionEngine.missing_of ["001"; "003"; "002"; "003"]
                  [("001", "Jane Doe", "/data/001_Jane Doe");
                   ("002", "John Smith", "/data/002_John Smith")]))
  /\ ~ (In "003" ["001"; "002"]
        /\ In "003" (ExtractionEngine.missing_of ["001"; "003"; "002"; "003"]
                       [("001", "Jane Doe", "/data/001_Jane Doe");
                        ("002", "John Smith", "/data/002_John Smith")])).
Proof.
  destruct (request_split_into_found_and_missing sample_world "/data"
              ["001"; "003"; "002"; "003"]
              [("001", "Jane Doe", "/data/001_Jane Doe");
               ("002", "John Smith", "/data/002_John Smith")] eq_refl)
    as (_ & _ & S & _).
  exact (S "003" (or_intror (or_introl eq_refl))).
Defined.




(** ** File types *)

Lemma lacks_app (c : ascii) (a b : string) :
  lacks c (a ++ b) = lacks c a && lacks c b.
Proof.
  induction a as [|d a IH]; [reflexivity|].
  change (String d a ++ b) with (String d (a ++ b)).
  now rewrite !lacks_cons, IH, andb_assoc.
Qed.

Lemma split_on_not_nil (c : ascii) (s : string) : PyStr.split_on c s <> [].
Proof.
  induction s as [|d s IH]; simpl; [discriminate|].
  destruct (Ascii.eqb c d); [discriminate|].
  destruct (PyStr.split_on c s); [contradiction | discriminate].
Qed.

Lemma split_on_lacks (c : ascii) (s : string) :
  lacks c s = true -> PyStr.split_on c s = [s].
Proof.
  induction s as [|d s IH]; [reflexivity|].
  rewrite lacks_cons. intros H. apply andb_true_iff in H. destruct H as [Hd Hs].
  apply negb_true_iff in Hd. simpl. now rewrite Hd, (IH Hs).
Qed.

Lemma split_on_app (c : ascii) (a b : string) :
  PyStr.split_on c (a ++ String c b)
  = (PyStr.split_on c a ++ PyStr.split_on c b)%list.
Proof.
  induction a as [|d a IH].
  - simpl. now rewrite Ascii.eqb_refl.
  - simpl. destruct (Ascii.eqb c d); rewrite IH; [reflexivity|].
    pose proof (split_on_not_nil c a) as N.
    destruct (PyStr.split_on c a); [contradiction | reflexivity].
Qed.

(** The name of a path that ends in a proper file name. *)
Lemma path_name_of_file (dir name : string) :
  lacks "/" name = true -> name <> "" -> name <> "." ->
  FileSystemNavigator.path_name (dir ++ "/" ++ name) = name.
Proof.
  intros L N D. unfold FileSystemNavigator.path_name.
  change (dir ++ "/" ++ name) with (dir ++ String "/" name).
  rewrite split_on_app, (split_on_lacks _ _ L), filter_app. simpl.
  apply truthy_true_iff in N. apply String.eqb_neq in D. rewrite N, D. simpl.
  apply last_last.
Qed.

Lemma rfind_from_app (c : ascii) (a b : string) :
  forall i last,
    PyStr.rfind_from c (a ++ b) i last
    = PyStr.rfind_from c b (i + PyStr.len a) (PyStr.rfind_from c a i last).
Proof.
  induction a as [|d a IH]; intros i last.
  - simpl. unfold PyStr.len. simpl. now rewrite Z.add_0_r.
  - simpl. rewrite IH. f_equal. unfold PyStr.len. simpl String.length. lia.
Qed.

Lemma rfind_from_lacks (c : ascii) (s : string) :
  lacks c s = true -> forall i last, PyStr.rfind_from c s i last = last.
Proof.
  induction s as [|d s IH]; intros H i last; [reflexivity|].
  rewrite lacks_cons in H. apply andb_true_iff in H. destruct H as [Hd Hs].
  apply negb_true_iff in Hd. simpl. now rewrite Hd, (IH Hs).
Qed.

Lemma substring_suffix (a b : string) :
  String.substring (String.length a) (String.length b) (a ++ b) = b.
Proof.
  induction a as [|d a IH]; simpl; [|exact IH].
  induction b as [|e b IHb]; simpl; [reflexivity|].
  destruct b; simpl in *; now rewrite ?IHb.
Qed.

Lemma rfind_last_dot (c : ascii) (stem ext : string) :
  lacks c ext = true ->
  PyStr.rfind c (stem ++ String c ext) = PyStr.len stem.
Proof.
  intros L. unfold PyStr.rfind. rewrite rfind_from_app.
  change (PyStr.rfind_from c (String c ext) (0 + PyStr.len stem)
            (PyStr.rfind_from c stem 0 (-1)))
    with (PyStr.rfind_from c ext (0 + PyStr.len stem + 1)
            (if Ascii.eqb c c then 0 + PyStr.len stem
             else PyStr.rfind_from c stem 0 (-1))).
  rewrite (rfind_from_lacks _ _ L), Ascii.eqb_refl. apply Z.add_0_l.
Qed.

(** The suffix of a file name [stem.ext]. *)
Lemma path_suffix_of_file (dir stem ext : string) :
  stem <> "" -> lacks "/" stem = true ->
  ext <> "" -> lacks "/" ext = true -> lacks "." ext = true ->
  FileSystemNavigator.path_suffix (dir ++ "/" ++ stem ++ "." ++ ext) = "." ++ ext.
Proof.
  intros Hs Ls He Le Ld. unfold FileSystemNavigator.path_suffix.
  rewrite path_name_of_file.
  - change (stem ++ "." ++ ext) with (stem ++ String "." ext).
    rewrite (rfind_last_dot "." stem ext Ld).
    assert (P : 0 < PyStr.len stem)
      by (unfold PyStr.len; destruct stem; [contradiction | simpl; lia]).
    assert (Q : 0 < PyStr.len ext)
      by (unfold PyStr.len; destruct ext; [contradiction | simpl; lia]).
    assert (C : (0 <? PyStr.len stem) = true) by (apply Z.ltb_lt; lia).
    assert (C' : (PyStr.len stem <? PyStr.len (stem ++ String "." ext) - 1) = true).
    { apply Z.ltb_lt. unfold PyStr.len in *. rewrite length_append.
      simpl String.length. lia. }
    rewrite C, C'. simpl andb. cbv iota.
    unfold PyStr.drop, PyStr.len. rewrite Nat2Z.id.
    replace (String.length (stem ++ String "." ext) - String.length stem)%nat
      with (String.length (String "." ext))
      by (rewrite length_append; lia).
    apply substring_suffix.
  - rewrite !lacks_app, Ls. simpl. exact Le.
  - destruct stem; [contradiction | discriminate].
  - destruct stem as [|c [|d stem]]; [contradiction| |discriminate].
    destruct ext; [contradiction | discriminate].
Qed.

(** X6.  The type of a file is decided by the text after the last dot of its
    name, whatever its letter case and whatever other dots the name has:
    for a path that ends in [stem.ext], [get_file_type] looks the lower-case
    extension up in the image formats and then in the PDF format.  A name
    without a dot, and a name whose only dot is its first character, are of
    type ["unknown"]. *)
Theorem get_file_type_by_last_extension (dir : string) :
  (forall stem ext,
      stem <> "" -> lacks "/" stem = true ->
      ext <> "" -> lacks "/" ext = true -> lacks "." ext = true ->
      FileSystemNavigator.get_file_type (dir ++ "/" ++ stem ++ "." ++ ext)
      = if PyStr.mem ("." ++ PyStr.lower ext) FileSystemNavigator.image_formats
        then "image"
        else if PyStr.mem ("." ++ PyStr.lower ext) FileSystemNavigator.pdf_formats
             then "pdf" else "unknown")
  /\ (forall name,
        name <> "" -> lacks "/" name = true -> lacks "." name = true ->
        FileSystemNavigator.get_file_type (dir ++ "/" ++ name) = "unknown")
  /\ (forall ext,
        ext <> "" -> lacks "/" ext = true -> lacks "." ext = true ->
        FileSystemNavigator.get_file_type (dir ++ "/" ++ "." ++ ext) = "unknown").
Proof.
  split; [|split].
  - intros stem ext Hs Ls He Le Ld. unfold FileSystemNavigator.get_file_type.
    now rewrite (path_suffix_of_file dir stem ext Hs Ls He Le Ld).
  - intros name N L D. unfold FileSystemNavigator.get_file_type,
      FileSystemNavigator.path_suffix.
    rewrite (path_name_of_file dir name L N).
    + unfold PyStr.rfind. rewrite (rfind_from_lacks _ _ D). reflexivity.
    + intros ->. discriminate.
  - intros ext N L D. unfold FileSystemNavigator.get_file_type,
      FileSystemNavigator.path_suffix.
    rewrite (path_name_of_file dir ("." ++ ext)).
    + unfold PyStr.rfind. simpl PyStr.rfind_from.
      rewrite (rfind_from_lacks _ _ D). reflexivity.
    + exact L.
    + discriminate.
    + destruct ext; [contradiction | discriminate].
Qed.

Lemma get_file_type_witness :
  FileSystemNavigator.get_file_type ("/data/001_Jane Doe/1" ++ "/" ++ "scan.v2" ++ "." ++ "JPeG")
    = "image"
  /\ FileSystemNavigator.get_file_type ("/data" ++ "/" ++ "README") = "unknown"
  /\ FileSystemNavigator.get_file_type ("/data" ++ "/" ++ "." ++ "pdf") = "unknown".
Proof.
  destruct (get_file_type_by_last_extension "/data/001_Jane Doe/1") as (A & _).
  destruct (get_file_type_by_last_extension "/data") as (_ & B & C).
  split; [|split].
  - rewrite (A "scan.v2" "JPeG"); [reflexivity | discriminate | reflexivity
                                  | discriminate | reflexivity | reflexivity].
  - apply (B "README"); [discriminate | reflexivity | reflexivity].
  - apply (C "pdf"); [discriminate | reflexivity | reflexivity].
Defined.

(** ** Text extraction *)

Lemma kept_text_not_empty (pages : list string) :
  let kept := filter (fun text => PyStr.truthy (PyStr.strip text)) pages in
  kept <> [] -> PyStr.strip (PyStr.join nl kept) <> "".
Proof.
  intros kept N E. apply strip_empty_iff in E. rewrite blank_join_nl in E.
  pose proof (kept_pages_not_blank pages) as K. fold kept in K.
  destruct kept as [|x l]; [contradiction|].
  simpl in E, K. destruct (blank x); discriminate.
Qed.

(** X7.  [extract_text] never raises.  For a file type other than ["image"]
    and ["pdf"] it returns [None]; a text that it returns has no whitespace
    around it, and the text of a PDF is never empty. *)
Theorem extract_text_returns_trimmed (w : World) (self : TextExtractor.t)
    (file_path file_type : string) :
  exists o,
    TextExtractor.extract_text w self file_path file_type = Return o
    /\ (forall text, o = Some text -> PyStr.strip text = text)
    /\ (file_type <> "image" -> file_type <> "pdf" -> o = None)
    /\ (file_type = "pdf" -> o <> Some "").
Proof.
  unfold TextExtractor.extract_text.
  destruct (String.eqb file_type "image") eqn:I.
  - apply String.eqb_eq in I. subst file_type.
    unfold TextExtractor._extract_from_image.
    destruct (image_to_string w file_path) as [text|e]; simpl.
    + eexists. split; [reflexivity|]. split; [|split].
      * destruct (PyStr.truthy text); [|discriminate].
        intros t H. injection H as <-. apply strip_idempotent.
      * congruence.
      * discriminate.
    + exists None. split; [reflexivity|]. split; [discriminate|].
      split; [congruence | discriminate].
  - destruct (String.eqb file_type "pdf") eqn:P.
    + unfold TextExtractor._extract_from_pdf.
      destruct (pdf_page_texts w file_path) as [pages|e]; simpl.
      * rewrite pdf_text_of_pages.
        pose proof (kept_text_not_empty pages) as K. cbv zeta in K.
        destruct (filter (fun text => PyStr.truthy (PyStr.strip text)) pages)
          as [|x l] eqn:F.
        -- exists None. split; [reflexivity|]. split; [discriminate|].
           split; [reflexivity | discriminate].
        -- eexists. split; [reflexivity|]. split; [|split].
           ++ intros t H. injection H as <-. apply strip_idempotent.
           ++ apply String.eqb_eq in P. congruence.
           ++ intros _ H. injection H as H. apply K; [discriminate | exact H].
      * exists None. split; [reflexivity|]. split; [discriminate|].
        split; [reflexivity | discriminate].
    + exists None. split; [reflexivity|]. split; [discriminate|].
      split; [reflexivity | discriminate].
Qed.

Lemma extract_text_witness :
  TextExtractor.extract_text sample_world (TextExtractor.mk "") "/data/notes.txt" "text"
  = Return None.
Proof.
  destruct (extract_text_returns_trimmed sample_world (TextExtractor.mk "")
              "/data/notes.txt" "text") as (o & E & _ & U & _).
  rewrite E. f_equal. apply U; discriminate.
Defined.

(** X8.  [extract_and_validate] reports success exactly when it holds a text
    that is not empty, and then the length is that of the text and there is
    no error.  Otherwise it holds no text, the length is zero and the error
    is always ["No text extracted"]: since [extract_text] keeps its
    exceptions to itself, no exception message ever reaches the report. *)
Theorem extract_and_validate_report (w : World) (self : TextExtractor.t)
    (file_path file_type : string) :
  let v := TextExtractorChecks.extract_and_validate w self file_path file_type in
  TextExtractorChecks.val_file_path v = file_path
  /\ TextExtractorChecks.val_file_type v = file_type
  /\ ((TextExtractorChecks.val_success v = true
       /\ TextExtractorChecks.val_error v = None
       /\ exists text,
            TextExtractor.extract_text w self file_path file_type
              = Return (Some text)
            /\ text <> ""
            /\ TextExtractorChecks.val_text v = Some text
            /\ TextExtractorChecks.val_text_length v = PyStr.len text)
      \/ (TextExtractorChecks.val_success v = false
          /\ TextExtractorChecks.val_text v = None
          /\ TextExtractorChecks.val_text_length v = 0
          /\ TextExtractorChecks.val_error v = Some "No text extracted")).
Proof.
  unfold TextExtractorChecks.extract_and_validate.
  destruct (extract_text_returns w self file_path file_type) as [o ->].
  destruct o as [text|]; [destruct (PyStr.truthy text) eqn:T|]; simpl.
  - split; [reflexivity|]. split; [reflexivity|]. left.
    split; [reflexivity|]. split; [reflexivity|]. exists text.
    split; [reflexivity|]. split; [now apply truthy_true_iff|]. now split.
  - repeat split. right. repeat split.
  - repeat split. right. repeat split.
Qed.

(** ** The probe of the OCR engine *)

Lemma validate_returns_iff (w : World) :
  TextExtractor._validate_tesseract_installation w = Return tt
  <-> exists v langs,
        tesseract_version w = Return v
        /\ tesseract_languages w = Return langs
        /\ In "eng" langs.
Proof.
  unfold TextExtractor._validate_tesseract_installation.
  destruct (tesseract_version w) as [v|e]; simpl.
  - destruct (tesseract_languages w) as [langs|e]; simpl.
    + destruct (PyStr.mem "eng" langs) eqn:M; simpl.
      * split; [|reflexivity]. intros _. exists v, langs.
        repeat split. now apply mem_In.
      * split; [discriminate|]. intros (v' & langs' & _ & H & Hin).
        injection H as <-. apply mem_In in Hin. congruence.
    + split; [destruct (exn_cls e); discriminate|].
      intros (v' & langs' & _ & H & _). discriminate.
  - split; [destruct (exn_cls e); discriminate|].
    intros (v' & langs' & H & _). discriminate.
Qed.

(** X9.  [check_tesseract_availability] reports the engine as available
    exactly when both probes return, and exactly then it reports no error;
    an engine that is not available has no language and no path in the
    report.  The constructor of [TextExtractor] succeeds exactly when the
    report says available and lists English. *)
Theorem availability_report_consistent (w : World) (tesseract_cmd : outcome string)
    (tesseract_config : string) :
  let a := TextExtractorChecks.check_tesseract_availability w tesseract_cmd in
  (TextExtractorChecks.available a = true
     <-> TextExtractorChecks.availability_error a = None)
  /\ (TextExtractorChecks.available a = true
      <-> exists v langs,
            tesseract_version w = Return v /\ tesseract_languages w = Return langs)
  /\ (TextExtractorChecks.available a = false ->
      TextExtractorChecks.languages a = [] /\ TextExtractorChecks.path a = None)
  /\ (TextExtractor.init w tesseract_config
        = Return (TextExtractor.mk tesseract_config)
      <-> TextExtractorChecks.available a = true
          /\ In "eng" (TextExtractorChecks.languages a)).
Proof.
  intros a.
  assert (I : TextExtractor.init w tesseract_config
                = Return (TextExtractor.mk tesseract_config)
              <-> TextExtractor._validate_tesseract_installation w = Return tt).
  { unfold TextExtractor.init.
    destruct (TextExtractor._validate_tesseract_installation w) as [[]|e]; simpl;
      split; try reflexivity; discriminate. }
  rewrite I, validate_returns_iff. subst a.
  unfold TextExtractorChecks.check_tesseract_availability.
  destruct (tesseract_version w) as [v|e]; simpl.
  - destruct (tesseract_languages w) as [langs|e]; simpl.
    + split; [tauto|]. split; [split; eauto|]. split; [discriminate|].
      split.
      * intros (v' & langs' & _ & H & Hin). injection H as <-. now split.
      * intros [_ Hin]. eauto.
    + split; [split; discriminate|].
      split; [split; [discriminate | intros (? & ? & _ & H); discriminate]|].
      split; [now split|].
      split; [intros (? & ? & _ & H & _); discriminate | intros [H _]; discriminate].
  - split; [split; discriminate|].
    split; [split; [discriminate | intros (? & ? & H & _); discriminate]|].
    split; [now split|].
    split; [intros (? & ? & H & _); discriminate | intros [H _]; discriminate].
Qed.

Lemma availability_report_witness :
  TextExtractorChecks.languages
    (TextExtractorChecks.check_tesseract_availability sample_world
       (Return "tesseract")) = []
  /\ TextExtractor.init sample_world_ocr "--psm 6 -l eng"
     = Return (TextExtractor.mk "--psm 6 -l eng").
Proof.
  split.
  - destruct (availability_report_consistent sample_world (Return "tesseract") "")
      as (_ & _ & H & _).
    exact (proj1 (H eq_refl)).
  - destruct (availability_report_consistent sample_world_ocr (Return "tesseract")
                "--psm 6 -l eng") as (_ & _ & _ & H).
    apply H. split; [reflexivity | simpl; tauto].
Defined.

(** X10.  The constructor of the engine ends without an engine in one case
    only: when the version that the installed program prints cannot be read,
    [pytesseract] raises [SystemExit], which no handler of the constructors
    catches.  In every other state of the installation the constructor
    returns an engine.  The engine keeps the rules it was given, takes the
    worker limit of the configuration or 4, and has OCR on, with a text
    extractor, exactly when both probes return and English is among the
    languages; otherwise OCR is off and there is no text extractor. *)
Theorem engine_init_ocr_flag (w : World) (cfg : ExtractionEngine.config)
    (rules : list rule) :
  (forall raw_version,
      Construction.extraction_engine_init (Construction.Unreadable raw_version)
        w cfg rules
      = Construction.Exited
          ("Invalid tesseract version: " ++ Construction.double_quote
             ++ raw_version ++ Construction.double_quote))
  /\ exists self,
       Construction.extraction_engine_init Construction.Readable w cfg rules
         = Construction.Built self
       /\ ExtractionEngine.init w cfg rules = Return self
       /\ ExtractionEngine.extraction_rules self = rules
       /\ ExtractionEngine.max_workers self
          = match ExtractionEngine.cfg_max_workers cfg with
            | Some n => n
            | None => 4
            end
       /\ (ExtractionEngine.tesseract_available self = true
           <-> exists v langs,
                 tesseract_version w = Return v
                 /\ tesseract_languages w = Return langs
                 /\ In "eng" langs)
       /\ (ExtractionEngine.tesseract_available self = true
           -> exists te, ExtractionEngine.text_extractor self = Some te)
       /\ (ExtractionEngine.tesseract_available self = false
           -> ExtractionEngine.text_extractor self = None).
Proof.
  split; [reflexivity|].
  pose proof (validate_returns_iff w) as V.
  unfold Construction.extraction_engine_init, Construction.text_extractor_init,
    ExtractionEngine.init, TextExtractor.init.
  destruct (TextExtractor._validate_tesseract_installation w) as [[]|e] eqn:E; simpl.
  - eexists. split; [reflexivity|]. split; [reflexivity|]. simpl.
    split; [reflexivity|]. split; [reflexivity|].
    split; [split; [intros _; now apply V | reflexivity]|].
    split; [eauto | discriminate].
  - rewrite (validate_raises_tesseract_not_found w e E). simpl.
    eexists. split; [reflexivity|]. split; [reflexivity|]. simpl.
    split; [reflexivity|]. split; [reflexivity|].
    split; [split; [discriminate | intros H; apply V in H; discriminate]|].
    split; [discriminate | reflexivity].
Qed.

Lemma engine_init_witness :
  (exists self,
     Construction.extraction_engine_init Construction.Readable sample_world_ocr
       sample_config sample_rules = Construction.Built self
     /\ exists te, ExtractionEngine.text_extractor self = Some te)
  /\ Construction.extraction_engine_init (Construction.Unreadable "tesseract x")
       sample_world_ocr sample_config sample_rules
     = Construction.Exited
         ("Invalid tesseract version: " ++ Construction.double_quote
            ++ "tesseract x" ++ Construction.double_quote).
Proof.
  destruct (engine_init_ocr_flag sample_world_ocr sample_config sample_rules)
    as (X & self & B & _ & _ & _ & A & T & _).
  split; [|exact (X "tesseract x")].
  exists self. split; [exact B|]. apply T, A.
  exists "5.3.0", ["eng"; "osd"; "tur"]. simpl. tauto.
Defined.

(** ** The rows of the report *)

Lemma dict_set_keys (d : pydict) (key : string) (v : pyval) :
  map fst (dict_set d key v)
  = if PyStr.mem key (map fst d) then map fst d else (map fst d ++ [key])%list.
Proof.
  induction d as [|[k x] d IH]; [reflexivity|].
  simpl. rewrite String.eqb_sym. destruct (String.eqb key k) eqn:E; simpl.
  - reflexivity.
  - rewrite IH. now destruct (PyStr.mem key (map fst d)).
Qed.

Lemma dict_get_set_other (d : pydict) (key key' : string) (v : pyval) :
  key <> key' -> dict_get (dict_set d key v) key' = dict_get d key'.
Proof.
  intros N. induction d as [|[k x] d IH]; simpl.
  - apply String.eqb_neq in N. now rewrite N.
  - destruct (String.eqb k key) eqn:E; simpl.
    + apply String.eqb_eq in E. subst k. apply String.eqb_neq in N. now rewrite N.
    + now rewrite IH.
Qed.

(** What one rule does to the columns of a row. *)
Lemma apply_rule_keys (re_search : regex_engine) (text : string) (d d' : pydict)
    (r : rule) :
  DataProcessor.apply_rule re_search text d r = Return d' ->
  map fst d'
  = (if usable r
     then if PyStr.mem (get_or "" (rule_name r)) (map fst d) then map fst d
          else (map fst d ++ [get_or "" (rule_name r)])%list
     else map fst d)
  /\ forall key, (usable r = true -> key <> get_or "" (rule_name r)) ->
                 dict_get d' key = dict_get d key.
Proof.
  unfold DataProcessor.apply_rule, usable.
  destruct (PyStr.truthy (get_or "" (rule_name r))
            && PyStr.truthy (get_or "" (rule_pattern r))).
  - destruct (DataTransformer.extract_with_pattern re_search text
                (get_or "" (rule_pattern r))) as [[v|]|e]; simpl; [| |discriminate].
    + destruct (DataTransformer.transform_value v (get_or "none" (rule_transform r)))
        as [pv|e]; simpl; [|discriminate].
      intros H. injection H as <-. split; [apply dict_set_keys|].
      intros key N. apply dict_get_set_other. intros E. now apply N.
    + intros H. injection H as <-. split; [apply dict_set_keys|].
      intros key N. apply dict_get_set_other. intros E. now apply N.
  - intros H. injection H as <-. split; [reflexivity|]. reflexivity.
Qed.

Lemma apply_rules_keys (re_search : regex_engine) (text : string)
    (rules : list rule) :
  forall d d',
    DataProcessor.apply_rules re_search text d rules = Return d' ->
    NoDup (map fst d ++ rule_columns rules) ->
    map fst d' = (map fst d ++ rule_columns rules)%list
    /\ forall key, In key (map fst d) -> dict_get d' key = dict_get d key.
Proof.
  induction rules as [|r rules IH]; intros d d' H N.
  - simpl in H. injection H as <-. unfold rule_columns. simpl.
    now rewrite app_nil_r.
  - simpl in H.
    destruct (DataProcessor.apply_rule re_search text d r) as [d1|e] eqn:A;
      [|discriminate].
    simpl in H. destruct (apply_rule_keys _ _ _ _ _ A) as [K G].
    unfold rule_columns in *. simpl filter in *.
    destruct (usable r) eqn:U.
    + simpl map in N.
      assert (Nin : ~ In (get_or "" (rule_name r)) (map fst d)).
      { intros Hin. apply NoDup_remove_2 in N. apply N.
        apply in_or_app. now left. }
      apply mem_not_In in Nin. rewrite Nin in K.
      assert (N1 : NoDup (map fst d1
                            ++ map (fun r0 => get_or "" (rule_name r0))
                                   (filter usable rules)))
        by (rewrite K, <- app_assoc; exact N).
      destruct (IH d1 d' H N1) as [K' G'].
      split; [rewrite K', K, <- app_assoc; reflexivity|].
      intros key Hin. rewrite G'.
      * apply G. intros _ E. subst key. apply mem_not_In in Nin. contradiction.
      * rewrite K. apply in_or_app. now left.
    + rewrite <- K in N. destruct (IH d1 d' H N) as [K' G'].
      split; [now rewrite K', K|].
      intros key Hin. rewrite G'; [apply G; discriminate | now rewrite K].
Qed.

(** X11.  When the names of the usable rules (those with a name and a
    pattern) are distinct and differ from the identity columns, and
    [process_extracted_data] returns, it returns one row for every record,
    in order.  The row of a record with text has the columns
    ["Subject ID"], ["Name"] and then one column for every usable rule, in
    the order of the rules; the row of a record without text has the
    identity columns only.  The identity columns hold the identifier and
    the name of the record. *)
Theorem report_rows_follow_rules (re_search : regex_engine) (rules : list rule)
    (raw_data : list subject_record) (rows : list pydict) :
  NoDup ("Subject ID" :: "Name" :: rule_columns rules) ->
  DataProcessor.process_extracted_data re_search rules raw_data = Return rows ->
  Forall2
    (fun record row =>
       map fst row
       = ("Subject ID" :: "Name"
            :: (if has_text record then rule_columns rules else []))
       /\ dict_get row "Subject ID" = Some (PStr (subject_id record))
       /\ dict_get row "Name" = Some (PStr (patient_name record)))
    raw_data rows.
Proof.
  intros N. revert rows.
  induction raw_data as [|record raw_data IH]; intros rows H.
  - simpl in H. injection H as <-. constructor.
  - simpl in H.
    destruct (DataProcessor.process_record re_search rules record) as [row|e] eqn:P;
      [|discriminate].
    simpl in H.
    destruct (DataProcessor.process_extracted_data re_search rules raw_data)
      as [rest|e]; [|discriminate].
    simpl in H. injection H as <-.
    constructor; [|now apply IH].
    unfold DataProcessor.process_record in P. unfold has_text.
    destruct (extracted_text record) as [text|].
    + destruct (PyStr.truthy text).
      * destruct (apply_rules_keys _ _ _ _ _ P N) as [K G].
        split; [exact K|].
        split; (rewrite G; [reflexivity | simpl; tauto]).
      * injection P as <-. repeat split.
    + injection P as <-. repeat split.
Qed.

Lemma report_rows_witness :
  Forall2
    (fun record row =>
       map fst row
       = ("Subject ID" :: "Name"
            :: (if has_text record then ["Age"; "Gender"] else [])))
    [mkRecord "001" "Jane Doe" "/data/001_Jane Doe/1/report.pdf"
       (Some "no field here") "Success" None;
     mkRecord "002" "John Smith" "" None "Failed"
       (Some "Target file 'report.pdf' not found")]
    [[("Subject ID", PStr "001"); ("Name", PStr "Jane Doe");
      ("Age", PNone); ("Gender", PNone)];
     [("Subject ID", PStr "002"); ("Name", PStr "John Smith")]].
Proof.
  assert (N : NoDup ("Subject ID" :: "Name" :: rule_columns sample_rules)).
  { repeat constructor; simpl; intuition discriminate. }
  pose proof (report_rows_follow_rules no_match_engine sample_rules
                [mkRecord "001" "Jane Doe" "/data/001_Jane Doe/1/report.pdf"
                   (Some "no field here") "Success" None;
                 mkRecord "002" "John Smith" "" None "Failed"
                   (Some "Target file 'report.pdf' not found")]
                [[("Subject ID", PStr "001"); ("Name", PStr "Jane Doe");
                  ("Age", PNone); ("Gender", PNone)];
                 [("Subject ID", PStr "002"); ("Name", PStr "John Smith")]]
                N eq_refl) as F.
  inversion F as [|r1 w1 l1 l1' H1 F1]; subst.
  inversion F1 as [|r2 w2 l2 l2' H2 F2]; subst.
  constructor; [exact (proj1 H1)|]. constructor; [exact (proj1 H2) | constructor].
Defined.

Lemma process_extracted_data_raises (re_search : regex_engine) (rules : list rule)
    (raw_data : list subject_record) (record : subject_record) (e : exn) :
  In record raw_data ->
  DataProcessor.process_record re_search rules record = Raise e ->
  exists e', DataProcessor.process_extracted_data re_search rules raw_data = Raise e'.
Proof.
  intros Hin R. induction raw_data as [|r raw_data IH]; [contradiction|].
  simpl. destruct Hin as [-> | Hin].
  - rewrite R. simpl. eauto.
  - destruct (DataProcessor.process_record re_search rules r); simpl; [|eauto].
    destruct (IH Hin) as [e' ->]. simpl. eauto.
Qed.

(** X12.  [generate_excel_report] never raises: it returns [True] exactly
    when every record is processed and the workbook is written.  So when
    the rules raise on a single record (a first group that took no part in
    the match, or an age that is infinite), the whole report fails, whatever
    the other records hold. *)
Theorem report_fails_as_a_whole (self : ExtractionEngine.t)
    (re_search : regex_engine) (write_workbook : workbook_writer)
    (extraction_results : ExtractionEngine.results) (output_path : string) :
  (ExcelReport.generate_excel_report self re_search write_workbook
     extraction_results output_path = true
   <-> exists rows,
         DataProcessor.process_extracted_data re_search
           (ExtractionEngine.extraction_rules self)
           (ExtractionEngine.data extraction_results) = Return rows
         /\ exists u, write_workbook rows output_path = Return u)
  /\ (forall record e,
        In record (ExtractionEngine.data extraction_results) ->
        DataProcessor.process_record re_search
          (ExtractionEngine.extraction_rules self) record = Raise e ->
        ExcelReport.generate_excel_report self re_search write_workbook
          extraction_results output_path = false).
Proof.
  assert (A : ExcelReport.generate_excel_report self re_search write_workbook
                extraction_results output_path = true
              <-> exists rows,
                    DataProcessor.process_extracted_data re_search
                      (ExtractionEngine.extraction_rules self)
                      (ExtractionEngine.data extraction_results) = Return rows
                    /\ exists u, write_workbook rows output_path = Return u).
  { unfold ExcelReport.generate_excel_report, ExcelReport.export_to_excel.
    destruct (DataProcessor.process_extracted_data re_search
                (ExtractionEngine.extraction_rules self)
                (ExtractionEngine.data extraction_results)) as [rows|e]; simpl.
    - destruct (write_workbook rows output_path) as [u|e] eqn:W; simpl.
      + split; [|reflexivity]. intros _. exists rows. split; [reflexivity|].
        rewrite W. eauto.
      + split; [discriminate|]. intros (rows' & H & u & W').
        injection H as <-. rewrite W in W'. discriminate.
    - split; [discriminate|]. intros (rows' & H & _). discriminate. }
  split; [exact A|].
  intros record e Hin R.
  destruct (process_extracted_data_raises _ _ _ _ _ Hin R) as [e' E].
  destruct (ExcelReport.generate_excel_report self re_search write_workbook
              extraction_results output_path) eqn:G; [|reflexivity].
  destruct (proj1 A eq_refl) as (rows & H & _). rewrite E in H. discriminate.
Qed.

Lemma report_fails_witness :
  ExcelReport.generate_excel_report
    (ExtractionEngine.mk [mkRule (Some "Code") (Some "(a)|b") None] 4 None false)
    alternation_engine (fun _ _ => Return tt)
    (ExtractionEngine.mkResults true
       [mkRecord "001" "Jane Doe" "/data/001_Jane Doe/1/report.pdf" (Some "a")
          "Success" None;
        mkRecord "002" "John Smith" "/data/002_John Smith/1/report.pdf" (Some "b")
          "Success" None]
       2 2 2 0 [] None None)
    "report.xlsx" = false.
Proof.
  eapply (proj2 (report_fails_as_a_whole _ _ _ _ _)).
  - simpl. right. left. reflexivity.
  - reflexivity.
Defined.

(** ** More on the transforms and the rules *)

Lemma map_turkish_gender_idempotent (gender_str : string) :
  DataTransformer.map_turkish_gender (DataTransformer.map_turkish_gender gender_str)
  = DataTransformer.map_turkish_gender gender_str.
Proof.
  assert (C : DataTransformer.map_turkish_gender gender_str = "Female"
              \/ DataTransformer.map_turkish_gender gender_str = "Male"
              \/ (DataTransformer.map_turkish_gender gender_str
                    = PyStr.strip gender_str
                  /\ PyStr.mem (PyStr.upper (PyStr.strip gender_str))
                       DataTransformer.female_terms = false
                  /\ PyStr.mem (PyStr.upper (PyStr.strip gender_str))
                       DataTransformer.male_terms = false)).
  { unfold DataTransformer.map_turkish_gender.
    destruct (PyStr.mem (PyStr.upper (PyStr.strip gender_str))
                DataTransformer.female_terms); [now left|].
    destruct (PyStr.mem (PyStr.upper (PyStr.strip gender_str))
                DataTransformer.male_terms); [right; now left|].
    right. right. now repeat split. }
  destruct C as [-> | [-> | (-> & F & M)]]; [reflexivity | reflexivity |].
  unfold DataTransformer.map_turkish_gender.
  now rewrite strip_idempotent, F, M.
Qed.

(** X13.  Every transform other than ["age_round"] is total and idempotent:
    it returns a string, and applying it to that string returns the same
    string. *)
Theorem string_transforms_idempotent (value transform_type : string) :
  transform_type <> "age_round" ->
  exists s,
    DataTransformer.transform_value value transform_type = Return (PStr s)
    /\ DataTransformer.transform_value s transform_type = Return (PStr s).
Proof.
  intros N. apply String.eqb_neq in N.
  unfold DataTransformer.transform_value. rewrite N.
  destruct (String.eqb transform_type "gender_turkish").
  - eexists. split; [reflexivity|]. now rewrite map_turkish_gender_idempotent.
  - destruct (String.eqb transform_type "none" || negb (PyStr.truthy transform_type)).
    + eexists. split; [reflexivity|]. now rewrite strip_idempotent.
    + eexists. split; reflexivity.
Qed.

Lemma string_transforms_witness :
  exists s,
    DataTransformer.transform_value " bayan " "gender_turkish" = Return (PStr s)
    /\ DataTransformer.transform_value s "gender_turkish" = Return (PStr s).
Proof.
  apply (string_transforms_idempotent " bayan " "gender_turkish"). discriminate.
Defined.

(** X14.  [extract_with_pattern] never lets [re.error] through, and a value
    that it returns has no whitespace around it; an exception of the search
    that is not [re.error] is raised unchanged. *)
Theorem extract_with_pattern_trimmed (re_search : regex_engine)
    (text pattern : string) :
  (forall s,
      DataTransformer.extract_with_pattern re_search text pattern
        = Return (Some s) ->
      PyStr.strip s = s)
  /\ (forall e,
        DataTransformer.extract_with_pattern re_search text pattern = Raise e ->
        exn_cls e <> ReError)
  /\ (forall e,
        re_search pattern text [IGNORECASE; MULTILINE] = Raise e ->
        exn_cls e <> ReError ->
        DataTransformer.extract_with_pattern re_search text pattern = Raise e).
Proof.
  unfold DataTransformer.extract_with_pattern.
  destruct (re_search pattern text [IGNORECASE; MULTILINE]) as [[[gs]|]|e0];
    simpl.
  - destruct gs as [|[g|] gs]; simpl.
    + repeat split; intros; discriminate.
    + split; [|split]; intros; try discriminate.
      injection H as <-. apply strip_idempotent.
    + split; [|split]; intros; try discriminate.
      injection H as <-. discriminate.
  - repeat split; intros; discriminate.
  - destruct (is_re_error (exn_cls e0)) eqn:R.
    + split; [|split]; intros; try discriminate.
      injection H as <-. destruct (exn_cls e0); try discriminate. congruence.
    + split; [|split]; intros; try discriminate.
      * injection H as <-. intros E. rewrite E in R. discriminate.
      * congruence.
Qed.

Lemma extract_with_pattern_trimmed_witness :
  DataTransformer.extract_with_pattern
    (fun _ _ _ => Raise (mkExn OtherException "maximum recursion depth exceeded"))
    "text" "(a*)*b"
  = Raise (mkExn OtherException "maximum recursion depth exceeded").
Proof.
  destruct (extract_with_pattern_trimmed
              (fun _ _ _ => Raise (mkExn OtherException
                                     "maximum recursion depth exceeded"))
              "text" "(a*)*b") as (_ & _ & H).
  apply H; [reflexivity | discriminate].
Defined.


Lemma validate_rule_accepts (re_compile : regex_compiler) (rule_num : Z) (r : rule) :
  RuleValidation.validate_rule re_compile rule_num r = Return []
  <-> accepted re_compile r.
Proof.
  unfold RuleValidation.validate_rule, accepted.
  rewrite <- !truthy_true_iff.
  destruct (re_compile (get_or "" (rule_pattern r))) as [u|e]; simpl.
  - destruct (PyStr.truthy (get_or "" (rule_name r)));
      destruct (PyStr.truthy (get_or "" (rule_pattern r))); simpl;
      split; try discriminate; try (intros (A & B & _); discriminate).
    + intros _. repeat split. eauto.
    + reflexivity.
  - split.
    + destruct (is_re_error (exn_cls e)); [|discriminate].
      intros H. injection H as H. apply app_eq_nil in H. destruct H as [_ H].
      apply app_eq_nil in H. destruct H as [_ H]. discriminate.
    + intros (_ & _ & u & H). discriminate.
Qed.

Lemma validate_from_accepts (re_compile : regex_compiler) (rules : list rule) :
  forall i,
    RuleValidation.validate_from re_compile i rules = Return []
    <-> Forall (accepted re_compile) rules.
Proof.
  induction rules as [|r rules IH]; intros i; simpl.
  - split; [constructor | reflexivity].
  - pose proof (validate_rule_accepts re_compile (i + 1) r) as V.
    destruct (RuleValidation.validate_rule re_compile (i + 1) r) as [errs|e]; simpl.
    + specialize (IH (i + 1)).
      destruct (RuleValidation.validate_from re_compile (i + 1) rules)
        as [more|e]; simpl.
      * split.
        -- intros H. injection H as H. apply app_eq_nil in H. destruct H as [-> ->].
           constructor; [now apply V | now apply IH].
        -- intros H. inversion H as [|? ? Hr Hrest]; subst.
           apply V in Hr. injection Hr as ->. apply IH in Hrest.
           injection Hrest as ->. reflexivity.
      * split; [discriminate|]. intros H. inversion H as [|? ? _ Hrest]; subst.
        apply IH in Hrest. discriminate.
    + split; [discriminate|]. intros H. inversion H as [|? ? Hr _]; subst.
      apply V in Hr. discriminate.
Qed.

(** X15.  [validate_extraction_rules] returns no error message exactly when
    every rule has a name, a pattern, and a pattern that compiles; every
    rule of a rule set that passes is applied by [process_extracted_data]
    and gives a column of the report. *)
Theorem validated_rules_are_usable (re_compile : regex_compiler)
    (rules : list rule) :
  (RuleValidation.validate_extraction_rules re_compile rules = Return []
   <-> Forall (accepted re_compile) rules)
  /\ (RuleValidation.validate_extraction_rules re_compile rules = Return [] ->
      filter usable rules = rules
      /\ List.length (rule_columns rules) = List.length rules).
Proof.
  split; [apply validate_from_accepts|].
  intros H. apply validate_from_accepts in H.
  assert (F : filter usable rules = rules).
  { apply filter_all. intros r Hin.
    rewrite Forall_forall in H. destruct (H r Hin) as (A & B & _).
    unfold usable. apply truthy_true_iff in A, B. now rewrite A, B. }
  split; [exact F|]. unfold rule_columns. now rewrite F, length_map.
Qed.

Lemma validated_rules_witness :
  RuleValidation.validate_extraction_rules sample_compiler sample_rules = Return []
  /\ RuleValidation.validate_extraction_rules sample_compiler
       [mkRule None (Some "(") (Some "none")]
     = Return ["Rule 1: Missing field name";
               "Rule 1: Invalid regex pattern - missing ), unterminated subpattern at position 0"].
Proof.
  split; [|reflexivity].
  apply (validated_rules_are_usable sample_compiler sample_rules).
  repeat constructor; try discriminate; eexists; reflexivity.
Defined.

Lemma round_age_two_decimals_witness :
  DataTransformer.round_age "149.51" = Return (Some 150).
Proof.
  apply (round_age_two_decimals 149 51); lia.
Defined.

(** ** More on the run *)



Lemma last_progress (tr : trace) (percentage : Z) (message : string) :
  last (tr ++ ExtractionEngine.progress true percentage message)%list (Progress 0 "")
  = Progress percentage message.
Proof. unfold ExtractionEngine.progress. apply last_last. Qed.

(** X19.  With a progress callback, the first report of a run is 10,
    "Loading subject list...".  The report 100, "Extraction completed", is
    the last one whenever the run gets past the discovery of folders or
    stops on an exception; but when the run stops because the list of
    subjects is empty or because no folder matches, the reports end at 10
    or at 20 and the completion is never reported. *)
Theorem completion_not_reported_on_early_return (self : ExtractionEngine.t)
    (w : World) (root_folder subject_list_file target_filename : string)
    (schedule : list nat) :
  let tr := snd (ExtractionEngine.extract_data self w root_folder
                   subject_list_file target_filename true schedule) in
  hd (Progress 0 "") tr = Progress 10 "Loading subject list..."
  /\ (FileSystemNavigator.load_subject_list w subject_list_file = Return [] ->
      tr = [Progress 10 "Loading subject list..."])
  /\ (forall subject_list,
        FileSystemNavigator.load_subject_list w subject_list_file
          = Return subject_list ->
        subject_list <> [] ->
        FileSystemNavigator.get_subject_folders w root_folder subject_list
          = Return [] ->
        tr = [Progress 10 "Loading subject list...";
              Progress 20 "Finding subject folders..."])
  /\ (forall e,
        FileSystemNavigator.load_subject_list w subject_list_file = Raise e ->
        last tr (Progress 0 "") = Progress 100 "Extraction completed")
  /\ (forall subject_list,
        FileSystemNavigator.load_subject_list w subject_list_file
          = Return subject_list ->
        subject_list <> [] ->
        FileSystemNavigator.get_subject_folders w root_folder subject_list
          <> Return [] ->
        last tr (Progress 0 "") = Progress 100 "Extraction completed").
Proof.
  unfold ExtractionEngine.extract_data.
  destruct (FileSystemNavigator.load_subject_list w subject_list_file)
    as [[|sid0 subject_list]|e].
  - repeat split; intros; try reflexivity; try discriminate; congruence.
  - split; [|split; [discriminate|split; [|split; [discriminate|]]]].
    + destruct (FileSystemNavigator.get_subject_folders w root_folder
                  (sid0 :: subject_list)) as [[|folder fs]|e];
        try reflexivity.
      destruct (ExtractionEngine._process_subjects self w (folder :: fs)
                  target_filename true schedule) as [[recs calls]|e]; reflexivity.
    + intros l H _ G. injection H as <-. rewrite G.
      now destruct (ExtractionEngine.missing_of (sid0 :: subject_list) []).
    + intros l H _ G. injection H as <-.
      destruct (FileSystemNavigator.get_subject_folders w root_folder
                  (sid0 :: subject_list)) as [[|folder fs]|e];
        [congruence | |].
      * destruct (ExtractionEngine._process_subjects self w (folder :: fs)
                    target_filename true schedule) as [[recs calls]|e];
          unfold ExtractionEngine.extraction_error, ExtractionEngine.completed_run;
          cbn [snd]; apply last_progress.
      * unfold ExtractionEngine.extraction_error, ExtractionEngine.completed_run.
        cbn [snd]. apply last_progress.
  - split; [reflexivity|]. split; [discriminate|]. split; [discriminate|].
    split; [|discriminate]. intros e0 _.
    unfold ExtractionEngine.extraction_error, ExtractionEngine.completed_run.
    cbn [snd]. apply last_progress.
Qed.

Lemma completion_not_reported_witness :
  snd (ExtractionEngine.extract_data sample_engine sample_world "/other"
         "/data/subjects.txt" "report.pdf" true [])
  = [Progress 10 "Loading subject list..."; Progress 20 "Finding subject folders..."].
Proof.
  destruct (completion_not_reported_on_early_return sample_engine sample_world
              "/other" "/data/subjects.txt" "report.pdf" []) as (_ & _ & H & _).
  apply (H ["001"; "002"; "003"]); [reflexivity | discriminate | reflexivity].
Defined.

(** ** More on the pipeline of one subject *)

Lemma get_file_type_cases (file_path : string) :
  FileSystemNavigator.get_file_type file_path = "image"
  \/ FileSystemNavigator.get_file_type file_path = "pdf"
  \/ FileSystemNavigator.get_file_type file_path = "unknown".
Proof.
  unfold FileSystemNavigator.get_file_type.
  destruct (PyStr.mem _ FileSystemNavigator.image_formats); [now left|].
  destruct (PyStr.mem _ FileSystemNavigator.pdf_formats); [right; now left|].
  right. now right.
Qed.

(** The calls of the text extraction step: none, or one extraction on the
    target file. *)
Lemma extract_for_calls (self : ExtractionEngine.t) (w : World)
    (target_file file_type : string) :
  let calls := snd (ExtractionEngine.extract_for self w target_file file_type) in
  calls = []
  \/ (exists e, calls = [e] /\ is_extraction e = true
                /\ event_path e = target_file
                /\ (file_type = "image" \/ file_type = "pdf")).
Proof.
  unfold ExtractionEngine.extract_for, TextExtractor.extract_text_calls.
  destruct (String.eqb file_type "image") eqn:I;
    destruct (String.eqb file_type "pdf") eqn:P;
    destruct (ExtractionEngine.text_extractor self) as [te|]; simpl;
    rewrite ?I, ?P; simpl; try (now left);
    right; eexists; (split; [reflexivity|]); (split; [reflexivity|]);
    (split; [reflexivity|]);
    apply String.eqb_eq in I || apply String.eqb_eq in P; auto.
Qed.

(** Without a call the text extraction step has no text. *)
Lemma extract_for_no_call (self : ExtractionEngine.t) (w : World)
    (target_file file_type : string) :
  snd (ExtractionEngine.extract_for self w target_file file_type) = [] ->
  fst (ExtractionEngine.extract_for self w target_file file_type) = Return None.
Proof.
  unfold ExtractionEngine.extract_for, TextExtractor.extract_text_calls.
  destruct (String.eqb file_type "image") eqn:I;
    destruct (String.eqb file_type "pdf") eqn:P;
    destruct (ExtractionEngine.text_extractor self) as [te|]; simpl;
    rewrite ?I, ?P; simpl; try discriminate; reflexivity.
Qed.

(** X20.  The pipeline of a subject looks for the target files once and then
    makes at most one extraction call, on the file whose path the record
    carries and only when that file is an image or a PDF.  A successful
    record always comes from an extraction call, and without OCR no call is
    made for an image. *)
Theorem one_extraction_call_per_subject (self : ExtractionEngine.t) (w : World)
    (sid pname folder_path target_filename : string) :
  let r := fst (ExtractionEngine._process_single_subject self w sid pname
                  folder_path target_filename) in
  let tr := snd (ExtractionEngine._process_single_subject self w sid pname
                   folder_path target_filename) in
  exists calls,
    tr = FindTargetFiles folder_path :: calls
    /\ (calls = []
        \/ exists e,
             calls = [e] /\ is_extraction e = true
             /\ event_path e = file_path r
             /\ FileSystemNavigator.get_file_type (file_path r) <> "unknown")
    /\ (extraction_status r = "Success" -> calls <> [])
    /\ (FileSystemNavigator.get_file_type (file_path r) = "image" ->
        ExtractionEngine.tesseract_available self = false -> calls = []).
Proof.
  unfold ExtractionEngine._process_single_subject.
  destruct (FileSystemNavigator.find_target_files w folder_path target_filename)
    as [[|target_file rest]|e].
  1, 3: exists []; simpl; repeat split; try (now left); discriminate.
  destruct (String.eqb (FileSystemNavigator.get_file_type target_file) "unknown")
    eqn:U.
  { exists []. simpl. repeat split; try (now left); discriminate. }
  destruct (String.eqb (FileSystemNavigator.get_file_type target_file) "image"
            && negb (ExtractionEngine.tesseract_available self)) eqn:B.
  { exists []. simpl. repeat split; try (now left); discriminate. }
  pose proof (extract_for_calls self w target_file
                (FileSystemNavigator.get_file_type target_file)) as C.
  pose proof (extract_for_no_call self w target_file
                (FileSystemNavigator.get_file_type target_file)) as N.
  pose proof (extract_for_returns self w target_file
                (FileSystemNavigator.get_file_type target_file)) as [o Ho].
  destruct (ExtractionEngine.extract_for self w target_file
              (FileSystemNavigator.get_file_type target_file)) as [x calls].
  simpl in C, N, Ho. subst x. apply String.eqb_neq in U.
  assert (S : calls = []
              \/ exists e, calls = [e] /\ is_extraction e = true
                           /\ event_path e = target_file
                           /\ FileSystemNavigator.get_file_type target_file
                              <> "unknown").
  { destruct C as [C | (e & C1 & C2 & C3 & _)]; [now left|].
    right. exists e. now repeat split. }
  assert (I : FileSystemNavigator.get_file_type target_file = "image" ->
              ExtractionEngine.tesseract_available self = false -> calls = []).
  { intros T A. rewrite T, A in B. discriminate. }
  exists calls.
  destruct o as [text|]; [destruct (PyStr.truthy text) eqn:T|]; simpl.
  - split; [reflexivity|]. split; [exact S|]. split; [|exact I].
    intros _ E. specialize (N E). discriminate.
  - split; [reflexivity|]. split; [exact S|]. split; [discriminate | exact I].
  - split; [reflexivity|]. split; [exact S|]. split; [discriminate | exact I].
Qed.

Lemma one_extraction_call_witness :
  exists calls,
    snd (ExtractionEngine._process_single_subject sample_engine sample_world
           "001" "Jane Doe" "/data/001_Jane Doe" "report.pdf")
    = FindTargetFiles "/data/001_Jane Doe" :: calls
    /\ calls <> [].
Proof.
  destruct (one_extraction_call_per_subject sample_engine sample_world
              "001" "Jane Doe" "/data/001_Jane Doe" "report.pdf")
    as (calls & T & _ & S & _).
  exists calls. split; [exact T | exact (S eq_refl)].
Defined.

(** X21.  Only the first target file counts.  When target files are found,
    the record carries the path of the first one, whatever becomes of the
    extraction; when none is found the record is the failure "Target file
    ... not found" with an empty path.  The record is a success exactly
    when the first target file is of a supported type, OCR is on if it is
    an image, and its extraction gives a text that is not empty; the record
    then holds that path and that text and no error. *)
Theorem first_target_file_decides (self : ExtractionEngine.t) (w : World)
    (sid pname folder_path target_filename : string) :
  let r := fst (ExtractionEngine._process_single_subject self w sid pname
                  folder_path target_filename) in
  (FileSystemNavigator.find_target_files w folder_path target_filename
     = Return [] ->
   r = mkRecord sid pname "" None "Failed"
         (Some ("Target file '" ++ target_filename ++ "' not found")))
  /\ (forall target_file rest,
        FileSystemNavigator.find_target_files w folder_path target_filename
          = Return (target_file :: rest) ->
        file_path r = target_file
        /\ (extraction_status r = "Success"
            <-> FileSystemNavigator.get_file_type target_file <> "unknown"
                /\ (FileSystemNavigator.get_file_type target_file = "image" ->
                    ExtractionEngine.tesseract_available self = true)
                /\ exists text,
                     fst (ExtractionEngine.extract_for self w target_file
                            (FileSystemNavigator.get_file_type target_file))
                       = Return (Some text)
                     /\ text <> "")
        /\ (forall text,
              extracted_text r = Some text ->
              r = mkRecord sid pname target_file (Some text) "Success" None)).
Proof.
  unfold ExtractionEngine._process_single_subject.
  split.
  - intros ->. reflexivity.
  - intros target_file rest ->.
    destruct (String.eqb (FileSystemNavigator.get_file_type target_file) "unknown")
      eqn:U.
    { apply String.eqb_eq in U. simpl. split; [reflexivity|]. split.
      - split; [discriminate | intros (N & _); contradiction].
      - discriminate. }
    apply String.eqb_neq in U.
    destruct (String.eqb (FileSystemNavigator.get_file_type target_file) "image")
      eqn:I; destruct (ExtractionEngine.tesseract_available self) eqn:A; simpl.
    4: { destruct (ExtractionEngine.extract_for self w target_file
                     (FileSystemNavigator.get_file_type target_file)) as [x calls].
         apply String.eqb_neq in I. simpl.
         destruct x as [[text|]|e]; [destruct (PyStr.truthy text) eqn:T| |]; simpl;
           (split; [reflexivity|]); split;
           try (split; [discriminate|]; intros (_ & _ & t & H & Ht);
                try discriminate; injection H as <-;
                apply truthy_true_iff in Ht; congruence);
           try discriminate.
         - split; [|reflexivity]. intros _. split; [exact U|].
           split; [contradiction|]. exists text. split; [reflexivity|].
           now apply truthy_true_iff.
         - intros t H. injection H as <-. reflexivity. }
    2: { apply String.eqb_eq in I. split; [reflexivity|]. split.
         - split; [discriminate|]. intros (_ & H & _). specialize (H I). discriminate.
         - discriminate. }
    all: destruct (ExtractionEngine.extract_for self w target_file
                     (FileSystemNavigator.get_file_type target_file)) as [x calls];
      simpl;
      destruct x as [[text|]|e]; [destruct (PyStr.truthy text) eqn:T| |]; simpl;
      (split; [reflexivity|]); split;
      try (split; [discriminate|]; intros (_ & _ & t & H & Ht);
           try discriminate; injection H as <-;
           apply truthy_true_iff in Ht; congruence);
      try discriminate;
      try (intros t H; injection H as <-; reflexivity);
      (split; [|reflexivity]); intros _; (split; [exact U|]);
      (split; [reflexivity || (intros H; congruence)|]);
      exists text; (split; [reflexivity|]); now apply truthy_true_iff.
Qed.

Lemma first_target_file_witness :
  fst (ExtractionEngine._process_single_subject sample_engine sample_world
         "002" "John Smith" "/data/002_John Smith" "report.pdf")
  = mkRecord "002" "John Smith" "" None "Failed"
      (Some "Target file 'report.pdf' not found").
Proof.
  apply (first_target_file_decides sample_engine sample_world
           "002" "John Smith" "/data/002_John Smith" "report.pdf").
  reflexivity.
Defined.






(** ** More on the coordinator *)



Lemma filter_rejected {A} (keep reject : A -> bool) (l : list A) :
  forallb keep l = true ->
  (forall x, keep x = true -> reject x = false) ->
  filter reject l = [].
Proof.
  intros K R. induction l as [|a l IH]; [reflexivity|].
  simpl in K. apply andb_true_iff in K. destruct K as [Ka Kl].
  simpl. now rewrite (R a Ka), (IH Kl).
Qed.

(** The trace of the pipeline of one subject. *)
Lemma subject_trace_shape (self : ExtractionEngine.t) (w : World)
    (sid pname folder_path target_filename : string) :
  exists calls,
    snd (ExtractionEngine._process_single_subject self w sid pname folder_path
           target_filename) = FindTargetFiles folder_path :: calls
    /\ forallb is_extraction calls = true
    /\ (List.length calls <= 1)%nat.
Proof.
  unfold ExtractionEngine._process_single_subject.
  destruct (FileSystemNavigator.find_target_files w folder_path target_filename)
    as [[|target_file rest]|e]; try solve [exists nil; simpl; auto].
  destruct (String.eqb (FileSystemNavigator.get_file_type target_file) "unknown");
    [exists nil; simpl; auto|].
  destruct (String.eqb (FileSystemNavigator.get_file_type target_file) "image"
            && negb (ExtractionEngine.tesseract_available self));
    [exists nil; simpl; auto|].
  pose proof (extract_for_calls self w target_file
                (FileSystemNavigator.get_file_type target_file)) as C.
  destruct (ExtractionEngine.extract_for self w target_file
              (FileSystemNavigator.get_file_type target_file)) as [x calls].
  simpl in C. exists calls.
  assert (S : forallb is_extraction calls = true /\ (List.length calls <= 1)%nat).
  { destruct C as [-> | (e & -> & E & _)]; simpl; [auto|]. rewrite E. auto. }
  destruct x as [[text|]|e]; [destruct (PyStr.truthy text)| |]; simpl; tauto.
Qed.

(** The events of the loop of [_process_subjects] over submitted subjects. *)
Lemma collect_events (self : ExtractionEngine.t) (w : World)
    (target_filename : string) (has_callback : bool) (total : Z)
    (l : list FileSystemNavigator.subject_folder) :
  forall completed extraction_data tr,
    let out := snd (ExtractionEngine.collect has_callback total
                      (ExtractionEngine.submit_all self w target_filename l)
                      completed extraction_data tr) in
    filter is_find_target_files out
      = (filter is_find_target_files tr
           ++ map (fun folder => FindTargetFiles (snd folder)) l)%list
    /\ List.length (filter is_progress out)
       = (List.length (filter is_progress tr)
          + if has_callback then List.length l else 0)%nat
    /\ (List.length (filter is_extraction out)
        <= List.length (filter is_extraction tr) + List.length l)%nat.
Proof.
  induction l as [|[[sid pname] folder_path] l IH]; intros completed data tr.
  - simpl. rewrite app_nil_r. repeat split; try lia. now destruct has_callback.
  - simpl.
    destruct (subject_trace_shape self w sid pname folder_path target_filename)
      as (calls & S & E & B).
    destruct (ExtractionEngine._process_single_subject self w sid pname folder_path
                target_filename) as [result t]. simpl in S. subst t.
    match goal with
    | |- context [ExtractionEngine.collect _ _ _ ?c ?d ?t] =>
        destruct (IH c d t) as (F & P & X)
    end.
    assert (Fc : filter is_find_target_files calls = [])
      by (apply (filter_rejected is_extraction); [exact E | now intros []]).
    assert (Pc : filter is_progress calls = [])
      by (apply (filter_rejected is_extraction); [exact E | now intros []]).
    assert (Xc : filter is_extraction calls = calls)
      by (apply filter_all; now apply forallb_forall).
    split; [|split].
    + rewrite F. rewrite !filter_app. simpl. rewrite Fc.
      destruct has_callback; simpl; now rewrite <- !app_assoc.
    + rewrite P. rewrite !filter_app, !length_app. simpl. rewrite Pc.
      destruct has_callback; simpl; lia.
    + eapply Nat.le_trans; [exact X|].
      rewrite !filter_app, !length_app. simpl. rewrite Xc.
      destruct has_callback; simpl; lia.
Qed.

(** X25.  With a positive worker limit [_process_subjects] starts the
    pipeline of every completed subject exactly once, in the order of
    completion; it makes at most one extraction call for each of them; and
    it reports progress once for each of them when a callback is given, and
    never otherwise. *)
Theorem every_pipeline_started_once (self : ExtractionEngine.t) (w : World)
    (subject_folders : list FileSystemNavigator.subject_folder)
    (target_filename : string) (has_callback : bool) (schedule : list nat) :
  0 < ExtractionEngine.max_workers self ->
  let completed := ExtractionEngine.as_completed schedule subject_folders in
  exists recs tr,
    ExtractionEngine._process_subjects self w subject_folders target_filename
      has_callback schedule = Return (recs, tr)
    /\ filter is_find_target_files tr
       = map (fun folder => FindTargetFiles (snd folder)) completed
    /\ List.length (filter is_progress tr)
       = (if has_callback then List.length completed else 0%nat)
    /\ (List.length (filter is_extraction tr) <= List.length completed)%nat.
Proof.
  intros Hw completed. unfold ExtractionEngine._process_subjects.
  assert (E : (ExtractionEngine.max_workers self <=? 0) = false)
    by (apply Z.leb_gt; exact Hw).
  rewrite E.
  unfold ExtractionEngine.submit_all at 1. rewrite as_completed_map.
  destruct (collect_events self w target_filename has_callback
              (Z.of_nat (List.length subject_folders)) completed 0 [] [])
    as (F & P & X).
  set (out := ExtractionEngine.collect has_callback
                (Z.of_nat (List.length subject_folders))
                (ExtractionEngine.submit_all self w target_filename completed)
                0 [] []) in *.
  exists (fst out), (snd out). split.
  - unfold out, ExtractionEngine.submit_all, completed.
    now rewrite <- surjective_pairing.
  - simpl in F, P, X. auto.
Qed.

Lemma every_pipeline_started_once_witness :
  exists recs tr,
    ExtractionEngine._process_subjects sample_engine sample_world
      [("001", "Jane Doe", "/data/001_Jane Doe");
       ("002", "John Smith", "/data/002_John Smith")]
      "report.pdf" true [1; 0]%nat = Return (recs, tr)
    /\ filter is_find_target_files tr
       = [FindTargetFiles "/data/002_John Smith";
          FindTargetFiles "/data/001_Jane Doe"].
Proof.
  destruct (every_pipeline_started_once sample_engine sample_world
              [("001", "Jane Doe", "/data/001_Jane Doe");
               ("002", "John Smith", "/data/002_John Smith")]
              "report.pdf" true [1; 0]%nat)
    as (recs & tr & H & F & _).
  - reflexivity.
  - exists recs, tr. split; [exact H | exact F].
Defined.

(** ** The rules of the configuration *)

(** X26.  [load_extraction_rules] returns the rules of the rules file when
    it can be read.  When the file is missing it returns the four built-in
    rules, whose columns are Age, Gender, Date of Test and Clinician, in
    this order, and which are all applied; any other failure to read the
    file is raised.  [_get_default_rules] never raises: whatever goes wrong
    with the file, it returns the built-in rules. *)
Theorem rules_fall_back_to_builtin (read : ConfigManager.rules_reader)
    (config_dir : string) :
  (forall rules,
      read (ConfigManager.rules_config_path config_dir) = Return rules ->
      ConfigManager.load_extraction_rules read config_dir = Return rules
      /\ ConfigManager._get_default_rules read config_dir = rules)
  /\ (forall e,
        read (ConfigManager.rules_config_path config_dir) = Raise e ->
        ConfigManager._get_default_rules read config_dir
          = ConfigManager.builtin_rules
        /\ (exn_cls e = FileNotFoundError ->
            ConfigManager.load_extraction_rules read config_dir
              = Return ConfigManager.builtin_rules)
        /\ (exn_cls e <> FileNotFoundError ->
            ConfigManager.load_extraction_rules read config_dir = Raise e))
  /\ rule_columns ConfigManager.builtin_rules
     = ["Age"; "Gender"; "Date of Test"; "Clinician"]
  /\ NoDup ("Subject ID" :: "Name" :: rule_columns ConfigManager.builtin_rules).
Proof.
  unfold ConfigManager.load_extraction_rules, ConfigManager._get_default_rules,
    ConfigManager.rules_config_path.
  split; [|split; [|split]].
  - intros rules ->. now split.
  - intros e ->. simpl. split; [reflexivity|]. split.
    + intros ->. reflexivity.
    + intros N. destruct (exn_cls e); try reflexivity. congruence.
  - reflexivity.
  - repeat constructor; simpl; intuition discriminate.
Qed.

Lemma rules_fall_back_witness :
  ConfigManager.load_extraction_rules
    (fun _ => Raise (mkExn FileNotFoundError "[Errno 2] No such file or directory"))
    "config"
  = Return ConfigManager.builtin_rules.
Proof.
  destruct (rules_fall_back_to_builtin
              (fun _ => Raise (mkExn FileNotFoundError
                                 "[Errno 2] No such file or directory"))
              "config") as (_ & H & _).
  destruct (H _ eq_refl) as (_ & F & _). exact (F eq_refl).
Defined.

(** ** The checks before a run *)

Lemma substring_whole (s : string) :
  String.substring 0 (String.length s) s = s.
Proof. induction s as [|c s IH]; simpl; [reflexivity | now rewrite IH]. Qed.

Lemma substring_is_suffix (n : nat) :
  forall s, (n <= String.length s)%nat ->
  exists pre, s = pre ++ String.substring n (String.length s - n) s.
Proof.
  induction n as [|n IH]; intros s L.
  - exists "". rewrite Nat.sub_0_r, substring_whole. reflexivity.
  - destruct s as [|c s]; [simpl in L; lia|].
    destruct (IH s) as [pre E]; [simpl in L; lia|].
    exists (String c pre). simpl. now rewrite <- E.
Qed.

Lemma map_chars_app (f : ascii -> ascii) (a b : string) :
  PyStr.map_chars f (a ++ b) = PyStr.map_chars f a ++ PyStr.map_chars f b.
Proof. induction a as [|c a IH]; simpl; [reflexivity | now rewrite IH]. Qed.

Lemma endswith_app (a b : string) : endswith (a ++ b) b = true.
Proof.
  induction a as [|c a IH].
  - destruct b; simpl; [reflexivity|].
    now rewrite Ascii.eqb_refl, String.eqb_refl.
  - simpl. rewrite IH. apply orb_true_r.
Qed.

(** A file name that [get_file_type] takes for an image ends in one of the
    image extensions. *)
Lemma image_type_is_image_name (dir name : string) :
  lacks "/" name = true -> name <> "" -> name <> "." ->
  FileSystemNavigator.get_file_type (dir ++ "/" ++ name) = "image" ->
  MainWindow.is_image name = true.
Proof.
  intros L N D T.
  unfold FileSystemNavigator.get_file_type, FileSystemNavigator.path_suffix in T.
  rewrite (path_name_of_file dir name L N D) in T.
  destruct ((0 <? PyStr.rfind "." name)
            && (PyStr.rfind "." name <? PyStr.len name - 1)) eqn:C;
    [|discriminate T].
  apply andb_true_iff in C. destruct C as [C1 C2].
  apply Z.ltb_lt in C1. apply Z.ltb_lt in C2.
  destruct (PyStr.mem (PyStr.lower (PyStr.drop (PyStr.rfind "." name) name))
              FileSystemNavigator.image_formats) eqn:M.
  2:{ destruct (PyStr.mem _ FileSystemNavigator.pdf_formats); discriminate T. }
  clear T. unfold PyStr.mem in M. apply existsb_exists in M.
  destruct M as (ext & I & E). apply String.eqb_eq in E. subst ext.
  unfold MainWindow.is_image. apply existsb_exists.
  exists (PyStr.lower (PyStr.drop (PyStr.rfind "." name) name)).
  split; [exact I|].
  unfold PyStr.drop.
  destruct (substring_is_suffix (Z.to_nat (PyStr.rfind "." name)) name) as [pre P].
  { unfold PyStr.len in C2. lia. }
  rewrite P at 1. unfold PyStr.lower. rewrite map_chars_app.
  apply endswith_app.
Qed.

(** X27.  The checks that the main window makes before it starts a run.
    [validate_inputs] lets a run start only when the three fields are filled
    in and the data folder and the subject list file exist.  When the target
    name ends in an image extension, whatever its letter case, and no OCR
    engine was detected, the run starts only after the user chose to
    proceed.  For a target name that is not empty, holds no slash and is not
    a single dot, this test covers the pipeline: a name that [get_file_type]
    takes for an image, in whatever folder, ends in an image extension.
    Otherwise the
    two tests differ, in both directions: the name [.png] ends in an image
    extension and is of type ["unknown"] for [get_file_type], and the name
    [scan.png/] does not end in one while [get_file_type] of the joined path
    is ["image"]. *)
Theorem validate_inputs_guards_run (w : World)
    (data_folder subject_list target_filename : string)
    (tesseract_available proceed_anyway : bool) :
  (MainWindow.validate_inputs w data_folder subject_list target_filename
     tesseract_available proceed_anyway = true ->
   data_folder <> "" /\ subject_list <> "" /\ target_filename <> ""
   /\ path_exists w data_folder = true
   /\ path_exists w subject_list = true)
  /\ (MainWindow.is_image target_filename = true ->
      tesseract_available = false ->
      proceed_anyway = false ->
      MainWindow.validate_inputs w data_folder subject_list target_filename
        tesseract_available proceed_anyway = false)
  /\ (forall folder,
        target_filename <> "" ->
        lacks "/" target_filename = true -> target_filename <> "." ->
        FileSystemNavigator.get_file_type (folder ++ "/" ++ target_filename)
          = "image" ->
        MainWindow.is_image target_filename = true)
  /\ (MainWindow.is_image ".png" = true
      /\ FileSystemNavigator.get_file_type
           ("/data/001_Jane Doe/1" ++ "/" ++ ".png") = "unknown")
  /\ (MainWindow.is_image "scan.png/" = false
      /\ FileSystemNavigator.get_file_type
           ("/data/001_Jane Doe/1" ++ "/" ++ "scan.png/") = "image").
Proof.
  split; [|split; [|split; [|split]]].
  - unfold MainWindow.validate_inputs. intros V.
    destruct (PyStr.truthy data_folder) eqn:A; [|discriminate V].
    destruct (PyStr.truthy subject_list) eqn:B; [|discriminate V].
    destruct (PyStr.truthy target_filename) eqn:C; [|discriminate V].
    destruct (path_exists w data_folder) eqn:E1; [|discriminate V].
    destruct (path_exists w subject_list) eqn:E2; [|discriminate V].
    apply truthy_true_iff in A. apply truthy_true_iff in B.
    apply truthy_true_iff in C.
    repeat split; assumption || reflexivity.
  - intros I -> ->. unfold MainWindow.validate_inputs. rewrite I.
    destruct (PyStr.truthy data_folder); [|reflexivity].
    destruct (PyStr.truthy subject_list); [|reflexivity].
    destruct (PyStr.truthy target_filename); [|reflexivity].
    destruct (path_exists w data_folder); [|reflexivity].
    destruct (path_exists w subject_list); reflexivity.
  - intros folder N L D T.
    exact (image_type_is_image_name folder target_filename L N D T).
  - split; reflexivity.
  - split; reflexivity.
Qed.

Lemma validate_inputs_witness :
  MainWindow.validate_inputs sample_world "/data" "/data/subjects.txt" "scan.png"
    false false = false.
Proof.
  destruct (validate_inputs_guards_run sample_world "/data" "/data/subjects.txt"
              "scan.png" false false) as (_ & G & C & _).
  apply G; [|reflexivity|reflexivity].
  apply (C "/data/001_Jane Doe/1");
    [discriminate | reflexivity | discriminate | reflexivity].
Defined.

(** ** From the request to the rows of the report *)

Lemma as_completed_nil (A : Type) (schedule : list nat) :
  ExtractionEngine.as_completed schedule (@nil A) = [].
Proof.
  unfold ExtractionEngine.as_completed.
  induction schedule as [|i schedule IH]; simpl; [reflexivity|].
  rewrite IH. now destruct i.
Qed.


(** The records of a run are those of the discovered folders, in the order
    of completion. *)
Lemma extract_data_records (self : ExtractionEngine.t) (w : World)
    (root_folder subject_list_file target_filename : string)
    (has_callback : bool) (schedule : list nat) :
  0 < ExtractionEngine.max_workers self ->
  ExtractionEngine.data
    (fst (ExtractionEngine.extract_data self w root_folder subject_list_file
            target_filename has_callback schedule))
  = map (record_of self w target_filename)
        (ExtractionEngine.as_completed schedule
           (discovered w root_folder subject_list_file)).
Proof.
  intros Hw. unfold discovered, ExtractionEngine.extract_data.
  destruct (FileSystemNavigator.load_subject_list w subject_list_file)
    as [[|sid0 subject_list]|e] eqn:L.
  - destruct (FileSystemNavigator.get_subject_folders w root_folder []) eqn:G.
    + rewrite (get_subject_folders_nil w root_folder _ G), as_completed_nil.
      reflexivity.
    + rewrite as_completed_nil. reflexivity.
  - destruct (FileSystemNavigator.get_subject_folders w root_folder
                (sid0 :: subject_list)) as [[|folder fs]|e].
    + rewrite as_completed_nil.
      destruct (ExtractionEngine.missing_of (sid0 :: subject_list) []);
        reflexivity.
    + destruct (process_subjects_records self w (folder :: fs) target_filename
                  has_callback schedule Hw) as [tr ->].
      reflexivity.
    + rewrite as_completed_nil. simpl. now destruct has_callback.
  - rewrite as_completed_nil. simpl. now destruct has_callback.
Qed.







(** ** The summary sheet *)

Lemma summary_at_most_text (re_search : regex_engine) (rules : list rule)
    (raw_data : list subject_record) :
  forall rows,
    DataProcessor.process_extracted_data re_search rules raw_data = Return rows ->
    List.length rows = List.length raw_data
    /\ (List.length (filter DataProcessor.has_data rows)
        <= List.length (filter has_text raw_data))%nat.
Proof.
  induction raw_data as [|record raw_data IH]; intros rows H.
  - simpl in H. injection H as <-. split; [reflexivity | apply Nat.le_refl].
  - simpl in H.
    destruct (DataProcessor.process_record re_search rules record) as [row|e] eqn:P;
      [|discriminate].
    simpl in H.
    destruct (DataProcessor.process_extracted_data re_search rules raw_data)
      as [rest|e]; [|discriminate].
    simpl in H. injection H as <-.
    destruct (IH rest eq_refl) as [L C]. split; [simpl; now rewrite L|].
    simpl filter. unfold DataProcessor.process_record in P. unfold has_text at 1.
    destruct (extracted_text record) as [text|].
    + destruct (PyStr.truthy text).
      * destruct (DataProcessor.has_data row); simpl; lia.
      * injection P as <-. exact C.
    + injection P as <-. exact C.
Qed.

Lemma record_text_iff_success (self : ExtractionEngine.t) (w : World)
    (target_filename : string) (s : FileSystemNavigator.subject_folder) :
  has_text (record_of self w target_filename s)
  = String.eqb (extraction_status (record_of self w target_filename s)) "Success".
Proof.
  destruct s as [[sid pname] folder_path]. unfold record_of, has_text.
  destruct (process_single_subject_record self w sid pname folder_path
              target_filename) as (_ & _ & [(S & T & _)|(S & _ & text & T & N)]);
    rewrite S, T; [reflexivity|].
  apply truthy_true_iff in N. now rewrite N.
Qed.

Lemma extract_data_counts (self : ExtractionEngine.t) (w : World)
    (root_folder subject_list_file target_filename : string)
    (has_callback : bool) (schedule : list nat) :
  let res := fst (ExtractionEngine.extract_data self w root_folder
                    subject_list_file target_filename has_callback schedule) in
  ExtractionEngine.processed_subjects res
    = Z.of_nat (List.length (ExtractionEngine.data res))
  /\ ExtractionEngine.successful_extractions res
     = Z.of_nat (List.length (ExtractionEngine.data res)).
Proof.
  unfold ExtractionEngine.extract_data.
  destruct (FileSystemNavigator.load_subject_list w subject_list_file)
    as [[|sid0 subject_list]|e]; [simpl; auto | | simpl; auto].
  destruct (FileSystemNavigator.get_subject_folders w root_folder
              (sid0 :: subject_list)) as [[|folder fs]|e]; [| | simpl; auto].
  - destruct (ExtractionEngine.missing_of (sid0 :: subject_list) []); simpl; auto.
  - destruct (Z_lt_le_dec 0 (ExtractionEngine.max_workers self)) as [Hw|Hw].
    + destruct (process_subjects_records self w (folder :: fs) target_filename
                  has_callback schedule Hw) as [tr ->].
      unfold ExtractionEngine.completed_run. cbn [fst snd].
      cbn [ExtractionEngine.successful_extractions
           ExtractionEngine.processed_subjects ExtractionEngine.data].
      rewrite filter_all; [split; reflexivity|].
      intros r Hr. apply in_map_iff in Hr. destruct Hr as [s [<- _]].
      apply has_extracted_data_of_status, stored_record_status.
    + unfold ExtractionEngine._process_subjects.
      apply Z.leb_le in Hw. rewrite Hw.
      destruct (ExtractionEngine.missing_of (sid0 :: subject_list) (folder :: fs));
        simpl; auto.
Qed.

(** X29.  The summary sheet and the run.  The number that the summary sheet
    gives as "Records with Extracted Data" counts only rows of records whose
    extraction succeeded: it is at most the number of ['Success'] records of
    the run, and so at most the run's own [successful_extractions], which
    counts every record.  There is one row for every record. *)
Theorem summary_counts_at_most_success_records (self : ExtractionEngine.t)
    (w : World) (re_search : regex_engine)
    (root_folder subject_list_file target_filename : string)
    (has_callback : bool) (schedule : list nat) (rows : list pydict) :
  0 < ExtractionEngine.max_workers self ->
  let res := fst (ExtractionEngine.extract_data self w root_folder
                    subject_list_file target_filename has_callback schedule) in
  DataProcessor.process_extracted_data re_search
    (ExtractionEngine.extraction_rules self) (ExtractionEngine.data res)
    = Return rows ->
  Z.of_nat (List.length rows) = ExtractionEngine.processed_subjects res
  /\ 0 <= DataProcessor.summary_successful_extractions rows
  /\ DataProcessor.summary_successful_extractions rows
     <= Z.of_nat (List.length
                    (filter (fun record =>
                               String.eqb (extraction_status record) "Success")
                            (ExtractionEngine.data res)))
  /\ DataProcessor.summary_successful_extractions rows
     <= ExtractionEngine.successful_extractions res.
Proof.
  intros Hw res P.
  destruct (summary_at_most_text _ _ _ _ P) as [L C].
  destruct (extract_data_counts self w root_folder subject_list_file
              target_filename has_callback schedule) as (Pr & Su).
  fold res in Pr, Su.
  assert (T : filter has_text (ExtractionEngine.data res)
              = filter (fun record =>
                          String.eqb (extraction_status record) "Success")
                       (ExtractionEngine.data res)).
  { apply filter_ext_in. intros record Hin. subst res.
    rewrite (extract_data_records _ _ _ _ _ _ _ Hw) in Hin.
    apply in_map_iff in Hin. destruct Hin as (s & <- & _).
    apply record_text_iff_success. }
  unfold DataProcessor.summary_successful_extractions.
  pose proof (filter_length_le DataProcessor.has_data rows) as B.
  rewrite <- T. rewrite Su, Pr, <- L. repeat split; lia.
Qed.

Lemma summary_counts_witness :
  DataProcessor.summary_successful_extractions
    [[("Subject ID", PStr "002"); ("Name", PStr "John Smith")];
     [("Subject ID", PStr "001"); ("Name", PStr "Jane Doe");
      ("Age", PNone); ("Gender", PNone)]]
  <= ExtractionEngine.successful_extractions
       (fst (ExtractionEngine.extract_data sample_engine sample_world "/data"
               "/data/subjects.txt" "report.pdf" false [1; 0]%nat)).
Proof.
  destruct (summary_counts_at_most_success_records sample_engine sample_world
              no_match_engine "/data" "/data/subjects.txt" "report.pdf" false
              [1; 0]%nat
              [[("Subject ID", PStr "002"); ("Name", PStr "John Smith")];
               [("Subject ID", PStr "001"); ("Name", PStr "Jane Doe");
                ("Age", PNone); ("Gender", PNone)]]
              eq_refl eq_refl)
    as (_ & _ & _ & H).
  exact H.
Defined.

(** ** The progress reports of the subjects *)

Lemma reported_app (a b : trace) :
  reported (a ++ b)%list = (reported a ++ reported b)%list.
Proof. apply flat_map_app. Qed.

Lemma reported_extraction (calls : trace) :
  forallb is_extraction calls = true -> reported calls = [].
Proof.
  induction calls as [|e calls IH]; [reflexivity|].
  simpl. intros H. apply andb_true_iff in H. destruct H as [He Hc].
  destruct e; try discriminate He; exact (IH Hc).
Qed.

(** The percentages that the loop of [_process_subjects] reports. *)
Lemma collect_reported (self : ExtractionEngine.t) (w : World)
    (target_filename : string) (total : Z)
    (l : list FileSystemNavigator.subject_folder) :
  forall completed extraction_data tr,
    map fst (reported (snd (ExtractionEngine.collect true total
                              (ExtractionEngine.submit_all self w target_filename l)
                              completed extraction_data tr)))
    = (map fst (reported tr)
         ++ map (fun k => ExtractionEngine.progress_percentage
                            (completed + Z.of_nat k) total)
                (seq 1 (List.length l)))%list.
Proof.
  induction l as [|[[sid pname] folder_path] l IH]; intros completed data tr.
  - simpl. now rewrite app_nil_r.
  - simpl ExtractionEngine.submit_all. simpl ExtractionEngine.collect.
    destruct (subject_trace_shape self w sid pname folder_path target_filename)
      as (calls & S & E & _).
    destruct (ExtractionEngine._process_single_subject self w sid pname folder_path
                target_filename) as [result t]. simpl in S. subst t.
    rewrite IH. rewrite !reported_app.
    change (reported (FindTargetFiles folder_path :: calls)) with (reported calls).
    rewrite (reported_extraction calls E). simpl List.length.
    change (seq 1 (S (List.length l))) with (1%nat :: seq 2 (List.length l)).
    rewrite <- (seq_shift (List.length l) 1).
    rewrite map_cons, (map_map S). simpl app.
    rewrite map_app. cbn [map fst]. rewrite <- app_assoc. cbn [app].
    f_equal. f_equal.
    apply map_ext. intros k. f_equal. lia.
Qed.

Lemma rising_nth (l : list Z) :
  rising l = true ->
  forall k, (S k < List.length l)%nat -> nth k l 0 <= nth (S k) l 0.
Proof.
  induction l as [|a l IH]; intros R k Hk; [simpl in Hk; lia|].
  destruct l as [|b l]; [simpl in Hk; lia|].
  change (rising (a :: b :: l)) with ((a <=? b) && rising (b :: l)) in R.
  apply andb_true_iff in R. destruct R as [Hab R].
  destruct k as [|k].
  - simpl. now apply Z.leb_le.
  - change (nth k (b :: l) 0 <= nth (S k) (b :: l) 0).
    apply (IH R). simpl in Hk. simpl. lia.
Qed.

Lemma percentages_checked_to_200 (n : nat) :
  (n <= 200)%nat -> percentages_checked n = true.
Proof.
  intros Hn.
  assert (T : forallb percentages_checked (seq 0 201) = true)
    by (vm_compute; reflexivity).
  rewrite forallb_forall in T. apply T. apply in_seq. lia.
Qed.

(** X30.  The progress reports of [_process_subjects] for up to 200
    subjects, when every task completes once: there is one report for every
    subject; report [k] of [n] carries [30 + int((k / n) * 50)] computed in
    binary64, which lies between 30 and 80, never falls from one report to
    the next, and is 80 in the last report.  It is the exact value
    [30 + (50 * k) div n] or one less: after 29 of 50 subjects the report
    says 58 where the exact value is 59. *)
Theorem progress_reports_rise_to_80 (self : ExtractionEngine.t) (w : World)
    (subject_folders : list FileSystemNavigator.subject_folder)
    (target_filename : string) (schedule : list nat)
    (recs : list subject_record) (tr : trace) :
  0 < ExtractionEngine.max_workers self ->
  Permutation schedule (seq 0 (List.length subject_folders)) ->
  (List.length subject_folders <= 200)%nat ->
  ExtractionEngine._process_subjects self w subject_folders target_filename
    true schedule = Return (recs, tr) ->
  let n := List.length subject_folders in
  let ps := map fst (reported tr) in
  List.length ps = n
  /\ (forall k, (k < n)%nat ->
        nth k ps 0
          = ExtractionEngine.progress_percentage (Z.of_nat (S k)) (Z.of_nat n)
        /\ 30 <= nth k ps 0 <= 80
        /\ exact_percentage (Z.of_nat (S k)) (Z.of_nat n) - 1 <= nth k ps 0
           <= exact_percentage (Z.of_nat (S k)) (Z.of_nat n))
  /\ (forall k, (S k < n)%nat -> nth k ps 0 <= nth (S k) ps 0)
  /\ (n <> 0%nat -> last ps 0 = 80)
  /\ ExtractionEngine.progress_percentage 29 50 = 58
  /\ exact_percentage 29 50 = 59.
Proof.
  intros Hw Perm Hn H n ps.
  unfold ExtractionEngine._process_subjects in H.
  assert (E : (ExtractionEngine.max_workers self <=? 0) = false)
    by (apply Z.leb_gt; exact Hw).
  rewrite E in H. unfold ExtractionEngine.submit_all at 1 in H.
  rewrite as_completed_map in H. injection H as H.
  change (ExtractionEngine.collect true (Z.of_nat (List.length subject_folders))
            (ExtractionEngine.submit_all self w target_filename
               (ExtractionEngine.as_completed schedule subject_folders))
            0 [] [] = (recs, tr)) in H.
  assert (P : ps = map snd (percentages n)).
  { subst ps. apply (f_equal snd) in H. cbn [snd] in H. rewrite <- H.
    rewrite collect_reported. cbn [reported flat_map map app].
    rewrite (Permutation_length (as_completed_permutation _ _ Perm)).
    unfold percentages. rewrite map_map. reflexivity. }
  pose proof (percentages_checked_to_200 n Hn) as C.
  unfold percentages_checked in C. apply andb_true_iff in C.
  destruct C as [C R]. rewrite forallb_forall in C. rewrite <- P in R.
  assert (L : List.length ps = n)
    by (rewrite P; unfold percentages; rewrite !length_map; apply length_seq).
  assert (N : forall k, (k < n)%nat ->
              nth k ps 0
              = ExtractionEngine.progress_percentage (Z.of_nat (S k)) (Z.of_nat n)).
  { intros k Hk. rewrite P. unfold percentages. rewrite map_map. cbn [snd].
    rewrite (nth_indep _ 0 (ExtractionEngine.progress_percentage
                              (Z.of_nat 0) (Z.of_nat n)))
      by (rewrite length_map, length_seq; exact Hk).
    rewrite (map_nth (fun k0 => ExtractionEngine.progress_percentage
                                  (Z.of_nat k0) (Z.of_nat n))).
    rewrite seq_nth by exact Hk. reflexivity. }
  assert (K : forall k, (k < n)%nat ->
              percentage_checked (Z.of_nat n)
                (Z.of_nat (S k),
                 ExtractionEngine.progress_percentage (Z.of_nat (S k)) (Z.of_nat n))
              = true).
  { intros k Hk. apply C. unfold percentages.
    apply (in_map (fun completed =>
                     (Z.of_nat completed,
                      ExtractionEngine.progress_percentage (Z.of_nat completed)
                        (Z.of_nat n)))).
    apply in_seq. lia. }
  split; [exact L|]. split; [|split; [|split; [|split]]].
  - intros k Hk. split; [exact (N k Hk)|]. rewrite (N k Hk).
    specialize (K k Hk). unfold percentage_checked in K.
    rewrite !andb_true_iff in K. destruct K as ((((A & B) & D) & F) & _).
    apply Z.leb_le in A, B, D, F. lia.
  - intros k Hk. apply (rising_nth ps R). rewrite L. exact Hk.
  - intros Hn0. destruct n as [|m] eqn:En; [contradiction|].
    assert (Lp : ps <> []) by (intros Z; rewrite Z in L; discriminate L).
    destruct (exists_last Lp) as (front & p & Ep).
    rewrite Ep, last_last.
    assert (Lf : List.length front = m).
    { rewrite Ep, length_app in L. simpl in L. lia. }
    pose proof (N m ltac:(lia)) as Nm.
    rewrite Ep, app_nth2, Lf, Nat.sub_diag in Nm by lia. simpl in Nm.
    rewrite Nm.
    specialize (K m ltac:(lia)). unfold percentage_checked in K.
    rewrite !andb_true_iff in K. destruct K as (_ & Z).
    apply orb_true_iff in Z. destruct Z as [Z|Z].
    + now apply Z.eqb_eq in Z.
    + rewrite Z.eqb_refl in Z. discriminate Z.
  - vm_compute. reflexivity.
  - reflexivity.
Qed.

Lemma progress_reports_witness :
  match ExtractionEngine._process_subjects sample_engine sample_world
          [("001", "Jane Doe", "/data/001_Jane Doe");
           ("002", "John Smith", "/data/002_John Smith")]
          "report.pdf" true [1; 0]%nat with
  | Return (_, tr) =>
      List.length (map fst (reported tr)) = 2%nat
      /\ last (map fst (reported tr)) 0 = 80
  | Raise _ => False
  end.
Proof.
  destruct (ExtractionEngine._process_subjects sample_engine sample_world
              [("001", "Jane Doe", "/data/001_Jane Doe");
               ("002", "John Smith", "/data/002_John Smith")]
              "report.pdf" true [1; 0]%nat) as [[recs tr]|e] eqn:R;
    [|discriminate R].
  destruct (progress_reports_rise_to_80 sample_engine sample_world
              [("001", "Jane Doe", "/data/001_Jane Doe");
               ("002", "John Smith", "/data/002_John Smith")]
              "report.pdf" [1; 0]%nat recs tr) as (L & _ & _ & Last & _).
  - reflexivity.
  - apply perm_swap.
  - simpl. lia.
  - exact R.
  - split; [exact L | apply Last; discriminate].
Defined.
